(** * surfacerecon: endpoint modelling, test generation, replay and
    differential analysis

    A shallow embedding of the offline pipeline of surfacerecon
    ([parser/har_parser.py], [generator/test_generator.py],
    [runner/test_runner.py], [analyzer/diff_analyzer.py], [settings.py]).

    Conventions of the embedding:
    - a Python [str] is a [string] of ASCII characters;
    - a Python [dict] is an association list in insertion order (iteration
      order of [.items()] is observable in this program);
    - a Python [set] whose elements are later listed with [list(...)] is a
      duplicate-free list in insertion order (Python leaves that order
      unspecified; nothing proved below depends on it);
    - a function that can raise returns [option], [None] standing for the
      exception reaching the caller. *)

From Stdlib Require Import String Ascii List ZArith Bool Arith Lia.
From Stdlib Require Import DecimalString QArith.
Import ListNotations.

Close Scope Q_scope.

Local Open Scope string_scope.
Local Open Scope list_scope.

(** ** Python strings *)

Module PyStr.

Definition is_upper (c : ascii) : bool :=
  let n := nat_of_ascii c in ((65 <=? n) && (n <=? 90))%nat.

Definition lower_char (c : ascii) : ascii :=
  if is_upper c then ascii_of_nat (nat_of_ascii c + 32) else c.

(** [s.lower()] *)
Fixpoint lower (s : string) : string :=
  match s with
  | EmptyString => EmptyString
  | String c s' => String (lower_char c) (lower s')
  end.

(** [sub in s] *)
Fixpoint contains (sub s : string) : bool :=
  prefix sub s ||
  match s with
  | EmptyString => false
  | String _ s' => contains sub s'
  end.

Definition is_digit_char (c : ascii) : bool :=
  let n := nat_of_ascii c in ((48 <=? n) && (n <=? 57))%nat.

Fixpoint all_chars (p : ascii -> bool) (s : string) : bool :=
  match s with
  | EmptyString => true
  | String c s' => p c && all_chars p s'
  end.

(** [s.isdigit()]: at least one character, all of them digits. *)
Definition isdigit (s : string) : bool :=
  match s with
  | EmptyString => false
  | _ => all_chars is_digit_char s
  end.

(** [s.split(sep)] for a one-character separator. *)
Fixpoint split (sep : ascii) (s : string) : list string :=
  match s with
  | EmptyString => [EmptyString]
  | String c s' =>
      if Ascii.eqb c sep then EmptyString :: split sep s'
      else match split sep s' with
           | [] => [String c EmptyString]
           | h :: t => String c h :: t
           end
  end.

(** [sep.join(l)] *)
Definition join (sep : string) (l : list string) : string :=
  String.concat sep l.

(** [s[:n]] *)
Fixpoint take (n : nat) (s : string) : string :=
  match n, s with
  | O, _ => EmptyString
  | _, EmptyString => EmptyString
  | S n', String c s' => String c (take n' s')
  end.

(** [s[n:]] *)
Fixpoint drop (n : nat) (s : string) : string :=
  match n, s with
  | O, _ => s
  | _, EmptyString => EmptyString
  | S n', String _ s' => drop n' s'
  end.

(** [s.replace(old, new)] for a non-empty [old]: occurrences are found
    left to right and do not overlap.  [skip] counts the characters of
    an occurrence still to be passed over. *)
Fixpoint replace_from (old new : string) (skip : nat) (s : string) : string :=
  match s with
  | EmptyString => EmptyString
  | String c s' =>
      match skip with
      | S k => replace_from old new k s'
      | O =>
          if prefix old s
          then (new ++ replace_from old new (String.length old - 1) s')%string
          else String c (replace_from old new 0 s')
      end
  end.

Definition replace (old new s : string) : string :=
  replace_from old new 0 s.

(** [str(z)] for an [int]. *)
Definition str_of_Z (z : Z) : string :=
  NilZero.string_of_int (Z.to_int z).

(** [c * n] for a one-character string. *)
Fixpoint repeat_char (c : ascii) (n : nat) : string :=
  match n with
  | O => EmptyString
  | S n' => String c (repeat_char c n')
  end.

Definition is_hex_char (c : ascii) : bool :=
  let n := nat_of_ascii c in
  is_digit_char c || ((97 <=? n) && (n <=? 102))%nat || ((65 <=? n) && (n <=? 70))%nat.

(** [n] hexadecimal characters at the head of [s]; the rest is returned. *)
Fixpoint hex_run (n : nat) (s : string) : option string :=
  match n with
  | O => Some s
  | S n' =>
      match s with
      | String c s' => if is_hex_char c then hex_run n' s' else None
      | EmptyString => None
      end
  end.

Definition dash (s : string) : option string :=
  match s with
  | String "-" s' => Some s'
  | _ => None
  end.

Definition obind {A B} (o : option A) (f : A -> option B) : option B :=
  match o with Some a => f a | None => None end.

(** [re.match(r"^[0-9a-f]{8}-[0-9a-f]{4}-[0-9a-f]{4}-[0-9a-f]{4}-[0-9a-f]{12}$", s, re.IGNORECASE)];
    [$] also matches just before a final newline. *)
Definition uuid_match (s : string) : bool :=
  match obind (hex_run 8 s) (fun s1 =>
        obind (dash s1) (fun s1 =>
        obind (hex_run 4 s1) (fun s2 =>
        obind (dash s2) (fun s2 =>
        obind (hex_run 4 s2) (fun s3 =>
        obind (dash s3) (fun s3 =>
        obind (hex_run 4 s3) (fun s4 =>
        obind (dash s4) (fun s4 =>
        hex_run 12 s4)))))))) with
  | Some EmptyString => true
  | Some (String "010" EmptyString) => true
  | _ => false
  end.

End PyStr.

(** ** Python dictionaries, sets and JSON values *)

Module PyDict.
Section Ops.
Context {K V : Type} (keqb : K -> K -> bool).

Definition dict := list (K * V).

(** [d.get(k)] *)
Fixpoint get (k : K) (d : dict) : option V :=
  match d with
  | [] => None
  | (k', v) :: d' => if keqb k k' then Some v else get k d'
  end.

(** [d[k] = v]: an existing key keeps its place, a new key goes last. *)
Fixpoint set (k : K) (v : V) (d : dict) : dict :=
  match d with
  | [] => [(k, v)]
  | (k', v') :: d' =>
      if keqb k k' then (k', v) :: d' else (k', v') :: set k v d'
  end.

(** [d[k] = f(d[k])] on a [defaultdict] whose factory gives [dflt]. *)
Definition modify (k : K) (dflt : V) (f : V -> V) (d : dict) : dict :=
  set k (f (match get k d with Some v => v | None => dflt end)) d.

Definition keys (d : dict) : list K := map fst d.
End Ops.

(** [{k: f(v) for k, v in d.items()}] *)
Definition map_values {K V W : Type} (f : V -> W) (d : list (K * V)) : list (K * W) :=
  map (fun kv => (fst kv, f (snd kv))) d.
End PyDict.

Module PySet.
(** [s.add(x)] *)
Definition add (x : string) (s : list string) : list string :=
  if existsb (String.eqb x) s then s else s ++ [x].

(** [s.update(xs)] *)
Definition update (xs : list string) (s : list string) : list string :=
  fold_left (fun s x => add x s) xs s.
End PySet.

#[local] Set Warnings "-register-all,-abstract-large-number".

(** A value returned by [json.loads].  A float is kept as the text that
    [str()] gives for it. *)
Inductive json : Type :=
| JNull
| JBool (b : bool)
| JInt (z : Z)
| JFloat (text : string)
| JStr (s : string)
| JList (l : list json)
| JDict (d : list (string * json)).

Module Json.
Definition nonempty {A} (l : list A) : bool :=
  match l with [] => false | _ => true end.

(** [bool(j)] *)
Definition truthy (j : json) : bool :=
  match j with
  | JNull => false
  | JBool b => b
  | JInt z => negb (Z.eqb z 0)
  | JFloat t => negb (String.eqb t "0.0" || String.eqb t "-0.0")
  | JStr s => negb (String.eqb s "")
  | JList l => nonempty l
  | JDict d => nonempty d
  end.

(** [isinstance(j, (str, int, float, bool))] *)
Definition is_scalar (j : json) : bool :=
  match j with
  | JBool _ | JInt _ | JFloat _ | JStr _ => true
  | _ => false
  end.

(** [str(j)] for the scalars of [is_scalar]. *)
Definition str (j : json) : string :=
  match j with
  | JBool true => "True"
  | JBool false => "False"
  | JInt z => PyStr.str_of_Z z
  | JFloat t => t
  | JStr s => s
  | _ => ""
  end.
End Json.

(** ** The capture log ([requests.json]) *)

Module Capture.
(** A key that is absent from the JSON object is [None]. *)
Record Response := mkResponse {
  status : option Z;
  body : option string
}.

Record Request := mkRequest {
  method : option string;
  url : option string;
  post_data : option string;
  response : option Response
}.

Definition get_or {A} (o : option A) (dflt : A) : A :=
  match o with Some a => a | None => dflt end.
End Capture.

(** ** [parser/har_parser.py] *)

Module HarParser.

(** *** [urllib.parse.urlparse], as far as [.path] and [.query] go

    The model covers URLs without leading blanks or control characters
    and without tab, CR or LF inside, and among them those that
    [urlparse] accepts: on a host with an unmatched square bracket
    [urlparse] raises [ValueError], which the model does not.  What is
    proved of a result that [parse_requests] returns holds of the runs
    in which [urlparse] has accepted every URL. *)

Definition is_alpha_char (c : ascii) : bool :=
  let n := nat_of_ascii c in
  (((97 <=? n) && (n <=? 122)) || ((65 <=? n) && (n <=? 90)))%nat.

Definition is_scheme_char (c : ascii) : bool :=
  is_alpha_char c || PyStr.is_digit_char c
  || Ascii.eqb c "+" || Ascii.eqb c "-" || Ascii.eqb c ".".

(** [s.split(c, 1)]: the text before the first [c] and, when [c] occurs,
    the text after it. *)
Fixpoint cut (c : ascii) (s : string) : string * option string :=
  match s with
  | EmptyString => (EmptyString, None)
  | String a s' =>
      if Ascii.eqb a c then (EmptyString, Some s')
      else let '(h, t) := cut c s' in (String a h, t)
  end.

Definition strip_scheme (url : string) : string * string :=
  match url with
  | String a _ =>
      if is_alpha_char a then
        match cut ":" url with
        | (pre, Some rest) =>
            if PyStr.all_chars is_scheme_char pre
            then (PyStr.lower pre, rest) else (EmptyString, url)
        | _ => (EmptyString, url)
        end
      else (EmptyString, url)
  | EmptyString => (EmptyString, url)
  end.

(** The text from the first of [/], [?] and [#] on. *)
Fixpoint after_netloc (s : string) : string :=
  match s with
  | EmptyString => EmptyString
  | String a s' =>
      if Ascii.eqb a "/" || Ascii.eqb a "?" || Ascii.eqb a "#"
      then s else after_netloc s'
  end.

Definition strip_netloc (url : string) : string :=
  match url with
  | String "/" (String "/" rest) => after_netloc rest
  | _ => url
  end.

Definition uses_params : list string :=
  [""; "ftp"; "hdl"; "prospero"; "http"; "imap"; "https"; "shttp"; "rtsp";
   "rtspu"; "sip"; "sips"; "mms"; "sftp"; "tel"].

(** [_splitparams]: the [;parameters] of the last path segment go. *)
Fixpoint strip_params (segs : list string) : list string :=
  match segs with
  | [] => []
  | [last] => [fst (cut ";" last)]
  | seg :: rest => seg :: strip_params rest
  end.

Definition urlparse (url : string) : string * string :=
  let '(scheme, rest) := strip_scheme url in
  let rest := strip_netloc rest in
  let rest := fst (cut "#" rest) in
  let '(path, query) := cut "?" rest in
  let path :=
    if existsb (String.eqb scheme) uses_params
    then PyStr.join "/" (strip_params (PyStr.split "/" path))
    else path in
  (path, Capture.get_or query "").

(** [normalize_url(url)]: [(parsed.path, parsed.query)] *)
Definition normalize_url (url : string) : string * string := urlparse url.

(** *** [detect_template_path] *)

Definition UUID_RE := PyStr.uuid_match.

Fixpoint enumerate_from {A} (i : nat) (l : list A) : list (nat * A) :=
  match l with
  | [] => []
  | a :: l' => (i, a) :: enumerate_from (S i) l'
  end.

Definition enumerate {A} (l : list A) : list (nat * A) := enumerate_from 0 l.

(** The segments found at index [i] in those of [seen_paths] that are
    long enough. *)
Definition segments_at (i : nat) (seen_paths : list string) : list string :=
  flat_map (fun seen_path =>
              match nth_error (PyStr.split "/" seen_path) i with
              | Some seg => [seg]
              | None => []
              end) seen_paths.

Definition template_segment (segments seen_paths : list string)
           (i : nat) (segment : string) : string :=
  let segs := segments_at i seen_paths in
  let is_numeric := existsb PyStr.isdigit segs in
  let is_uuid := existsb (fun seg => negb (PyStr.isdigit seg) && UUID_RE seg) segs in
  if is_numeric then "{id:int}"
  else if is_uuid then "{id:uuid}"
  else if negb (String.eqb segment (hd EmptyString segments))
          && existsb (fun seg => negb (String.eqb seg segment)) segs
       then "{param}"
       else segment.

Definition detect_template_path (path : string) (seen_paths : list string) : string :=
  match seen_paths with
  | [] => path
  | _ =>
      let segments := PyStr.split "/" path in
      PyStr.join "/"
        (map (fun '(i, segment) => template_segment segments seen_paths i segment)
             (enumerate segments))
  end.

(** *** [EndpointModel] and [parse_requests] *)

Record Parameters := mkParameters {
  path : list (string * list string);
  query : list (string * list string);
  body : list (string * list string)
}.

Record EndpointModel := mkEndpointModel {
  method : string;
  templated_path : string;
  parameters : Parameters;
  sample_bodies : list (list (string * json));
  observed_ids : list (string * list string)
}.

Definition key_eqb (a b : string * string) : bool :=
  String.eqb (fst a) (fst b) && String.eqb (snd a) (snd b).

Definition req_url (req : Capture.Request) : string :=
  Capture.get_or (Capture.url req) "".

Definition str_of_nat (n : nat) : string := PyStr.str_of_Z (Z.of_nat n).

Section WithLibraries.

(** [urllib.parse.parse_qs] and [json.loads] are taken as they come;
    [json_loads] is [None] where [json.loads] raises
    [JSONDecodeError] or [ValueError].  Another exception of
    [json.loads] ([RecursionError] on a text nested too deep) is not
    caught by the code and has no counterpart here: what is proved of a
    returned result holds of the runs in which there was none. *)
Variable parse_qs : string -> list (string * list string).
Variable json_loads : string -> option json.

Definition extract_query_params (query_string : string) : list (string * list string) :=
  if String.eqb query_string "" then [] else parse_qs query_string.

Definition extract_json_body (body : string) : option json :=
  if String.eqb body "" || String.eqb body "(unable to read body)"
  then None
  else json_loads body.

(** The first loop: requests with a response, grouped by method and
    concrete path. *)
Definition group_requests (requests_data : list Capture.Request)
  : list ((string * string) * list Capture.Request) :=
  fold_left
    (fun endpoint_groups req =>
       match Capture.response req with
       | None => endpoint_groups
       | Some _ =>
           let method := Capture.get_or (Capture.method req) "GET" in
           let '(path, _) := normalize_url (req_url req) in
           PyDict.modify key_eqb (method, path) [] (fun l => l ++ [req]) endpoint_groups
       end)
    requests_data [].

Definition collect_query_params (requests : list Capture.Request)
  : list (string * list string) :=
  fold_left
    (fun query_params req =>
       let '(_, query) := normalize_url (req_url req) in
       if String.eqb query "" then query_params
       else fold_left
              (fun qp '(key, values) =>
                 PyDict.modify String.eqb key [] (PySet.update values) qp)
              (extract_query_params query) query_params)
    requests [].

Definition collect_path_params (base_path : string) (requests : list Capture.Request)
  : list (string * list string) :=
  fold_left
    (fun path_params req =>
       let path_segments := PyStr.split "/" (fst (normalize_url (req_url req))) in
       let base_segments := PyStr.split "/" base_path in
       fold_left
         (fun pp '(i, (seg, base_seg)) =>
            if String.eqb seg base_seg then pp
            else
              let param_name :=
                if Nat.ltb i (List.length base_segments)
                then ("param_" ++ str_of_nat i)%string else "id" in
              PyDict.modify String.eqb param_name [] (PySet.add seg) pp)
         (enumerate (combine path_segments base_segments)) path_params)
    requests [].

(** The text whose JSON content is recorded for a request: its
    [post_data], or the body of its response when that is empty. *)
Definition body_text (req : Capture.Request) : string :=
  let body_str := Capture.get_or (Capture.post_data req) "" in
  if String.eqb body_str ""
  then match Capture.response req with
       | Some response => Capture.get_or (Capture.body response) ""
       | None => ""
       end
  else body_str.

Definition BodyState : Type :=
  (list (list (string * json)) * list (string * list string))%type.

(** One turn of the body loop; [None] when [json_body.items()] raises
    because the parsed value is not an object. *)
Definition body_step (st : BodyState) (req : Capture.Request) : option BodyState :=
  let '(sample_bodies, body_params) := st in
  match extract_json_body (body_text req) with
  | Some json_body =>
      if Json.truthy json_body then
        match json_body with
        | JDict items =>
            Some (sample_bodies ++ [items],
                  fold_left
                    (fun bp '(key, value) =>
                       if Json.is_scalar value
                       then PyDict.modify String.eqb key [] (PySet.add (Json.str value)) bp
                       else bp)
                    items body_params)
        | _ => None
        end
      else Some st
  | None => Some st
  end.

Fixpoint collect_bodies (st : BodyState) (requests : list Capture.Request)
  : option BodyState :=
  match requests with
  | [] => Some st
  | req :: rest =>
      match body_step st req with
      | Some st' => collect_bodies st' rest
      | None => None
      end
  end.

Definition id_like (param_name : string) : bool :=
  PyStr.contains "id" (PyStr.lower param_name).

Definition collect_observed_ids (parameters : Parameters) : list (string * list string) :=
  let ids :=
    fold_left (fun o '(param_name, values) =>
                 PyDict.set String.eqb param_name (firstn 20 values) o)
              (path parameters) [] in
  let ids :=
    fold_left (fun o '(param_name, values) =>
                 if id_like param_name
                 then PyDict.set String.eqb param_name (firstn 20 values) o else o)
              (query parameters) ids in
  fold_left (fun o '(param_name, values) =>
               if id_like param_name
               then PyDict.set String.eqb param_name (firstn 20 values) o else o)
            (body parameters) ids.

(** The body of the second loop, for one group. *)
Definition build_endpoint (method base_path : string) (requests : list Capture.Request)
  : option EndpointModel :=
  let all_paths := map (fun req => fst (normalize_url (req_url req))) requests in
  let templated_path := detect_template_path base_path all_paths in
  let query_params := collect_query_params requests in
  let path_params := collect_path_params base_path requests in
  match collect_bodies ([], []) requests with
  | None => None
  | Some (sample_bodies, body_params) =>
      let parameters :=
        {| path := path_params;
           query := query_params;
           body := PyDict.map_values (firstn 10) body_params |} in
      Some {| method := method;
              templated_path := templated_path;
              parameters := parameters;
              sample_bodies := firstn 5 sample_bodies;
              observed_ids := collect_observed_ids parameters |}
  end.

Fixpoint build_endpoints (groups : list ((string * string) * list Capture.Request))
  : option (list EndpointModel) :=
  match groups with
  | [] => Some []
  | ((method, base_path), requests) :: rest =>
      match build_endpoint method base_path requests with
      | None => None
      | Some endpoint =>
          match build_endpoints rest with
          | None => None
          | Some endpoints => Some (endpoint :: endpoints)
          end
      end
  end.

(** [parse_requests], from the decoded content of [requests.json]. *)
Definition parse_requests (requests_data : list Capture.Request)
  : option (list EndpointModel) :=
  build_endpoints (group_requests requests_data).

End WithLibraries.

End HarParser.

(** ** [settings.py] *)

Module Settings.
Definition DEFAULT_MAX_TESTS_PER_ENDPOINT : nat := 30.
Definition IDOR_TEST_COUNT : nat := 10.
Definition AUTH_BYPASS_TEST_COUNT : nat := 5.
Definition METHOD_CONFUSION_TEST_COUNT : nat := 10.
Definition MASS_ASSIGNMENT_TEST_COUNT : nat := 5.

Definition MAX_BODY_SIZE : nat := 20 * 1024.

Definition SUSPICIOUS_FIELDS : list string :=
  ["isAdmin"; "is_admin"; "admin"; "role"; "roles"; "isOwner"; "is_owner";
   "owner"; "permissions"; "permission"; "accessLevel"; "access_level";
   "privileges"; "privilege"; "superuser"; "super_user"; "isSuperuser";
   "is_superuser"].

Definition SENSITIVE_FIELDS : list string :=
  ["ownerId"; "owner_id"; "userId"; "user_id"; "email"; "role"; "roles";
   "isAdmin"; "is_admin"; "permissions"; "accessLevel"; "access_level"].

Definition DEFAULT_RESEARCHER_HEADER : list (string * string) :=
  [("User-Agent", "surfacerecon/1.0")].

Definition HTTP_METHODS : list string :=
  ["GET"; "POST"; "PUT"; "DELETE"; "OPTIONS"; "HEAD"; "PATCH"].

Definition DESTRUCTIVE_METHODS : list string := ["DELETE"].

(** [LENGTH_DIFF_THRESHOLD = 0.30], as the fraction [30 / 100]. *)
Definition LENGTH_DIFF_THRESHOLD_NUM : Z := 30.
Definition LENGTH_DIFF_THRESHOLD_DEN : Z := 100.

Definition STATUS_CHANGE_HIGH : list (Z * list Z) :=
  [(403, [200; 201; 204]); (401, [200; 201; 204]); (404, [200; 201; 204])]%Z.

Definition STATUS_CHANGE_MEDIUM : list (Z * list Z) :=
  [(404, [200; 201; 204]); (400, [200; 201; 204])]%Z.

Definition PAYMENT_KEYWORDS : list string :=
  ["payment"; "checkout"; "pay"; "billing"; "credit-card"; "creditcard";
   "purchase"; "subscribe"; "subscription"; "upgrade"; "premium"].

Definition ID_PATTERNS : list string :=
  ["id"; "Id"; "ID"; "userId"; "user_id"; "userID"; "projectId"; "project_id";
   "projectID"; "accountId"; "account_id"; "accountID"; "resourceId";
   "resource_id"; "resourceID"].
End Settings.

(** ** The enriched endpoint set ([endpoints.json]) as the generator reads it *)

Module Endpoint.
(** An identifier of a pool: an [int] of [integer_ids] or a [str] of
    [uuid_ids] and [string_ids]. *)
Inductive id_value : Type :=
| IdInt (z : Z)
| IdStr (s : string).

(** [a == b] *)
Definition id_eqb (a b : id_value) : bool :=
  match a, b with
  | IdInt x, IdInt y => Z.eqb x y
  | IdStr x, IdStr y => String.eqb x y
  | _, _ => false
  end.

(** [bool(a)] *)
Definition id_truthy (a : id_value) : bool :=
  match a with
  | IdInt z => negb (Z.eqb z 0)
  | IdStr s => negb (String.eqb s "")
  end.

(** [str(a)] *)
Definition id_str (a : id_value) : string :=
  match a with
  | IdInt z => PyStr.str_of_Z z
  | IdStr s => s
  end.

Definition id_json (a : id_value) : json :=
  match a with
  | IdInt z => JInt z
  | IdStr s => JStr s
  end.

Record IDPool := mkIDPool {
  integer_ids : list Z;
  uuid_ids : list string;
  string_ids : list string
}.

Record t := mk {
  method : string;
  templated_path : string;
  sample_bodies : list (list (string * json));
  id_pools : list (string * IDPool)
}.

(** The three buckets of a pool, one after the other. *)
Definition pool_ids (pool_data : IDPool) : list id_value :=
  map IdInt (integer_ids pool_data)
  ++ map IdStr (uuid_ids pool_data)
  ++ map IdStr (string_ids pool_data).
End Endpoint.

(** ** [generator/test_generator.py] *)

Module TestGenerator.
Import Settings.

Record TestCase := mkTestCase {
  test_id : string;
  test_type : string;
  endpoint : string;
  method : string;
  url : string;
  headers : list (string * string);
  body : option (list (string * json));
  cookies : bool;
  description : string
}.

(** *** Randomness

    [random.choice] draws from the process-wide generator.  The [k]-th
    draw of a run is the number [rng k]; the count of draws made so far
    is threaded through the generator. *)
Definition Rng := nat -> nat.

Definition choice {A} (rng : Rng) (k : nat) (seq : list A) : option A :=
  nth_error seq (rng k mod List.length seq).

(** *** [generate_idor_tests] *)

(** The cross-endpoint pool union, in first-seen order of the names. *)
Definition collect_all_id_pools (all_endpoints : list Endpoint.t)
  : list (string * list Endpoint.id_value) :=
  fold_left
    (fun all_id_pools ep =>
       fold_left
         (fun acc '(pool_name, pool_data) =>
            PyDict.modify String.eqb pool_name []
                          (fun l => l ++ Endpoint.pool_ids pool_data) acc)
         (Endpoint.id_pools ep) all_id_pools)
    all_endpoints [].

(** The inner [for ... break] loop: the first pool under another name
    that holds a value different from [original_id], and a value drawn
    from it. *)
Fixpoint find_target (rng : Rng) (k : nat)
         (source_pool_name : string) (original_id : Endpoint.id_value)
         (all_id_pools : list (string * list Endpoint.id_value))
  : option (string * Endpoint.id_value) :=
  match all_id_pools with
  | [] => None
  | (pool_name, pool_ids) :: rest =>
      let candidate_ids :=
        filter (fun id_val => negb (Endpoint.id_eqb id_val original_id)) pool_ids in
      if negb (String.eqb pool_name source_pool_name) && Json.nonempty candidate_ids
      then match choice rng k candidate_ids with
           | Some target_id => Some (pool_name, target_id)
           | None => None
           end
      else find_target rng k source_pool_name original_id rest
  end.

Definition concretize (templated_path : string) (target_id : Endpoint.id_value) : string :=
  let test_url := PyStr.replace "{id:int}" (Endpoint.id_str target_id) templated_path in
  let test_url := PyStr.replace "{id:uuid}" (Endpoint.id_str target_id) test_url in
  PyStr.replace "{param}" (Endpoint.id_str target_id) test_url.

Definition idor_body (ep : Endpoint.t) (source_pool_name : string)
           (target_id : Endpoint.id_value) : option (list (string * json)) :=
  match Endpoint.sample_bodies ep with
  | [] => None
  | first :: _ =>
      Some (map (fun '(key, value) =>
                   if String.eqb key source_pool_name
                      || PyStr.contains "id" (PyStr.lower key)
                   then (key, Endpoint.id_json target_id)
                   else (key, value)) first)
  end.

(** One turn of the main loop at index [i], starting with [k] draws
    made: the test appended, if any, and the draws made after it.  A
    turn that ends in [continue] appends nothing.  (The [break] on an
    empty list of pool names is never reached: [generate_idor_tests]
    returns before the loop when the endpoint has no pool.) *)
Definition idor_iteration (ep : Endpoint.t)
           (all_id_pools : list (string * list Endpoint.id_value))
           (rng : Rng) (k : nat) (i : nat) : option TestCase * nat :=
  let pool_names := PyDict.keys (Endpoint.id_pools ep) in
  match choice rng k pool_names with
  | None => (None, k)
  | Some source_pool_name =>
      let source_ids :=
        match PyDict.get String.eqb source_pool_name (Endpoint.id_pools ep) with
        | Some source_pool => Endpoint.pool_ids source_pool
        | None => []
        end in
      match choice rng (k + 1) source_ids with
      | None => (None, k + 1)
      | Some original_id =>
          match find_target rng (k + 2) source_pool_name original_id all_id_pools with
          | None => (None, k + 2)
          | Some (target_pool_name, target_id) =>
              if Endpoint.id_truthy target_id then
                (Some {| test_id := "idor_" ++ Endpoint.templated_path ep ++ "_"
                                    ++ HarParser.str_of_nat i;
                         test_type := "IDOR";
                         endpoint := Endpoint.templated_path ep;
                         method := Endpoint.method ep;
                         url := concretize (Endpoint.templated_path ep) target_id;
                         headers := [];
                         body := idor_body ep source_pool_name target_id;
                         cookies := true;
                         description :=
                           "IDOR: Replace " ++ source_pool_name ++ "="
                           ++ Endpoint.id_str original_id ++ " with "
                           ++ target_pool_name ++ "=" ++ Endpoint.id_str target_id |},
                 k + 3)
              else (None, k + 3)
          end
      end
  end%string.

Fixpoint idor_loop (ep : Endpoint.t)
         (all_id_pools : list (string * list Endpoint.id_value))
         (rng : Rng) (k : nat) (indices : list nat) : list TestCase * nat :=
  match indices with
  | [] => ([], k)
  | i :: rest =>
      let '(test, k') := idor_iteration ep all_id_pools rng k i in
      let '(tests, k'') := idor_loop ep all_id_pools rng k' rest in
      (match test with Some t => t :: tests | None => tests end, k'')
  end.

Definition generate_idor_tests (ep : Endpoint.t) (all_endpoints : list Endpoint.t)
           (count : nat) (rng : Rng) (k : nat) : list TestCase * nat :=
  match Endpoint.id_pools ep with
  | [] => ([], k)
  | _ =>
      let all_id_pools := collect_all_id_pools all_endpoints in
      let n := Nat.min count (List.length (Endpoint.id_pools ep) * 5) in
      let '(tests, k') := idor_loop ep all_id_pools rng k (seq 0 n) in
      (firstn count tests, k')
  end.

(** *** [generate_auth_bypass_tests] *)

Definition generate_auth_bypass_tests (ep : Endpoint.t) (count : nat) : list TestCase :=
  map (fun i =>
         {| test_id := "auth_bypass_" ++ Endpoint.templated_path ep ++ "_"
                       ++ HarParser.str_of_nat i;
            test_type := "AUTH_BYPASS";
            endpoint := Endpoint.templated_path ep;
            method := Endpoint.method ep;
            url := Endpoint.templated_path ep;
            headers := [];
            body := None;
            cookies := false;
            description := "Auth bypass: Remove authentication cookies/headers" |}%string)
      (seq 0 count).

(** *** [generate_method_confusion_tests] *)

Definition mem (x : string) (l : list string) : bool := existsb (String.eqb x) l.

Definition alternative_methods (original_method : string) (allow_destructive : bool)
           (count : nat) : list string :=
  let alternative_methods :=
    filter (fun m => negb (String.eqb m original_method)) HTTP_METHODS in
  let alternative_methods :=
    if negb allow_destructive
    then filter (fun m => negb (mem m DESTRUCTIVE_METHODS)) alternative_methods
    else alternative_methods in
  firstn count alternative_methods.

Definition generate_method_confusion_tests (ep : Endpoint.t) (allow_destructive : bool)
           (count : nat) : list TestCase :=
  map (fun m =>
         {| test_id := "method_confusion_" ++ Endpoint.templated_path ep ++ "_" ++ m;
            test_type := "METHOD_CONFUSION";
            endpoint := Endpoint.templated_path ep;
            method := m;
            url := Endpoint.templated_path ep;
            headers := [];
            body := hd_error (Endpoint.sample_bodies ep);
            cookies := true;
            description :=
              "Method confusion: Try " ++ m ++ " instead of " ++ Endpoint.method ep |}%string)
      (alternative_methods (Endpoint.method ep) allow_destructive count).

(** *** [generate_mass_assignment_tests] *)

(** The value injected for a suspicious field: the [if]/[elif] chain of
    the loop body. *)
Definition injected_value (field : string) : json :=
  if PyStr.contains "admin" (PyStr.lower field) || PyStr.contains "is" (PyStr.lower field)
  then JBool true
  else if PyStr.contains "role" (PyStr.lower field)
  then JStr "admin"
  else if PyStr.contains "permission" (PyStr.lower field)
          || PyStr.contains "access" (PyStr.lower field)
  then JStr "full"
  else JBool true.

Definition generate_mass_assignment_tests (ep : Endpoint.t) (count : nat) : list TestCase :=
  if negb (mem (Endpoint.method ep) ["POST"; "PUT"; "PATCH"]) then []
  else
    let base_body :=
      match Endpoint.sample_bodies ep with
      | [] => []
      | first :: _ => first
      end in
    let suspicious_fields := firstn count SUSPICIOUS_FIELDS in
    map (fun '(i, field) =>
           let test_body := PyDict.set String.eqb field (injected_value field) base_body in
           {| test_id := "mass_assignment_" ++ Endpoint.templated_path ep ++ "_"
                         ++ HarParser.str_of_nat i;
              test_type := "MASS_ASSIGNMENT";
              endpoint := Endpoint.templated_path ep;
              method := Endpoint.method ep;
              url := Endpoint.templated_path ep;
              headers := [];
              body := Some test_body;
              cookies := true;
              description :=
                "Mass assignment: Add suspicious field " ++ field ++ "="
                ++ Json.str (injected_value field) |}%string)
        (HarParser.enumerate suspicious_fields).

(** *** [generate_tests] *)

Definition endpoint_tests (ep : Endpoint.t) (endpoints : list Endpoint.t)
           (max_tests : nat) (allow_destructive : bool) (rng : Rng) (k : nat)
  : list TestCase * nat :=
  let '(idor_tests, k') := generate_idor_tests ep endpoints IDOR_TEST_COUNT rng k in
  let auth_tests := generate_auth_bypass_tests ep AUTH_BYPASS_TEST_COUNT in
  let method_tests :=
    generate_method_confusion_tests ep allow_destructive METHOD_CONFUSION_TEST_COUNT in
  let mass_tests := generate_mass_assignment_tests ep MASS_ASSIGNMENT_TEST_COUNT in
  let endpoint_tests := idor_tests ++ auth_tests ++ method_tests ++ mass_tests in
  (if Nat.ltb max_tests (List.length endpoint_tests)
   then firstn max_tests endpoint_tests else endpoint_tests, k').

Fixpoint generate_from (todo : list Endpoint.t) (endpoints : list Endpoint.t)
         (max_tests : nat) (allow_destructive : bool) (rng : Rng) (k : nat)
  : list TestCase :=
  match todo with
  | [] => []
  | ep :: rest =>
      let '(tests, k') := endpoint_tests ep endpoints max_tests allow_destructive rng k in
      tests ++ generate_from rest endpoints max_tests allow_destructive rng k'
  end.

(** [generate_tests], from the decoded [endpoints.json] to the content
    of [tests.json]. *)
Definition generate_tests (endpoints : list Endpoint.t) (max_tests : nat)
           (allow_destructive : bool) (rng : Rng) : list TestCase :=
  generate_from endpoints endpoints max_tests allow_destructive rng 0.

End TestGenerator.

(** ** [runner/test_runner.py] *)

Module TestRunner.

(** *** Requests, and what the HTTP client answers *)

Record HttpRequest := mkHttpRequest {
  rq_method : string;
  rq_url : string;
  rq_headers : list (string * string);
  rq_cookies : option (list (string * string));
  rq_json : option (list (string * json))
}.

(** The ways [await client.request(...)] ends.  [text] is [None] when
    reading [response.text] raises. *)
Inductive Outcome : Type :=
| Responded (status_code : Z) (reason_phrase : string)
            (headers : list (string * string)) (text : option string)
| TimeoutException
| RequestError (detail : string)
| OtherException (detail : string).

Record ResponseRecord := mkResponseRecord {
  status : Z;
  status_text : string;
  headers : list (string * string);
  body : string
}.

(** A result dictionary.  The keys that the exception branch of
    [run_tests] leaves out are [None]. *)
Record TestResult := mkTestResult {
  test_id : string;
  test_type : option string;
  endpoint : option string;
  method : option string;
  url : option string;
  timestamp : option string;
  success : bool;
  error : option string;
  response : option ResponseRecord
}.

Definition TRUNCATION_MARKER : string := String "010" "... (truncated)".

(** The capture of [response.text] in [run_single_test]. *)
Definition capture_body (text : option string) : string :=
  match text with
  | Some response_body =>
      if Nat.ltb 20000 (String.length response_body)
      then (PyStr.take 20000 response_body ++ TRUNCATION_MARKER)%string
      else response_body
  | None => "(unable to read body)"
  end.

(** [d.update(e)] *)
Definition dict_update {V} (e d : list (string * V)) : list (string * V) :=
  fold_left (fun d '(k, v) => PyDict.set String.eqb k v d) e d.

Definition merge_headers (headers : option (list (string * string)))
           (test_headers : list (string * string)) : list (string * string) :=
  let request_headers := [] in
  let request_headers :=
    match headers with
    | Some h => if Json.nonempty h then dict_update h request_headers else request_headers
    | None => request_headers
    end in
  let request_headers :=
    dict_update Settings.DEFAULT_RESEARCHER_HEADER request_headers in
  dict_update test_headers request_headers.

Definition cookie_dict (use_cookies : bool) (cookies : option (list (string * string)))
  : list (string * string) :=
  match cookies with
  | Some cs => if use_cookies then dict_update cs [] else []
  | None => []
  end.

Definition build_request (test : TestGenerator.TestCase)
           (cookies : option (list (string * string)))
           (headers : option (list (string * string))) : HttpRequest :=
  let cd := cookie_dict (TestGenerator.cookies test) cookies in
  {| rq_method := TestGenerator.method test;
     rq_url := TestGenerator.url test;
     rq_headers := merge_headers headers (TestGenerator.headers test);
     rq_cookies := if Json.nonempty cd then Some cd else None;
     rq_json :=
       match TestGenerator.body test with
       | Some test_body =>
           if Json.nonempty test_body
              && TestGenerator.mem (TestGenerator.method test) ["POST"; "PUT"; "PATCH"]
           then Some test_body else None
       | None => None
       end |}.

(** [run_single_test], given the reading of the wall clock and the
    client's answer to the request that is sent.  The wait for the rate
    token that comes first changes nothing in the result; it is the
    matter of [RateLimiter] below. *)
Definition run_single_test (test : TestGenerator.TestCase)
           (client : HttpRequest -> Outcome)
           (cookies : option (list (string * string)))
           (headers : option (list (string * string)))
           (now : string) : TestResult :=
  let result :=
    {| test_id := TestGenerator.test_id test;
       test_type := Some (TestGenerator.test_type test);
       endpoint := Some (TestGenerator.endpoint test);
       method := Some (TestGenerator.method test);
       url := Some (TestGenerator.url test);
       timestamp := Some now;
       success := false;
       error := None;
       response := None |} in
  let with_error (e : string) :=
    {| test_id := test_id result; test_type := test_type result;
       endpoint := endpoint result; method := method result;
       url := url result; timestamp := timestamp result;
       success := false; error := Some e; response := None |} in
  match client (build_request test cookies headers) with
  | Responded status_code reason_phrase hs text =>
      {| test_id := test_id result; test_type := test_type result;
         endpoint := endpoint result; method := method result;
         url := url result; timestamp := timestamp result;
         success := true; error := None;
         response := Some {| status := status_code;
                             status_text := reason_phrase;
                             headers := hs;
                             body := capture_body text |} |}
  | TimeoutException => with_error "Request timeout"
  | RequestError detail => with_error ("Request error: " ++ detail)
  | OtherException detail => with_error ("Unexpected error: " ++ detail)
  end%string.

(** *** [run_tests]

    What the world gives to the task of index [i]: either an exception
    that escapes [run_single_test] (raised while the client is set up,
    say), or the clock reading and the behaviour of the client. *)
Record TaskWorld := mkTaskWorld {
  escapes : option string;
  clock : string;
  client : HttpRequest -> Outcome
}.

(** What [asyncio.gather(..., return_exceptions=True)] holds for a task. *)
Definition run_with_semaphore (w : TaskWorld) (test : TestGenerator.TestCase)
           (cookies : option (list (string * string)))
           (headers : option (list (string * string))) : TestResult + string :=
  match escapes w with
  | Some e => inr e
  | None => inl (run_single_test test (client w) cookies headers (clock w))
  end.

Definition process_result (test : TestGenerator.TestCase) (result : TestResult + string)
  : TestResult :=
  match result with
  | inr e =>
      {| test_id := TestGenerator.test_id test;
         test_type := None; endpoint := None; method := None; url := None;
         timestamp := None;
         success := false; error := Some e; response := None |}
  | inl r => r
  end.

(** The tasks of [run_tests], gathered and processed: one entry per
    test; [gather] keeps the order of the tasks. *)
Definition processed_results (world : nat -> TaskWorld)
           (tests : list TestGenerator.TestCase)
           (cookies : option (list (string * string)))
           (headers : option (list (string * string))) : list TestResult :=
  map (fun '(i, test) =>
         process_result test (run_with_semaphore (world i) test cookies headers))
      (HarParser.enumerate tests).

(** How a call of [run_tests] ends. *)
Inductive Run : Type :=
| Raises (exception : string)
| NeverReturns
| Returns (results : list TestResult).

(** [run_tests], from the decoded [tests.json] to [processed_results].
    Before any task is made, [RateLimiter(rate)] computes [1.0 / rate]
    and [asyncio.Semaphore(concurrency)] refuses a negative value.
    Under a semaphore without a permit no task ever gets past
    [async with semaphore], and [gather] waits for ever when there is a
    task.  The rate is a finite [float], taken as a rational. *)
Definition run_tests (world : nat -> TaskWorld) (tests : list TestGenerator.TestCase)
           (cookies : option (list (string * string)))
           (headers : option (list (string * string)))
           (concurrency : Z) (rate : Q) : Run :=
  if Qeq_bool rate 0 then Raises "ZeroDivisionError"
  else if (concurrency <? 0)%Z then Raises "ValueError"
  else if (concurrency =? 0)%Z && Json.nonempty tests then NeverReturns
  else Returns (processed_results world tests cookies headers).

End TestRunner.

(** ** [RateLimiter] under the event loop

    Time is counted in ticks of the loop's monotonic clock (a
    millisecond, say); [min_interval] is [1 / requests_per_second] in
    ticks.  Between two [await]s a coroutine runs without interruption,
    so [acquire] is two atomic pieces: from its start to the [await] of
    [asyncio.sleep] (or to its end when it does not sleep), and from the
    wake-up to its end. *)

Module RateLimiter.
Local Open Scope Z_scope.

Record t := mk {
  min_interval : Z;
  last_request_time : Z
}.

(** [RateLimiter(requests_per_second)], for a rate of which
    [min_interval] is the inverse. *)
Definition init (min_interval : Z) : t :=
  {| min_interval := min_interval; last_request_time := 0 |}.

(** Where a task stands. *)
Inductive Task : Type :=
| Pending
| Sleeping (until : Z)
| Granted (at_time : Z)
| Finished (at_time : Z).

(** The first piece of [acquire], run at time [now]: the limiter after
    it, and the task suspended in [sleep] or holding its token. *)
Definition acquire_begin (now : Z) (rl : t) : t * Task :=
  let current_time := now in
  let time_since_last := current_time - last_request_time rl in
  if time_since_last <? min_interval rl
  then (rl, Sleeping (now + (min_interval rl - time_since_last)))
  else ({| min_interval := min_interval rl; last_request_time := now |}, Granted now).

(** The second piece, run when the sleep is over. *)
Definition acquire_resume (now : Z) (rl : t) : t * Task :=
  ({| min_interval := min_interval rl; last_request_time := now |}, Granted now).

Record Loop := mkLoop {
  now : Z;
  permits : nat;
  limiter : t;
  tasks : list Task
}.

Fixpoint set_nth {A} (i : nat) (a : A) (l : list A) : list A :=
  match l, i with
  | [], _ => []
  | _ :: l', O => a :: l'
  | b :: l', S i' => b :: set_nth i' a l'
  end.

Inductive Event : Type :=
| Tick (d : Z)
| Enter (i : nat)
| Wake (i : nat)
| Finish (i : nat).

(** One step of the loop; [None] when the event cannot happen in the
    state: time does not go back, a task enters under the semaphore
    only while a permit is left, a sleeper wakes no earlier than asked,
    and a request ends after its token was granted. *)
Definition step (e : Event) (l : Loop) : option Loop :=
  match e with
  | Tick d =>
      if 0 <=? d
      then Some {| now := now l + d; permits := permits l;
                   limiter := limiter l; tasks := tasks l |}
      else None
  | Enter i =>
      match nth_error (tasks l) i, permits l with
      | Some Pending, S p =>
          let '(rl, task) := acquire_begin (now l) (limiter l) in
          Some {| now := now l; permits := p;
                  limiter := rl; tasks := set_nth i task (tasks l) |}
      | _, _ => None
      end
  | Wake i =>
      match nth_error (tasks l) i with
      | Some (Sleeping until) =>
          if until <=? now l then
            let '(rl, task) := acquire_resume (now l) (limiter l) in
            Some {| now := now l; permits := permits l;
                    limiter := rl; tasks := set_nth i task (tasks l) |}
          else None
      | _ => None
      end
  | Finish i =>
      match nth_error (tasks l) i with
      | Some (Granted g) =>
          Some {| now := now l; permits := S (permits l);
                  limiter := limiter l;
                  tasks := set_nth i (Finished g) (tasks l) |}
      | _ => None
      end
  end.

Fixpoint run (es : list Event) (l : Loop) : option Loop :=
  match es with
  | [] => Some l
  | e :: es' =>
      match step e l with
      | Some l' => run es' l'
      | None => None
      end
  end.

(** [run_tests] at its start: [n] tasks, a semaphore of [concurrency]
    permits, a fresh limiter, the clock at [start]. *)
Definition start_loop (start : Z) (concurrency : nat) (min_interval : Z) (n : nat) : Loop :=
  {| now := start; permits := concurrency;
     limiter := init min_interval; tasks := repeat Pending n |}.

(** The instant at which a task got its token, if it has one. *)
Definition grant_time (task : Task) : option Z :=
  match task with
  | Granted g | Finished g => Some g
  | _ => None
  end.

End RateLimiter.

(** ** [analyzer/diff_analyzer.py] *)

Module DiffAnalyzer.
Import Settings.
Local Open Scope Z_scope.

Inductive Severity : Type := HIGH | MEDIUM | LOW.

(** *** The result of [DeepDiff]

    A [DeepDiff] object maps the names of the reports that are not
    empty to their items; iterating over a report gives the paths of
    its items ([root['role']], ...).  The names are those of the
    library. *)
Inductive ReportType : Type :=
| type_changes
| dictionary_item_added
| dictionary_item_removed
| values_changed
| unprocessed
| iterable_item_added
| iterable_item_removed
| iterable_item_moved
| attribute_added
| attribute_removed
| set_item_added
| set_item_removed
| repetition_change.

Definition report_name (r : ReportType) : string :=
  match r with
  | type_changes => "type_changes"
  | dictionary_item_added => "dictionary_item_added"
  | dictionary_item_removed => "dictionary_item_removed"
  | values_changed => "values_changed"
  | unprocessed => "unprocessed"
  | iterable_item_added => "iterable_item_added"
  | iterable_item_removed => "iterable_item_removed"
  | iterable_item_moved => "iterable_item_moved"
  | attribute_added => "attribute_added"
  | attribute_removed => "attribute_removed"
  | set_item_added => "set_item_added"
  | set_item_removed => "set_item_removed"
  | repetition_change => "repetition_change"
  end.

Definition DeepDiff : Type := list (ReportType * list string).

(** [diff.get(key)] *)
Fixpoint diff_get (key : string) (diff : DeepDiff) : option (list string) :=
  match diff with
  | [] => None
  | (r, items) :: rest =>
      if String.eqb key (report_name r) then Some items else diff_get key rest
  end.

(** [bool(diff)] for an [Optional[DeepDiff]]. *)
Definition diff_truthy (diff : option DeepDiff) : bool :=
  match diff with
  | Some d => Json.nonempty d
  | None => false
  end.

(** [DeepDiff({"body": b}, {"body": t})] for two different strings. *)
Definition body_diff : DeepDiff := [(values_changed, ["root['body']"%string])].

Definition is_sensitive (field_path : string) : bool :=
  existsb (fun sensitive => PyStr.contains sensitive (PyStr.lower field_path))
          SENSITIVE_FIELDS.

Definition sensitive_in (key : string) (diff : DeepDiff) : list string :=
  match diff_get key diff with
  | Some items => filter is_sensitive items
  | None => []
  end.

Definition detect_sensitive_field_changes (diff : DeepDiff) : list string :=
  sensitive_in "dictionary_item_added" diff
  ++ sensitive_in "dictionary_item_removed" diff
  ++ sensitive_in "values_changed" diff.

(** [b in d and t in d[b]] *)
Definition status_change (table : list (Z * list Z)) (baseline_status test_status : Z) : bool :=
  match PyDict.get Z.eqb baseline_status table with
  | Some l => existsb (Z.eqb test_status) l
  | None => false
  end.

Section WithLibraries.

(** [json.loads] ([None] where it raises [JSONDecodeError] or
    [ValueError]; another exception, as [RecursionError] on a text
    nested too deep, is not caught by the code and has no counterpart
    here), [DeepDiff] on two decoded bodies with [ignore_order=True],
    and the text [str()] gives for a report. *)
Variable json_loads : string -> option json.
Variable deep_diff : json -> json -> DeepDiff.
Variable report_str : list string -> string.

(** [len(str(diff.get(key, "")))] *)
Definition root_text_len (key : string) (diff : DeepDiff) : Z :=
  match diff_get key diff with
  | Some items => Z.of_nat (String.length (report_str items))
  | None => Z.of_nat (String.length "")
  end.

(** The length test of [calculate_severity]:
    [abs(t - b) / b > LENGTH_DIFF_THRESHOLD] when [b > 0], the
    quotient being compared as a fraction. *)
Definition length_rule (diff : DeepDiff) : bool :=
  let baseline_body_len := root_text_len "old_value" diff in
  let test_body_len := root_text_len "new_value" diff in
  (0 <? baseline_body_len)
  && (LENGTH_DIFF_THRESHOLD_NUM * baseline_body_len
      <? LENGTH_DIFF_THRESHOLD_DEN * Z.abs (test_body_len - baseline_body_len)).

Definition calculate_severity (baseline_status test_status : Z)
           (diff : option DeepDiff) (test_type : string) : Severity :=
  if status_change STATUS_CHANGE_HIGH baseline_status test_status then HIGH
  else if status_change STATUS_CHANGE_MEDIUM baseline_status test_status then MEDIUM
  else
    let d := Capture.get_or diff [] in
    if diff_truthy diff && Json.nonempty (detect_sensitive_field_changes d) then HIGH
    else if diff_truthy diff && length_rule d then MEDIUM
    else if (baseline_status =? test_status) && (test_status =? 200) && diff_truthy diff
    then if String.eqb test_type "IDOR" then HIGH else MEDIUM
    else if diff_truthy diff then LOW
    else LOW.

(** The decoding that [compare_responses] attempts on a body: [None]
    when the body is empty or unreadable, when [json.loads] raises,
    and when the body is the JSON [null]. *)
Definition try_json (body : string) : option json :=
  if String.eqb body "" || String.eqb body "(unable to read body)"
  then None
  else match json_loads body with
       | Some JNull => None
       | r => r
       end.

Definition compare_responses (baseline : Capture.Request)
           (test_result : TestRunner.TestResult) : option DeepDiff :=
  match TestRunner.response test_result with
  | None => None
  | Some test_response =>
      if negb (TestRunner.success test_result) then None
      else
        let baseline_body :=
          match Capture.response baseline with
          | Some r => Capture.get_or (Capture.body r) ""%string
          | None => ""%string
          end in
        let test_body := TestRunner.body test_response in
        let as_strings :=
          if negb (String.eqb baseline_body test_body) then Some body_diff else None in
        match try_json baseline_body, try_json test_body with
        | Some baseline_json, Some test_json =>
            let diff := deep_diff baseline_json test_json in
            if Json.nonempty diff then Some diff else as_strings
        | _, _ => as_strings
        end
  end.

(** A finding; the summary of the diff and the [curl] line are left
    out. *)
Record Finding := mkFinding {
  finding_id : string;
  severity : Severity;
  test_type : string;
  endpoint : string;
  test_id : string;
  description : string;
  baseline_status : Z;
  test_status : Z
}.

(** [tests_by_id.get(test_id)]: of the tests under one identifier, the
    dictionary keeps the last. *)
Definition test_by_id (tests : list TestGenerator.TestCase) (test_id : string)
  : option TestGenerator.TestCase :=
  find (fun test => String.eqb (TestGenerator.test_id test) test_id) (rev tests).

(** The baseline of a result: the last captured request with the URL and
    the method, or else the first one with the method.  (A captured
    request is never an empty dictionary.) *)
Definition find_baseline (baseline_requests : list Capture.Request)
           (test_url test_method : string) : option Capture.Request :=
  match find (fun req =>
                String.eqb (Capture.get_or (Capture.url req) ""%string) test_url
                && String.eqb (Capture.get_or (Capture.method req) "GET"%string) test_method)
             (rev baseline_requests) with
  | Some baseline => Some baseline
  | None =>
      find (fun req =>
              match Capture.method req with
              | Some m => String.eqb m test_method
              | None => false
              end) baseline_requests
  end.

(** What one turn of the loop of [analyze_results] does: it goes on
    without a finding, it raises at [test_result["response"].get] because
    the result has no response, or it appends a finding. *)
Inductive Turn : Type :=
| Skipped
| Raised
| Found (finding : Finding).

Definition analyze_result (baseline_requests : list Capture.Request)
           (tests : list TestGenerator.TestCase) (n_findings : nat)
           (test_result : TestRunner.TestResult) : Turn :=
  if negb (TestRunner.success test_result) then Skipped
  else
    match test_by_id tests (TestRunner.test_id test_result) with
    | None => Skipped
    | Some test =>
        let test_url :=
          Capture.get_or (TestRunner.url test_result) (TestGenerator.url test) in
        let test_method := TestGenerator.method test in
        match find_baseline baseline_requests test_url test_method with
        | None => Skipped
        | Some baseline =>
            match Capture.response baseline with
            | None => Skipped
            | Some baseline_response =>
                match TestRunner.response test_result with
                | None => Raised
                | Some test_response =>
                    let baseline_status :=
                      Capture.get_or (Capture.status baseline_response) 0 in
                    let test_status := TestRunner.status test_response in
                    let diff := compare_responses baseline test_result in
                    Found
                      {| finding_id :=
                           ("finding_" ++ HarParser.str_of_nat (n_findings + 1))%string;
                         severity :=
                           calculate_severity baseline_status test_status diff
                                              (TestGenerator.test_type test);
                         test_type := TestGenerator.test_type test;
                         endpoint := TestGenerator.endpoint test;
                         test_id := TestRunner.test_id test_result;
                         description := TestGenerator.description test;
                         baseline_status := baseline_status;
                         test_status := test_status |}
                end
            end
        end
    end.

Fixpoint analyze_loop (baseline_requests : list Capture.Request)
         (tests : list TestGenerator.TestCase) (findings : list Finding)
         (test_results : list TestRunner.TestResult) : option (list Finding) :=
  match test_results with
  | [] => Some findings
  | test_result :: rest =>
      match analyze_result baseline_requests tests (List.length findings) test_result with
      | Skipped => analyze_loop baseline_requests tests findings rest
      | Raised => None
      | Found finding =>
          analyze_loop baseline_requests tests (findings ++ [finding]) rest
      end
  end.

(** [analyze_results], from the decoded [requests.json],
    [test_results.json] and [tests.json] to the findings. *)
Definition analyze_results (baseline_requests : list Capture.Request)
           (test_results : list TestRunner.TestResult)
           (tests : list TestGenerator.TestCase) : option (list Finding) :=
  analyze_loop baseline_requests tests [] test_results.

End WithLibraries.

End DiffAnalyzer.

(** ** [parser/id_inference.py] *)

Module IdInference.
Import Settings.

(** [is_integer_id(value)]: an [int] (a [bool] is one) or a string of
    digits. *)
Definition is_integer_id (value : json) : bool :=
  match value with
  | JInt _ | JBool _ => true
  | JStr s => PyStr.isdigit s
  | _ => false
  end.

(** [is_uuid(value)] *)
Definition is_uuid (value : json) : bool :=
  match value with
  | JStr s => PyStr.uuid_match s
  | _ => false
  end.

(** [matches_id_pattern(name)] *)
Definition matches_id_pattern (name : string) : bool :=
  let name_lower := PyStr.lower name in
  existsb (fun pattern => PyStr.contains (PyStr.lower pattern) name_lower) ID_PATTERNS.

(** The values [IDPool.add] is called with: the values of a parameter
    are strings, and a value of a sample body is added only when it is
    an integer id or a UUID, so an [int], a [bool] or a string. *)
Inductive IdInput : Type :=
| InInt (z : Z)
| InBool (b : bool)
| InStr (s : string).

Definition json_of_input (value : IdInput) : json :=
  match value with
  | InInt z => JInt z
  | InBool b => JBool b
  | InStr s => JStr s
  end.

Definition input_of_json (value : json) : option IdInput :=
  match value with
  | JInt z => Some (InInt z)
  | JBool b => Some (InBool b)
  | JStr s => Some (InStr s)
  | _ => None
  end.

(** An element of [integer_ids]: a Python [int], [True] and [False]
    among them; two are the same element of the set when they are the
    same number. *)
Inductive PyInt : Type :=
| PInt (z : Z)
| PBool (b : bool).

Definition int_value (n : PyInt) : Z :=
  match n with
  | PInt z => z
  | PBool true => 1
  | PBool false => 0
  end.

(** [int(s)] for a string of digits. *)
Fixpoint digits_value (acc : Z) (s : string) : Z :=
  match s with
  | EmptyString => acc
  | String c s' => digits_value (10 * acc + (Z.of_nat (nat_of_ascii c) - 48)) s'
  end.

Definition int_of_digits (s : string) : Z := digits_value 0 s.

(** [s.add(n)] on a set of integers. *)
Definition add_int (n : PyInt) (s : list PyInt) : list PyInt :=
  if existsb (fun m => Z.eqb (int_value m) (int_value n)) s then s else s ++ [n].

Record IDPool := mkIDPool {
  name : string;
  location : string;
  integer_ids : list PyInt;
  uuid_ids : list string;
  string_ids : list string;
  inferred_type : option string
}.

(** [IDPool(name, location)] *)
Definition new (name location : string) : IDPool :=
  {| name := name; location := location;
     integer_ids := []; uuid_ids := []; string_ids := [];
     inferred_type := None |}.

(** The type inferred from the buckets, as [add] recomputes it; the
    type is kept when all three are empty. *)
Definition infer_type (ints : list PyInt) (uuids strings : list string)
           (before : option string) : option string :=
  if Json.nonempty ints then Some "int"
  else if Json.nonempty uuids then Some "uuid"
  else if Json.nonempty strings then Some "string"
  else before.

(** [IDPool.add(value)] *)
Definition add (value : IdInput) (pool : IDPool) : IDPool :=
  let '(ints, uuids, strings) :=
    if is_integer_id (json_of_input value) then
      (add_int (match value with
                | InStr s => PInt (int_of_digits s)
                | InInt z => PInt z
                | InBool b => PBool b
                end) (integer_ids pool),
       uuid_ids pool, string_ids pool)
    else if is_uuid (json_of_input value) then
      (integer_ids pool, PySet.add (Json.str (json_of_input value)) (uuid_ids pool),
       string_ids pool)
    else
      (integer_ids pool, uuid_ids pool,
       PySet.add (Json.str (json_of_input value)) (string_ids pool)) in
  {| name := name pool; location := location pool;
     integer_ids := ints; uuid_ids := uuids; string_ids := strings;
     inferred_type := infer_type ints uuids strings (inferred_type pool) |}.

(** An identifier of any bucket. *)
Inductive AnyId : Type :=
| OfInt (n : PyInt)
| OfStr (s : string).

(** [IDPool.get_all()] *)
Definition get_all (pool : IDPool) : list AnyId :=
  firstn 50 (map OfInt (integer_ids pool)
             ++ map OfStr (uuid_ids pool)
             ++ map OfStr (string_ids pool)).

Record PoolDict := mkPoolDict {
  d_name : string;
  d_location : string;
  d_type : option string;
  d_integer_ids : list PyInt;
  d_uuid_ids : list string;
  d_string_ids : list string;
  d_count : nat
}.

(** [IDPool.to_dict()] *)
Definition to_dict (pool : IDPool) : PoolDict :=
  {| d_name := name pool;
     d_location := location pool;
     d_type := inferred_type pool;
     d_integer_ids := firstn 20 (integer_ids pool);
     d_uuid_ids := firstn 20 (uuid_ids pool);
     d_string_ids := firstn 20 (string_ids pool);
     d_count := List.length (integer_ids pool) + List.length (uuid_ids pool)
                + List.length (string_ids pool) |}.

(** Whether a parameter is taken for an identifier. *)
Definition looks_like_id (param_name : string) (values : list string) : bool :=
  matches_id_pattern param_name
  || existsb (fun v => is_integer_id (JStr v) || is_uuid (JStr v)) values.

(** One of the three loops over the parameters of a location. *)
Definition pools_of_params (location : string) (params : list (string * list string))
           (id_pools : list (string * IDPool)) : list (string * IDPool) :=
  fold_left
    (fun id_pools '(param_name, values) =>
       if looks_like_id param_name values then
         let pool := fold_left (fun pool value => add (InStr value) pool)
                               values (new param_name location) in
         PyDict.set String.eqb param_name pool id_pools
       else id_pools)
    params id_pools.

(** The loop over the items of one sample body. *)
Definition pools_of_body (body : list (string * json))
           (id_pools : list (string * IDPool)) : list (string * IDPool) :=
  fold_left
    (fun id_pools '(key, value) =>
       if matches_id_pattern key && (is_integer_id value || is_uuid value) then
         let pool_name := ("body." ++ key)%string in
         let id_pools :=
           match PyDict.get String.eqb pool_name id_pools with
           | Some _ => id_pools
           | None => PyDict.set String.eqb pool_name (new pool_name "body") id_pools
           end in
         match PyDict.get String.eqb pool_name id_pools, input_of_json value with
         | Some pool, Some v => PyDict.set String.eqb pool_name (add v pool) id_pools
         | _, _ => id_pools
         end
       else id_pools)
    body id_pools.

(** [infer_ids_from_endpoint(endpoint)] *)
Definition infer_ids_from_endpoint (endpoint : HarParser.EndpointModel)
  : list (string * IDPool) :=
  let parameters := HarParser.parameters endpoint in
  let id_pools := pools_of_params "path" (HarParser.path parameters) [] in
  let id_pools := pools_of_params "query" (HarParser.query parameters) id_pools in
  let id_pools := pools_of_params "body" (HarParser.body parameters) id_pools in
  fold_left (fun id_pools body => pools_of_body body id_pools)
            (HarParser.sample_bodies endpoint) id_pools.

(** An endpoint with its pools, as [enhance_endpoints_with_ids] leaves
    it: [observed_ids] holds the ids of a pool under each name that has
    one. *)
Record Enhanced := mkEnhanced {
  endpoint : HarParser.EndpointModel;
  id_pools : list (string * PoolDict);
  observed_ids : list (string * list AnyId)
}.

Definition enhance_endpoint (endpoint : HarParser.EndpointModel) : Enhanced :=
  let pools := infer_ids_from_endpoint endpoint in
  {| endpoint := endpoint;
     id_pools := PyDict.map_values to_dict pools;
     observed_ids :=
       fold_left
         (fun observed '(pool_name, pool) =>
            match PyDict.get String.eqb pool_name observed with
            | Some _ => PyDict.set String.eqb pool_name (get_all pool) observed
            | None => observed
            end)
         pools
         (PyDict.map_values (map OfStr) (HarParser.observed_ids endpoint)) |}.

(** [enhance_endpoints_with_ids(endpoints)] *)
Definition enhance_endpoints_with_ids (endpoints : list HarParser.EndpointModel)
  : list Enhanced :=
  map enhance_endpoint endpoints.

End IdInference.

(** ** [capture/playwright_capture.py]: the helpers on text *)

Module PlaywrightCapture.
Import Settings.

(** The marker [f"\n... (truncated, original size: {n} bytes)"]. *)
Definition truncation_marker (n : nat) : string :=
  (String "010" "... (truncated, original size: " ++ HarParser.str_of_nat n ++ " bytes)")%string.

(** [truncate_body(body, max_size)] *)
Definition truncate_body (body : string) (max_size : nat) : string :=
  if Nat.ltb max_size (String.length body)
  then (PyStr.take max_size body ++ truncation_marker (String.length body))%string
  else body.

(** [is_payment_route(url)] *)
Definition is_payment_route (url : string) : bool :=
  let url_lower := PyStr.lower url in
  existsb (fun keyword => PyStr.contains keyword url_lower) PAYMENT_KEYWORDS.

End PlaywrightCapture.

(** ** [analyzer/report_generator.py]: the summary of the JSON report *)

Module ReportGenerator.

(** A finding as read back from [findings.json]; a key that is absent
    is [None]. *)
Record FindingDict := mkFindingDict {
  severity : option string;
  test_type : option string
}.

(** [d[k].append(x)] on a [defaultdict(list)]. *)
Definition group_append (key : string) (finding : FindingDict)
           (groups : list (string * list FindingDict)) : list (string * list FindingDict) :=
  PyDict.modify String.eqb key [] (fun l => l ++ [finding]) groups.

Definition by_severity (findings : list FindingDict) : list (string * list FindingDict) :=
  fold_left (fun groups finding =>
               group_append (Capture.get_or (severity finding) "LOW") finding groups)
            findings [].

Definition by_type (findings : list FindingDict) : list (string * list FindingDict) :=
  fold_left (fun groups finding =>
               group_append (Capture.get_or (test_type finding) "UNKNOWN") finding groups)
            findings [].

(** [groups.get(key, [])] *)
Definition group (key : string) (groups : list (string * list FindingDict))
  : list FindingDict :=
  Capture.get_or (PyDict.get String.eqb key groups) [].

Record Summary := mkSummary {
  total_findings : nat;
  high : nat;
  medium : nat;
  low : nat
}.

(** The [summary] of [generate_json_report]. *)
Definition summary (findings : list FindingDict) : Summary :=
  let findings_by_severity := by_severity findings in
  {| total_findings := List.length findings;
     high := List.length (group "HIGH" findings_by_severity);
     medium := List.length (group "MEDIUM" findings_by_severity);
     low := List.length (group "LOW" findings_by_severity) |}.

(** [Finding.to_dict()] of the analyzer, as far as the report reads it. *)
Definition severity_name (s : DiffAnalyzer.Severity) : string :=
  match s with
  | DiffAnalyzer.HIGH => "HIGH"
  | DiffAnalyzer.MEDIUM => "MEDIUM"
  | DiffAnalyzer.LOW => "LOW"
  end.

Definition of_finding (f : DiffAnalyzer.Finding) : FindingDict :=
  {| severity := Some (severity_name (DiffAnalyzer.severity f));
     test_type := Some (DiffAnalyzer.test_type f) |}.

End ReportGenerator.

(** ** Inputs of the scenarios *)

Module Scenario.

Definition ok_response : Capture.Response :=
  {| Capture.status := Some 200%Z; Capture.body := Some "" |}.

Definition get_request (url : string) : Capture.Request :=
  {| Capture.method := Some "GET";
     Capture.url := Some url;
     Capture.post_data := None;
     Capture.response := Some ok_response |}.

(** GET [/api/users/42] and GET [/api/users/43], both answered. *)
Definition users_log : list Capture.Request :=
  [get_request "/api/users/42"; get_request "/api/users/43"].

(** An endpoint observed under DELETE, with no pool and no body. *)
Definition delete_endpoint : Endpoint.t :=
  {| Endpoint.method := "DELETE";
     Endpoint.templated_path := "/api/items/{id:int}";
     Endpoint.sample_bodies := [];
     Endpoint.id_pools := [] |}.

(** An endpoint observed under POST, with no pool and no body. *)
Definition post_endpoint : Endpoint.t :=
  {| Endpoint.method := "POST";
     Endpoint.templated_path := "/api/items";
     Endpoint.sample_bodies := [];
     Endpoint.id_pools := [] |}.

(** The users and projects endpoints, their one pool under a given name. *)
Definition users (method : string) (bodies : list (list (string * json)))
           (pool_name : string) : Endpoint.t :=
  {| Endpoint.method := method;
     Endpoint.templated_path := "/users/{id:int}";
     Endpoint.sample_bodies := bodies;
     Endpoint.id_pools :=
       [(pool_name, {| Endpoint.integer_ids := [1; 2]%Z;
                       Endpoint.uuid_ids := [];
                       Endpoint.string_ids := [] |})] |}.

Definition projects (method : string) (bodies : list (list (string * json)))
           (pool_name : string) : Endpoint.t :=
  {| Endpoint.method := method;
     Endpoint.templated_path := "/projects/{id:int}";
     Endpoint.sample_bodies := bodies;
     Endpoint.id_pools :=
       [(pool_name, {| Endpoint.integer_ids := [100]%Z;
                       Endpoint.uuid_ids := [];
                       Endpoint.string_ids := [] |})] |}.

(** The cross-endpoint union of the two pools, in either order of the
    endpoints. *)
Definition union_users_first (users_name projects_name : string)
  : list (string * list Endpoint.id_value) :=
  [(users_name, [Endpoint.IdInt 1; Endpoint.IdInt 2]);
   (projects_name, [Endpoint.IdInt 100])].

Definition union_projects_first (users_name projects_name : string)
  : list (string * list Endpoint.id_value) :=
  [(projects_name, [Endpoint.IdInt 100]);
   (users_name, [Endpoint.IdInt 1; Endpoint.IdInt 2])].

(** The text of a JSON object with the one key [a], and a decoder that
    knows this text only. *)
Definition quote : string := String (ascii_of_nat 34) EmptyString.

Definition json_text : string := ("{" ++ quote ++ "a" ++ quote ++ ":1}")%string.

Definition loads_json_text (s : string) : option json :=
  if String.eqb s json_text then Some (JDict [("a", JInt 1)]) else None.

(** A request sent with an empty body and answered with that text. *)
Definition answered_with_json : Capture.Request :=
  {| Capture.method := Some "GET";
     Capture.url := Some "/api/items";
     Capture.post_data := Some "";
     Capture.response :=
       Some {| Capture.status := Some 200%Z; Capture.body := Some json_text |} |}.

(** A request sent with a body that is no JSON. *)
Definition sent_with_text : Capture.Request :=
  {| Capture.method := Some "POST";
     Capture.url := Some "/api/items";
     Capture.post_data := Some "name=x";
     Capture.response := Some ok_response |}.

(** A response text of 20001 characters. *)
Definition long_text : string := PyStr.repeat_char "a" 20001.

(** A baseline answered 500 with a body of 21 characters, and a replay
    answered 500 with an empty body. *)
Definition baseline_500 : Capture.Request :=
  {| Capture.method := Some "GET";
     Capture.url := Some "/api/items";
     Capture.post_data := None;
     Capture.response :=
       Some {| Capture.status := Some 500%Z;
               Capture.body := Some "Internal Server Error" |} |}.

Definition auth_test : TestGenerator.TestCase :=
  {| TestGenerator.test_id := "auth_bypass_/api/items_0";
     TestGenerator.test_type := "AUTH_BYPASS";
     TestGenerator.endpoint := "/api/items";
     TestGenerator.method := "GET";
     TestGenerator.url := "/api/items";
     TestGenerator.headers := [];
     TestGenerator.body := None;
     TestGenerator.cookies := false;
     TestGenerator.description := "Auth bypass: Remove authentication cookies/headers" |}.

Definition result_500 : TestRunner.TestResult :=
  TestRunner.run_single_test auth_test
    (fun _ => TestRunner.Responded 500 "Internal Server Error" [] (Some ""))
    None None "2024-01-01T00:00:00".

(** Two tests of an endpoint, and a world in which every request times
    out. *)
Definition two_tests : list TestGenerator.TestCase :=
  TestGenerator.generate_auth_bypass_tests post_endpoint 2.

Definition world_of_timeouts (i : nat) : TestRunner.TaskWorld :=
  {| TestRunner.escapes := None;
     TestRunner.clock := "2024-01-01T00:00:00";
     TestRunner.client := fun _ => TestRunner.TimeoutException |}.

(** A diff whose only item is a change of [role]. *)
Definition role_diff : DiffAnalyzer.DeepDiff :=
  [(DiffAnalyzer.values_changed, ["root['role']"])].

(** Three tasks started together at time 1000 under a semaphore of 5
    permits and a rate of 2 per second (500 ticks of a millisecond): the
    first gets its token at once, the two others sleep to the same
    instant and wake one after the other. *)
Definition burst : list RateLimiter.Event :=
  [RateLimiter.Enter 0; RateLimiter.Enter 1; RateLimiter.Enter 2;
   RateLimiter.Tick 500; RateLimiter.Wake 1; RateLimiter.Wake 2].

End Scenario.

(** ** The severity rules of the specification

    The rules carry the numbers of the specification and follow its
    words: rule 2 looks for a sensitive-field token, as a
    case-insensitive substring, in any path of the diff; rule 5 compares
    the lengths of the two bodies. *)

Module SeverityOrder.
Import DiffAnalyzer.
Local Open Scope Z_scope.

Definition success_status (t : Z) : bool := (t =? 200) || (t =? 201) || (t =? 204).

Definition rule1 (b t : Z) : bool :=
  ((b =? 401) || (b =? 403) || (b =? 404)) && success_status t.

Definition SENSITIVE_TOKENS : list string :=
  ["ownerId"; "owner_id"; "userId"; "user_id"; "email"; "role"; "roles";
   "isAdmin"; "is_admin"; "permissions"; "accessLevel"; "access_level"]%string.

Definition holds_token (path : string) : bool :=
  existsb (fun token => PyStr.contains (PyStr.lower token) (PyStr.lower path))
          SENSITIVE_TOKENS.

(** The paths of a diff, of whatever report. *)
Definition diff_paths (d : DeepDiff) : list string := flat_map snd d.

Definition rule2 (diff : option DeepDiff) : bool :=
  match diff with
  | Some d => existsb holds_token (diff_paths d)
  | None => false
  end.

Definition rule3 (b t : Z) (diff : option DeepDiff) (test_type : string) : bool :=
  String.eqb test_type "IDOR" && (b =? 200) && (t =? 200) && diff_truthy diff.

Definition rule4 (b t : Z) : bool :=
  ((b =? 400) || (b =? 404)) && success_status t.

(** The delta of the body lengths exceeds 30% of the baseline length. *)
Definition rule5 (baseline_len test_len : Z) : bool :=
  30 * baseline_len <? 100 * Z.abs (test_len - baseline_len).

(** The lengths of the two bodies that are compared. *)
Definition baseline_body_len (baseline : Capture.Request) : Z :=
  match Capture.response baseline with
  | Some r => Z.of_nat (String.length (Capture.get_or (Capture.body r) ""%string))
  | None => 0
  end.

Definition test_body_len (test_result : TestRunner.TestResult) : Z :=
  match TestRunner.response test_result with
  | Some r => Z.of_nat (String.length (TestRunner.body r))
  | None => 0
  end.

Definition rule6 (b t : Z) (diff : option DeepDiff) : bool :=
  (b =? 200) && (t =? 200) && diff_truthy diff.

Definition rule7 (diff : option DeepDiff) : bool := diff_truthy diff.

Fixpoint first_match (rules : list (bool * Severity)) (otherwise : Severity) : Severity :=
  match rules with
  | [] => otherwise
  | (true, s) :: _ => s
  | (false, _) :: rest => first_match rest otherwise
  end.

(** The rules other than rule 5, the two rules on the statuses first:
    rule 1, rule 4, rule 2, rule 3, rule 6, rule 7, and rule 8 when none
    applies. *)
Definition status_rules_first (b t : Z) (diff : option DeepDiff) (test_type : string)
  : Severity :=
  first_match
    [(rule1 b t, HIGH);
     (rule4 b t, MEDIUM);
     (rule2 diff, HIGH);
     (rule3 b t diff test_type, HIGH);
     (rule6 b t diff, MEDIUM);
     (rule7 diff, LOW)]
    LOW.

End SeverityOrder.

(** ** What a result of the replay has to be

    By the words of the specification: a response gives a success; a
    timeout, a transport error and any other failure of the request give
    a failure with the error text of the kind. *)

Module ReplaySpec.
Import TestRunner.

Definition result_matches (outcome : Outcome) (test : TestGenerator.TestCase)
           (r : TestResult) : Prop :=
  test_id r = TestGenerator.test_id test
  /\ match outcome with
     | Responded _ _ _ _ => success r = true /\ error r = None
     | TimeoutException =>
         success r = false /\ error r = Some "Request timeout"
     | RequestError detail =>
         success r = false /\ error r = Some ("Request error: " ++ detail)%string
     | OtherException detail =>
         success r = false /\ error r = Some ("Unexpected error: " ++ detail)%string
     end.

(** What the task of a test leaves among the results: the result of its
    request, as above; or, when an exception escaped the task outside
    the request, a failure under the identifier of the test with the
    text of the exception, as [run_tests] writes it. *)
Definition task_result (w : TaskWorld) (test : TestGenerator.TestCase)
           (cookies headers : option (list (string * string)))
           (r : TestResult) : Prop :=
  match escapes w with
  | None => result_matches (client w (build_request test cookies headers)) test r
  | Some e =>
      test_id r = TestGenerator.test_id test
      /\ success r = false /\ error r = Some e
  end.

End ReplaySpec.

(** ** Notions used by the further properties *)

(** What a test built by one turn of the IDOR loop is made of. *)
Definition idor_test_of (ep : Endpoint.t)
           (all_id_pools : list (string * list Endpoint.id_value))
           (t : TestGenerator.TestCase) : Prop :=
  exists source_pool_name source_pool original_id target_pool_name target_ids target_id,
    In (source_pool_name, source_pool) (Endpoint.id_pools ep)
    /\ In original_id (Endpoint.pool_ids source_pool)
    /\ In (target_pool_name, target_ids) all_id_pools
    /\ In target_id target_ids
    /\ target_pool_name <> source_pool_name
    /\ Endpoint.id_eqb target_id original_id = false
    /\ Endpoint.id_truthy target_id = true
    /\ TestGenerator.url t = TestGenerator.concretize (Endpoint.templated_path ep) target_id
    /\ TestGenerator.body t = TestGenerator.idor_body ep source_pool_name target_id
    /\ TestGenerator.test_type t = "IDOR"
    /\ TestGenerator.method t = Endpoint.method ep
    /\ TestGenerator.endpoint t = Endpoint.templated_path ep
    /\ TestGenerator.cookies t = true.

(** Where a generated test comes from: the class, the method and the
    session flag of the tests of one endpoint. *)
Definition test_of_endpoint (ep : Endpoint.t) (t : TestGenerator.TestCase) : Prop :=
  TestGenerator.endpoint t = Endpoint.templated_path ep
  /\ ((TestGenerator.test_type t = "IDOR"
       /\ TestGenerator.method t = Endpoint.method ep
       /\ TestGenerator.cookies t = true)
      \/ (TestGenerator.test_type t = "AUTH_BYPASS"
          /\ TestGenerator.method t = Endpoint.method ep
          /\ TestGenerator.cookies t = false)
      \/ (TestGenerator.test_type t = "METHOD_CONFUSION"
          /\ TestGenerator.method t <> Endpoint.method ep
          /\ In (TestGenerator.method t) Settings.HTTP_METHODS
          /\ TestGenerator.cookies t = true)
      \/ (TestGenerator.test_type t = "MASS_ASSIGNMENT"
          /\ TestGenerator.method t = Endpoint.method ep
          /\ In (TestGenerator.method t) ["POST"; "PUT"; "PATCH"]
          /\ TestGenerator.cookies t = true)).

(** A task that holds a permit of the semaphore and has not finished. *)
Definition active (t : RateLimiter.Task) : bool :=
  match t with
  | RateLimiter.Sleeping _ | RateLimiter.Granted _ => true
  | _ => false
  end.

(** What holds of the loop at every moment when the semaphore has one
    permit: at most one task is between its entry and its end, a sleeper
    wakes no earlier than [min_interval] after the last token, every
    token was granted in the past and no later than the last one, and
    the tokens are [min_interval] apart. *)
Record Sequential (mi : Z) (l : RateLimiter.Loop) : Prop := {
  seq_interval : RateLimiter.min_interval (RateLimiter.limiter l) = mi;
  seq_permits : RateLimiter.permits l <= 1;
  seq_busy : forall i t,
      nth_error (RateLimiter.tasks l) i = Some t -> active t = true ->
      RateLimiter.permits l = 0;
  seq_alone : forall i j ti tj,
      nth_error (RateLimiter.tasks l) i = Some ti ->
      nth_error (RateLimiter.tasks l) j = Some tj ->
      active ti = true -> active tj = true -> i = j;
  seq_sleep : forall i u,
      nth_error (RateLimiter.tasks l) i = Some (RateLimiter.Sleeping u) ->
      (RateLimiter.last_request_time (RateLimiter.limiter l) + mi <= u)%Z;
  seq_past : forall i t g,
      nth_error (RateLimiter.tasks l) i = Some t ->
      RateLimiter.grant_time t = Some g ->
      (g <= RateLimiter.last_request_time (RateLimiter.limiter l)
       /\ g <= RateLimiter.now l)%Z;
  seq_spaced : forall i j ti tj gi gj,
      i <> j ->
      nth_error (RateLimiter.tasks l) i = Some ti ->
      nth_error (RateLimiter.tasks l) j = Some tj ->
      RateLimiter.grant_time ti = Some gi ->
      RateLimiter.grant_time tj = Some gj ->
      (mi <= Z.abs (gi - gj))%Z
}.

(** One task after the other under a semaphore of one permit: the first
    gets its token at 1000 and ends, the second enters, sleeps and wakes
    at 1500. *)
Definition one_by_one : list RateLimiter.Event :=
  [RateLimiter.Enter 0; RateLimiter.Finish 0; RateLimiter.Enter 1;
   RateLimiter.Tick 500; RateLimiter.Wake 1].

(** Where a finding comes from: a successful result, the test of its
    identifier, and a captured request with a response and with the
    method of the test. *)
Definition finding_of (baseline_requests : list Capture.Request)
           (test_results : list TestRunner.TestResult)
           (tests : list TestGenerator.TestCase) (f : DiffAnalyzer.Finding) : Prop :=
  exists test_result test baseline,
    In test_result test_results
    /\ TestRunner.success test_result = true
    /\ DiffAnalyzer.test_id f = TestRunner.test_id test_result
    /\ In test tests
    /\ TestGenerator.test_id test = TestRunner.test_id test_result
    /\ DiffAnalyzer.test_type f = TestGenerator.test_type test
    /\ DiffAnalyzer.endpoint f = TestGenerator.endpoint test
    /\ In baseline baseline_requests
    /\ Capture.get_or (Capture.method baseline) "GET" = TestGenerator.method test
    /\ Capture.response baseline <> None.

(** The name of the [n]-th finding. *)
Definition finding_name (n : nat) : string := ("finding_" ++ HarParser.str_of_nat n)%string.

(** What [detect_template_path] makes of a segment when every seen path
    has that same segment at its place. *)
Definition own_segment (segment : string) : string :=
  if PyStr.isdigit segment then "{id:int}"
  else if HarParser.UUID_RE segment then "{id:uuid}"
  else segment.

Definition own_template (path : string) : string :=
  PyStr.join "/" (map own_segment (PyStr.split "/" path)).

(** A group of the first loop of [parse_requests]: requests of the
    capture log that have a response, the method and the concrete path
    of the key. *)
Definition group_of (requests_data : list Capture.Request)
           (g : (string * string) * list Capture.Request) : Prop :=
  snd g <> []
  /\ Forall (fun req =>
               In req requests_data
               /\ Capture.response req <> None
               /\ Capture.get_or (Capture.method req) "GET" = fst (fst g)
               /\ fst (HarParser.normalize_url (HarParser.req_url req)) = snd (fst g))
            (snd g).

(** The body read for a request parses to a truthy value that is not an
    object. *)
Definition body_not_object (json_loads : string -> option json)
           (req : Capture.Request) : bool :=
  match HarParser.extract_json_body json_loads (HarParser.body_text req) with
  | Some (JDict _) => false
  | Some json_body => Json.truthy json_body
  | None => false
  end.

(** The object that the body loop reads for an answered request of the
    log. *)
Definition body_object (json_loads : string -> option json)
           (requests_data : list Capture.Request) (items : list (string * json)) : Prop :=
  exists req,
    In req requests_data
    /\ Capture.response req <> None
    /\ HarParser.extract_json_body json_loads (HarParser.body_text req) = Some (JDict items).

(** [v] is the text of a scalar found under [key] at the top of such an
    object. *)
Definition body_value (json_loads : string -> option json)
           (requests_data : list Capture.Request) (key v : string) : Prop :=
  exists items value,
    body_object json_loads requests_data items
    /\ In (key, value) items
    /\ Json.is_scalar value = true
    /\ v = Json.str value.

(** An entry of [observed_ids]: a query or body parameter whose name
    holds [id], with its first twenty values. *)
Definition observed_entry (parameters : HarParser.Parameters)
           (entry : string * list string) : Prop :=
  PyStr.contains "id" (PyStr.lower (fst entry)) = true
  /\ exists values,
       (In (fst entry, values) (HarParser.query parameters)
        \/ In (fst entry, values) (HarParser.body parameters))
       /\ snd entry = firstn 20 values.

(** A request with a query string, and a [parse_qs] that knows this
    query string only. *)
Definition parse_qs_user_id (query : string) : list (string * list string) :=
  if String.eqb query "user_id=7" then [("user_id", ["7"])] else [].

Definition items_of_user : Capture.Request :=
  {| Capture.method := Some "GET";
     Capture.url := Some "https://shop.example/api/items?user_id=7";
     Capture.post_data := None;
     Capture.response := Some Scenario.ok_response |}.

(** What holds of every pool that [IDPool.add] has filled: no integer
    twice (as numbers), no string twice; UUIDs in the UUID bucket only,
    strings that are neither digits nor a UUID in the string bucket
    only; and the type read off the first bucket that is not empty. *)
Record pool_wellformed (pool : IdInference.IDPool) : Prop := {
  integers_distinct : NoDup (map IdInference.int_value (IdInference.integer_ids pool));
  uuids_distinct : NoDup (IdInference.uuid_ids pool);
  strings_distinct : NoDup (IdInference.string_ids pool);
  uuids_are_uuids :
    Forall (fun s => PyStr.uuid_match s = true /\ PyStr.isdigit s = false)
           (IdInference.uuid_ids pool);
  strings_are_neither :
    Forall (fun s => PyStr.uuid_match s = false /\ PyStr.isdigit s = false)
           (IdInference.string_ids pool);
  type_of_buckets :
    IdInference.inferred_type pool
    = IdInference.infer_type (IdInference.integer_ids pool) (IdInference.uuid_ids pool)
                             (IdInference.string_ids pool) None
}.

Definition pool_entry (entry : string * IdInference.IDPool) : Prop :=
  IdInference.name (snd entry) = fst entry
  /\ In (IdInference.location (snd entry)) ["path"; "query"; "body"]
  /\ pool_wellformed (snd entry).

(** The names under which [infer_ids_from_endpoint] opens a pool: a
    parameter of any location that looks like an identifier, and
    [body.<key>] for a key of a sample body that is named like an
    identifier and holds an integer or a UUID. *)
Definition pool_name_of (endpoint : HarParser.EndpointModel) (pool_name : string) : Prop :=
  (exists values,
     (In (pool_name, values) (HarParser.path (HarParser.parameters endpoint))
      \/ In (pool_name, values) (HarParser.query (HarParser.parameters endpoint))
      \/ In (pool_name, values) (HarParser.body (HarParser.parameters endpoint)))
     /\ (IdInference.matches_id_pattern pool_name
         || existsb (fun v => IdInference.is_integer_id (JStr v) || IdInference.is_uuid (JStr v))
                    values) = true)
  \/ (exists body key value,
        In body (HarParser.sample_bodies endpoint)
        /\ In (key, value) body
        /\ pool_name = ("body." ++ key)%string
        /\ IdInference.matches_id_pattern key = true
        /\ (IdInference.is_integer_id value || IdInference.is_uuid value) = true).

(** The severity under which the report files a finding. *)
Definition filed_under (key : string) (finding : ReportGenerator.FindingDict) : bool :=
  String.eqb (Capture.get_or (ReportGenerator.severity finding) "LOW") key.

(** [/api/items] as it was observed under GET, with no pool and no
    body. *)
Definition items_get_endpoint : Endpoint.t :=
  {| Endpoint.method := "GET";
     Endpoint.templated_path := "/api/items";
     Endpoint.sample_bodies := [];
     Endpoint.id_pools := [] |}.

(** Scenario 5 of the specification: a baseline answered 200 with
    [{"user":"a","role":"user"}], a replayed test answered 200 with
    [{"user":"a","role":"admin"}], and a decoder that knows these two
    texts. *)
Definition role_text (role : string) : string :=
  ("{" ++ Scenario.quote ++ "user" ++ Scenario.quote ++ ":"
       ++ Scenario.quote ++ "a" ++ Scenario.quote ++ ","
       ++ Scenario.quote ++ "role" ++ Scenario.quote ++ ":"
       ++ Scenario.quote ++ role ++ Scenario.quote ++ "}")%string.

Definition loads_role_text (s : string) : option json :=
  if String.eqb s (role_text "user")
  then Some (JDict [("user", JStr "a"); ("role", JStr "user")])
  else if String.eqb s (role_text "admin")
       then Some (JDict [("user", JStr "a"); ("role", JStr "admin")])
       else None.

Definition role_baseline : Capture.Request :=
  {| Capture.method := Some "GET";
     Capture.url := Some "/api/items";
     Capture.post_data := None;
     Capture.response :=
       Some {| Capture.status := Some 200%Z; Capture.body := Some (role_text "user") |} |}.

Definition role_result : TestRunner.TestResult :=
  TestRunner.run_single_test Scenario.auth_test
    (fun _ => TestRunner.Responded 200 "OK" [] (Some (role_text "admin")))
    None None "2024-01-01T00:00:00".

(** ** Properties *)

(** C1. On the log of GET [/api/users/42] and GET [/api/users/43], both
    answered, [parse_requests] returns two endpoints, and both are
    (GET, [/api/users/{id:int}]): requests are grouped by their concrete
    path, so the pair (method, templated path) is not unique. *)
Theorem parse_requests_repeats_template :
  forall parse_qs json_loads,
  exists e1 e2,
    HarParser.parse_requests parse_qs json_loads Scenario.users_log = Some [e1; e2]
    /\ HarParser.method e1 = "GET" /\ HarParser.method e2 = "GET"
    /\ HarParser.templated_path e1 = "/api/users/{id:int}"
    /\ HarParser.templated_path e2 = "/api/users/{id:int}".
Proof.
  intros parse_qs json_loads.
  eexists. eexists. split.
  - vm_compute. reflexivity.
  - repeat split.
Qed.

(** *** The destructive gate *)

Lemma in_firstn : forall A (x : A) n l, In x (firstn n l) -> In x l.
Proof.
  intros A x n. induction n as [|n IH]; intros [|a l] H; try contradiction.
  destruct H as [<-|H]; [now left | right; now apply IH].
Qed.

(** The gate as [generate_method_confusion_tests] has it: without
    [allow_destructive], none of its tests has method DELETE. *)
Lemma method_confusion_never_delete : forall ep count t,
  In t (TestGenerator.generate_method_confusion_tests ep false count) ->
  TestGenerator.method t <> "DELETE".
Proof.
  intros ep count t Hin.
  unfold TestGenerator.generate_method_confusion_tests in Hin.
  apply in_map_iff in Hin. destruct Hin as [m [<- Hm]].
  cbn [TestGenerator.method].
  unfold TestGenerator.alternative_methods in Hm. cbn [negb] in Hm.
  apply in_firstn in Hm.
  apply filter_In in Hm. destruct Hm as [_ Hnot].
  intros ->. discriminate Hnot.
Qed.

(** C3. With [allow_destructive = false], the tests generated for an
    endpoint observed under DELETE contain an AUTH_BYPASS test whose
    method is DELETE, whatever the random draws. *)
Theorem auth_bypass_keeps_delete :
  forall rng,
  exists t,
    In t (TestGenerator.generate_tests [Scenario.delete_endpoint]
            Settings.DEFAULT_MAX_TESTS_PER_ENDPOINT false rng)
    /\ TestGenerator.test_type t = "AUTH_BYPASS"
    /\ TestGenerator.method t = "DELETE".
Proof.
  intro rng.
  eexists. split.
  - vm_compute. left. reflexivity.
  - split; reflexivity.
Qed.

(** *** Mass assignment *)

Lemma prefix_permission_contains_is : forall s,
  prefix "permission" s = true -> PyStr.contains "is" s = true.
Proof.
  intros s H.
  do 6 (destruct s as [|? s]; [discriminate H |];
        cbn [prefix] in H;
        match type of H with
        | (if ascii_dec ?a ?b then _ else _) = true =>
            destruct (ascii_dec a b) as [<-|]; [| discriminate H]
        end).
  destruct s; reflexivity.
Qed.

Lemma contains_permission_contains_is : forall s,
  PyStr.contains "permission" s = true -> PyStr.contains "is" s = true.
Proof.
  induction s as [|c s IH]; intro H.
  - discriminate H.
  - cbn [PyStr.contains] in H. apply orb_true_iff in H. destruct H as [H|H].
    + now apply prefix_permission_contains_is.
    + cbn [PyStr.contains]. rewrite (IH H). apply orb_true_r.
Qed.

(** The [permission] branch of the chain is never taken: a name that
    contains [permission] contains [is], and gets the boolean true. *)
Lemma permission_names_get_true : forall field,
  PyStr.contains "permission" (PyStr.lower field) = true ->
  TestGenerator.injected_value field = JBool true.
Proof.
  intros field H. unfold TestGenerator.injected_value.
  rewrite (contains_permission_contains_is _ H). now rewrite orb_true_r.
Qed.

(** C5. The fields [permissions] and [permission] are injected with the
    boolean true, not with the string [full]: both names contain [is].
    With a count of 10, the test of index 8 carries [permissions = true]. *)
Theorem permission_fields_get_true :
  TestGenerator.injected_value "permissions" = JBool true
  /\ TestGenerator.injected_value "permission" = JBool true
  /\ option_map TestGenerator.body
       (nth_error (TestGenerator.generate_mass_assignment_tests Scenario.post_endpoint 10) 8)
     = Some (Some [("permissions", JBool true)]).
Proof.
  repeat split.
Qed.

(** *** Response capture *)

Lemma repeat_char_length : forall c n, String.length (PyStr.repeat_char c n) = n.
Proof.
  intros c n. induction n as [|n IH]; simpl; [reflexivity | now rewrite IH].
Qed.

(** What [capture_body] does with a readable text, case by case. *)
Lemma capture_body_cases : forall text,
  (String.length text <= 20000 -> TestRunner.capture_body (Some text) = text)
  /\ (20000 < String.length text ->
      TestRunner.capture_body (Some text)
      = (PyStr.take 20000 text ++ TestRunner.TRUNCATION_MARKER)%string).
Proof.
  intro text. unfold TestRunner.capture_body. split; intro H.
  - apply Nat.ltb_ge in H. now rewrite H.
  - apply Nat.ltb_lt in H. now rewrite H.
Qed.

(** C9. A response text of 20001 characters is within 20480, yet the
    recorded body is its first 20000 characters followed by the marker,
    and so differs from the text. *)
Theorem capture_body_cuts_at_20000 :
  forall test cookies headers now,
    String.length Scenario.long_text <= Settings.MAX_BODY_SIZE
    /\ option_map TestRunner.body
         (TestRunner.response
            (TestRunner.run_single_test test
               (fun _ => TestRunner.Responded 200 "OK" [] (Some Scenario.long_text))
               cookies headers now))
       = Some (PyStr.repeat_char "a" 20000 ++ TestRunner.TRUNCATION_MARKER)%string
    /\ TestRunner.capture_body (Some Scenario.long_text) <> Scenario.long_text.
Proof.
  intros test cookies headers now.
  assert (Hcap : TestRunner.capture_body (Some Scenario.long_text)
                 = (PyStr.repeat_char "a" 20000 ++ TestRunner.TRUNCATION_MARKER)%string)
    by (apply String.eqb_eq; vm_compute; reflexivity).
  split; [| split].
  - unfold Scenario.long_text. rewrite repeat_char_length.
    apply Nat.leb_le. vm_compute. reflexivity.
  - unfold TestRunner.run_single_test. cbn [TestRunner.response TestRunner.body option_map].
    now rewrite Hcap.
  - apply String.eqb_neq. vm_compute. reflexivity.
Qed.

(** *** The rate limiter *)

(** C10. Three tasks start together under a rate of 2 per second: the
    second and the third both read the timestamp left by the first, sleep
    to the same instant, and get their tokens at the same time 1500, less
    than the 500 ticks of [min_interval] apart. *)
Theorem rate_limiter_grants_together :
  exists l g1 g2,
    RateLimiter.run Scenario.burst (RateLimiter.start_loop 1000 5 500 3) = Some l
    /\ option_map RateLimiter.grant_time (nth_error (RateLimiter.tasks l) 1) = Some (Some g1)
    /\ option_map RateLimiter.grant_time (nth_error (RateLimiter.tasks l) 2) = Some (Some g2)
    /\ RateLimiter.min_interval (RateLimiter.limiter l) = 500%Z
    /\ (Z.abs (g2 - g1) < RateLimiter.min_interval (RateLimiter.limiter l))%Z.
Proof.
  eexists. exists 1500%Z, 1500%Z. split; [vm_compute; reflexivity |].
  repeat split.
Qed.

(** *** Substrings *)

Lemma prefix_iff : forall p s,
  prefix p s = true <-> exists post, s = (p ++ post)%string.
Proof.
  induction p as [|a p IH]; intro s; split.
  - intros _. now exists s.
  - intros _. now destruct s.
  - destruct s as [|b s]; cbn [prefix]; [discriminate |].
    destruct (ascii_dec a b) as [<-|]; [| discriminate].
    intro H. apply IH in H. destruct H as [post ->]. now exists post.
  - intros [post ->]. cbn [append prefix].
    destruct (ascii_dec a a) as [_|Hne]; [| now elim Hne].
    apply IH. now exists post.
Qed.

Lemma contains_unfold : forall sub s,
  PyStr.contains sub s
  = prefix sub s || match s with
                    | EmptyString => false
                    | String _ s' => PyStr.contains sub s'
                    end.
Proof. intros sub s. now destruct s. Qed.

Lemma contains_iff : forall sub s,
  PyStr.contains sub s = true <-> exists pre post, s = (pre ++ sub ++ post)%string.
Proof.
  intros sub s. split.
  - induction s as [|c s IH]; rewrite contains_unfold; intro H;
      apply orb_true_iff in H; destruct H as [H|H].
    + apply prefix_iff in H. destruct H as [post ->]. now exists EmptyString, post.
    + discriminate H.
    + apply prefix_iff in H. destruct H as [post ->]. now exists EmptyString, post.
    + destruct (IH H) as [pre [post ->]]. now exists (String c pre), post.
  - intros [pre [post ->]]. induction pre as [|c pre IH].
    + rewrite contains_unfold. apply orb_true_iff. left.
      apply prefix_iff. now exists post.
    + cbn [append]. rewrite contains_unfold. apply orb_true_iff. now right.
Qed.

Lemma append_assoc : forall a b c : string, ((a ++ b) ++ c = a ++ (b ++ c))%string.
Proof.
  intros a b c. induction a as [|x a IH]; cbn [append]; [reflexivity | now rewrite IH].
Qed.

Lemma contains_trans : forall a b s,
  PyStr.contains a b = true -> PyStr.contains b s = true -> PyStr.contains a s = true.
Proof.
  intros a b s Hab Hbs.
  apply contains_iff in Hab. destruct Hab as [p1 [q1 ->]].
  apply contains_iff in Hbs. destruct Hbs as [p2 [q2 ->]].
  apply contains_iff. exists (p2 ++ p1)%string, (q1 ++ q2)%string.
  now rewrite !append_assoc.
Qed.

(** What does not contain [b] does not contain a text that holds [b]. *)
Lemma contains_false_trans : forall a b s,
  PyStr.contains b a = true -> PyStr.contains b s = false -> PyStr.contains a s = false.
Proof.
  intros a b s Hba Hbs.
  destruct (PyStr.contains a s) eqn:E; [| reflexivity].
  now rewrite (contains_trans b a s Hba E) in Hbs.
Qed.

Lemma all_chars_app : forall p a b,
  PyStr.all_chars p (a ++ b) = PyStr.all_chars p a && PyStr.all_chars p b.
Proof.
  intros p a b. induction a as [|c a IH]; cbn [append PyStr.all_chars];
    [reflexivity | now rewrite IH, andb_assoc].
Qed.

Lemma lower_char_not_upper : forall c, PyStr.is_upper (PyStr.lower_char c) = false.
Proof. intro c. destruct c as [[] [] [] [] [] [] [] []]; reflexivity. Qed.

Lemma lower_no_upper : forall s,
  PyStr.all_chars (fun c => negb (PyStr.is_upper c)) (PyStr.lower s) = true.
Proof.
  induction s as [|c s IH]; cbn [PyStr.lower PyStr.all_chars]; [reflexivity |].
  now rewrite lower_char_not_upper, IH.
Qed.

(** A text with a capital letter is found in no lowered text. *)
Lemma capital_never_in_lower : forall token s,
  PyStr.all_chars (fun c => negb (PyStr.is_upper c)) token = false ->
  PyStr.contains token (PyStr.lower s) = false.
Proof.
  intros token s Hcap.
  destruct (PyStr.contains token (PyStr.lower s)) eqn:E; [| reflexivity].
  apply contains_iff in E. destruct E as [pre [post E]].
  pose proof (lower_no_upper s) as Hlow. rewrite E in Hlow.
  rewrite !all_chars_app, Hcap in Hlow.
  now rewrite andb_false_r in Hlow.
Qed.

Lemma lower_char_idem : forall c, PyStr.lower_char (PyStr.lower_char c) = PyStr.lower_char c.
Proof. intro c. destruct c as [[] [] [] [] [] [] [] []]; reflexivity. Qed.

Lemma lower_idem : forall s, PyStr.lower (PyStr.lower s) = PyStr.lower s.
Proof.
  induction s as [|c s IH]; cbn [PyStr.lower]; [reflexivity |].
  now rewrite lower_char_idem, IH.
Qed.

Lemma lower_app : forall a b, PyStr.lower (a ++ b) = (PyStr.lower a ++ PyStr.lower b)%string.
Proof.
  intros a b. induction a as [|c a IH]; cbn [append PyStr.lower];
    [reflexivity | now rewrite IH].
Qed.

(** *** Severity *)

Lemma report_name_not_old_value : forall r,
  String.eqb "old_value" (DiffAnalyzer.report_name r) = false.
Proof. intro r. destruct r; reflexivity. Qed.

(** No report of a [DeepDiff] is called [old_value]. *)
Lemma diff_get_old_value : forall d, DiffAnalyzer.diff_get "old_value" d = None.
Proof.
  induction d as [|[r items] d IH]; cbn [DiffAnalyzer.diff_get]; [reflexivity |].
  now rewrite report_name_not_old_value.
Qed.

(** So the baseline length read by [calculate_severity] is 0 and its
    length test is never met. *)
Lemma length_rule_false : forall report_str d,
  DiffAnalyzer.length_rule report_str d = false.
Proof.
  intros report_str d. unfold DiffAnalyzer.length_rule, DiffAnalyzer.root_text_len.
  rewrite diff_get_old_value. reflexivity.
Qed.

(** C8. Baseline and replay both answered 500, the baseline body has 21
    characters and the replayed body none: a finding is produced, the
    comparison yields a diff, no earlier rule applies and the lengths
    differ by the whole of the baseline, yet the severity is LOW. *)
Theorem length_rule_not_applied :
  forall json_loads deep_diff report_str,
    DiffAnalyzer.compare_responses json_loads deep_diff
      Scenario.baseline_500 Scenario.result_500 = Some DiffAnalyzer.body_diff
    /\ option_map (map DiffAnalyzer.severity)
         (DiffAnalyzer.analyze_results json_loads deep_diff report_str
            [Scenario.baseline_500] [Scenario.result_500] [Scenario.auth_test])
       = Some [DiffAnalyzer.LOW].
Proof.
  intros json_loads deep_diff report_str.
  assert (Hcmp : DiffAnalyzer.compare_responses json_loads deep_diff
                   Scenario.baseline_500 Scenario.result_500
                 = Some DiffAnalyzer.body_diff).
  { unfold DiffAnalyzer.compare_responses. cbn.
    destruct (json_loads "Internal Server Error") as [[]|]; reflexivity. }
  split; [exact Hcmp |].
  unfold DiffAnalyzer.analyze_results.
  cbn [DiffAnalyzer.analyze_loop].
  assert (Hturn : exists f,
            DiffAnalyzer.analyze_result json_loads deep_diff report_str
              [Scenario.baseline_500] [Scenario.auth_test] (List.length (@nil (DiffAnalyzer.Finding))) Scenario.result_500
            = DiffAnalyzer.Found f /\ DiffAnalyzer.severity f = DiffAnalyzer.LOW).
  { eexists. split.
    - unfold DiffAnalyzer.analyze_result.
      change (TestRunner.success Scenario.result_500) with true.
      change (DiffAnalyzer.test_by_id [Scenario.auth_test]
                (TestRunner.test_id Scenario.result_500)) with (Some Scenario.auth_test).
      cbn [negb].
      change (DiffAnalyzer.find_baseline [Scenario.baseline_500] _ _)
        with (Some Scenario.baseline_500).
      cbn [Capture.response Scenario.baseline_500].
      change (TestRunner.response Scenario.result_500)
        with (Some {| TestRunner.status := 500; TestRunner.status_text := "Internal Server Error";
                      TestRunner.headers := []; TestRunner.body := "" |}).
      cbv iota beta. rewrite Hcmp. reflexivity.
    - reflexivity. }
  destruct Hturn as [f [-> Hsev]].
  cbn. now rewrite Hsev.
Qed.

Lemma existsb_success_status : forall t,
  existsb (Z.eqb t) [200; 201; 204]%Z = SeverityOrder.success_status t.
Proof.
  intro t. unfold SeverityOrder.success_status. cbn [existsb].
  now rewrite orb_false_r, orb_assoc.
Qed.

Lemma status_change_high : forall b t,
  DiffAnalyzer.status_change Settings.STATUS_CHANGE_HIGH b t = SeverityOrder.rule1 b t.
Proof.
  intros b t. unfold DiffAnalyzer.status_change, SeverityOrder.rule1,
    Settings.STATUS_CHANGE_HIGH.
  cbn [PyDict.get].
  destruct (Z.eqb_spec b 403) as [->|H403]; [apply existsb_success_status |].
  destruct (Z.eqb_spec b 401) as [->|H401]; [apply existsb_success_status |].
  destruct (Z.eqb_spec b 404) as [->|H404]; [apply existsb_success_status |].
  reflexivity.
Qed.

Lemma status_change_medium : forall b t,
  DiffAnalyzer.status_change Settings.STATUS_CHANGE_MEDIUM b t = SeverityOrder.rule4 b t.
Proof.
  intros b t. unfold DiffAnalyzer.status_change, SeverityOrder.rule4,
    Settings.STATUS_CHANGE_MEDIUM.
  cbn [PyDict.get].
  destruct (Z.eqb_spec b 404) as [->|H404]; [apply existsb_success_status |].
  destruct (Z.eqb_spec b 400) as [->|H400]; [apply existsb_success_status |].
  reflexivity.
Qed.

(** A path that the code takes for sensitive holds a token of the
    specification. *)
Lemma is_sensitive_holds_token : forall field_path,
  DiffAnalyzer.is_sensitive field_path = true ->
  SeverityOrder.holds_token field_path = true.
Proof.
  intros p H. unfold DiffAnalyzer.is_sensitive in H.
  apply existsb_exists in H. destruct H as [token [Hin Hsub]].
  unfold SeverityOrder.holds_token. apply existsb_exists. exists token.
  split; [exact Hin |].
  assert (Hlow : PyStr.all_chars (fun c => negb (PyStr.is_upper c)) token = true).
  { destruct (PyStr.all_chars (fun c => negb (PyStr.is_upper c)) token) eqn:E;
      [reflexivity |].
    now rewrite (capital_never_in_lower token p E) in Hsub. }
  unfold Settings.SENSITIVE_FIELDS in Hin. cbn [In] in Hin.
  repeat (destruct Hin as [<- | Hin];
          [first [exact Hsub | vm_compute in Hlow; discriminate Hlow] |]).
  destruct Hin.
Qed.

Lemma diff_get_in : forall key d items,
  DiffAnalyzer.diff_get key d = Some items -> exists r, In (r, items) d.
Proof.
  intros key d items. induction d as [|[r its] d IH]; cbn [DiffAnalyzer.diff_get];
    [discriminate |].
  destruct (String.eqb key (DiffAnalyzer.report_name r)).
  - intro H. injection H as <-. exists r. now left.
  - intro H. destruct (IH H) as [r' Hin]. exists r'. now right.
Qed.

Lemma sensitive_in_path : forall key d field_path,
  In field_path (DiffAnalyzer.sensitive_in key d) ->
  In field_path (SeverityOrder.diff_paths d)
  /\ DiffAnalyzer.is_sensitive field_path = true.
Proof.
  intros key d p. unfold DiffAnalyzer.sensitive_in.
  destruct (DiffAnalyzer.diff_get key d) as [items|] eqn:Hget; [| intros []].
  intro Hin. apply filter_In in Hin. destruct Hin as [Hin Hs].
  split; [| exact Hs]. destruct (diff_get_in _ _ _ Hget) as [r Hr].
  unfold SeverityOrder.diff_paths. apply in_flat_map. now exists (r, items).
Qed.

Lemma detected_holds_token : forall d,
  Json.nonempty (DiffAnalyzer.detect_sensitive_field_changes d) = true ->
  existsb SeverityOrder.holds_token (SeverityOrder.diff_paths d) = true.
Proof.
  intros d H.
  destruct (DiffAnalyzer.detect_sensitive_field_changes d) as [|p rest] eqn:Hd;
    [discriminate H |].
  assert (Hin : In p (DiffAnalyzer.detect_sensitive_field_changes d))
    by (rewrite Hd; now left).
  unfold DiffAnalyzer.detect_sensitive_field_changes in Hin.
  apply existsb_exists. exists p.
  apply in_app_or in Hin. destruct Hin as [Hin | Hin];
    [| apply in_app_or in Hin; destruct Hin as [Hin | Hin]];
    destruct (sensitive_in_path _ _ _ Hin) as [Hpath Hs];
    (split; [exact Hpath | now apply is_sensitive_holds_token]).
Qed.

(** C4, as the code has it.  [calculate_severity] consults the two
    rules on the statuses before the diff: rule 1 gives HIGH; failing
    rule 1, rule 4 gives MEDIUM whatever the diff holds, so that a
    baseline status of 400 and a replayed status of 200 give MEDIUM.
    For the diff of a baseline and a test result to whose bodies rule 5
    does not apply, and in which the code recognises a sensitive path
    when there is one, the severity is that of the first rule that
    applies in the order 1, 4, 2, 3, 6, 7, 8. *)
Theorem calculate_severity_code_order :
  forall report_str b t diff test_type,
    (SeverityOrder.rule1 b t = true ->
     DiffAnalyzer.calculate_severity report_str b t diff test_type = DiffAnalyzer.HIGH)
    /\ (SeverityOrder.rule1 b t = false ->
        SeverityOrder.rule4 b t = true ->
        DiffAnalyzer.calculate_severity report_str b t diff test_type
        = DiffAnalyzer.MEDIUM)
    /\ DiffAnalyzer.calculate_severity report_str 400 200 diff test_type
       = DiffAnalyzer.MEDIUM
    /\ (forall json_loads deep_diff baseline test_result,
          diff = DiffAnalyzer.compare_responses json_loads deep_diff baseline test_result ->
          SeverityOrder.rule5 (SeverityOrder.baseline_body_len baseline)
                              (SeverityOrder.test_body_len test_result) = false ->
          (SeverityOrder.rule2 diff = true ->
           Json.nonempty
             (DiffAnalyzer.detect_sensitive_field_changes (Capture.get_or diff []))
           = true) ->
          DiffAnalyzer.calculate_severity report_str b t diff test_type
          = SeverityOrder.status_rules_first b t diff test_type).
Proof.
  intros report_str b t diff test_type.
  split; [| split; [| split; [reflexivity |]]].
  - intro H1. unfold DiffAnalyzer.calculate_severity.
    now rewrite status_change_high, H1.
  - intros H1 H4. unfold DiffAnalyzer.calculate_severity.
    now rewrite status_change_high, status_change_medium, H1, H4.
  - intros json_loads deep_diff baseline test_result _ _ Hrecognised.
    unfold DiffAnalyzer.calculate_severity, SeverityOrder.status_rules_first.
    rewrite status_change_high, status_change_medium.
    cbn [SeverityOrder.first_match].
    destruct (SeverityOrder.rule1 b t); [reflexivity |].
    destruct (SeverityOrder.rule4 b t); [reflexivity |].
    cbv zeta. rewrite length_rule_false, andb_false_r.
    assert (Hsame : DiffAnalyzer.diff_truthy diff
                    && Json.nonempty
                         (DiffAnalyzer.detect_sensitive_field_changes
                            (Capture.get_or diff []))
                    = SeverityOrder.rule2 diff).
    { destruct (SeverityOrder.rule2 diff) eqn:Hr2.
      - rewrite (Hrecognised eq_refl), andb_true_r.
        destruct diff as [[|x d]|]; [discriminate Hr2 | reflexivity | discriminate Hr2].
      - destruct diff as [d|]; [| reflexivity]. cbn [Capture.get_or].
        destruct (Json.nonempty (DiffAnalyzer.detect_sensitive_field_changes d)) eqn:Hd;
          [| apply andb_false_r].
        apply detected_holds_token in Hd. cbn [SeverityOrder.rule2] in Hr2. congruence. }
    rewrite Hsame. destruct (SeverityOrder.rule2 diff); [reflexivity |].
    unfold SeverityOrder.rule3, SeverityOrder.rule6, SeverityOrder.rule7.
    destruct (Z.eqb_spec t 200) as [-> | Ht].
    + destruct (Z.eqb_spec b 200) as [-> | Hb]; cbn [andb];
        destruct (String.eqb test_type "IDOR"), (DiffAnalyzer.diff_truthy diff);
        reflexivity.
    + rewrite !andb_false_r. cbn [andb].
      destruct (DiffAnalyzer.diff_truthy diff); reflexivity.
Qed.

(** The theorem at scenario 5 of the specification: both statuses are
    200, the bodies are objects of 26 and 27 characters that differ in
    [role]; rule 2 and rule 6 both apply, and the severity is HIGH. *)
Lemma calculate_severity_code_order_witness :
  DiffAnalyzer.compare_responses loads_role_text (fun _ _ => Scenario.role_diff)
    role_baseline role_result = Some Scenario.role_diff
  /\ SeverityOrder.rule5 (SeverityOrder.baseline_body_len role_baseline)
                         (SeverityOrder.test_body_len role_result) = false
  /\ SeverityOrder.rule2 (Some Scenario.role_diff) = true
  /\ SeverityOrder.rule6 200 200 (Some Scenario.role_diff) = true
  /\ DiffAnalyzer.calculate_severity (fun _ => "") 200 200 (Some Scenario.role_diff)
       "AUTH_BYPASS"
     = DiffAnalyzer.HIGH.
Proof.
  split; [reflexivity |]. split; [reflexivity |]. split; [reflexivity |].
  split; [reflexivity |].
  exact (proj2 (proj2 (proj2
           (calculate_severity_code_order (fun _ => "") 200 200
              (Some Scenario.role_diff) "AUTH_BYPASS")))
           loads_role_text (fun _ _ => Scenario.role_diff) role_baseline role_result
           eq_refl eq_refl (fun _ => eq_refl)).
Defined.

(** C4, as stated, fails: the diff holds the sensitive path
    [root['role']], to which rule 2 applies; the baseline status is 400
    and the replayed one 200; and the severity is not HIGH. *)
Lemma severity_400_200_sensitive_not_high :
  SeverityOrder.rule2 (Some Scenario.role_diff) = true
  /\ DiffAnalyzer.detect_sensitive_field_changes Scenario.role_diff = ["root['role']"]
  /\ ~ exists report_str,
         DiffAnalyzer.calculate_severity report_str 400 200
           (Some Scenario.role_diff) "IDOR" = DiffAnalyzer.HIGH.
Proof.
  split; [reflexivity |]. split; [reflexivity |].
  intros [report_str H]. discriminate H.
Qed.

(** *** Replay *)

Lemma enumerate_from_map_snd : forall A (l : list A) i,
  map snd (HarParser.enumerate_from i l) = l.
Proof.
  intros A l. induction l as [|a l IH]; intro i; simpl; [reflexivity |].
  now rewrite IH.
Qed.

Lemma process_result_test_id : forall w test cookies headers,
  TestRunner.test_id
    (TestRunner.process_result test
       (TestRunner.run_with_semaphore w test cookies headers))
  = TestGenerator.test_id test.
Proof.
  intros w test cookies headers.
  unfold TestRunner.run_with_semaphore, TestRunner.run_single_test.
  destruct (TestRunner.escapes w); [reflexivity |].
  cbn [TestRunner.process_result].
  now destruct (TestRunner.client w _).
Qed.

Lemma process_result_matches : forall w test cookies headers,
  ReplaySpec.task_result w test cookies headers
    (TestRunner.process_result test
       (TestRunner.run_with_semaphore w test cookies headers)).
Proof.
  intros w test cookies headers.
  unfold ReplaySpec.task_result, TestRunner.run_with_semaphore, TestRunner.run_single_test.
  destruct (TestRunner.escapes w); [now repeat split |].
  cbn [TestRunner.process_result]. unfold ReplaySpec.result_matches.
  destruct (TestRunner.client w _); now repeat split.
Qed.

Lemma run_from_matches : forall world cookies headers tests i,
  Forall2 (fun it r => ReplaySpec.task_result (world (fst it)) (snd it) cookies headers r)
    (HarParser.enumerate_from i tests)
    (map (fun '(i, test) =>
            TestRunner.process_result test
              (TestRunner.run_with_semaphore (world i) test cookies headers))
         (HarParser.enumerate_from i tests)).
Proof.
  intros world cookies headers tests.
  induction tests as [|test tests IH]; intro i; simpl; constructor.
  - apply process_result_matches.
  - apply IH.
Qed.

Lemma processed_results_test_ids : forall world tests cookies headers,
  map TestRunner.test_id (TestRunner.processed_results world tests cookies headers)
  = map TestGenerator.test_id tests.
Proof.
  intros world tests cookies headers.
  unfold TestRunner.processed_results, HarParser.enumerate.
  rewrite map_map.
  rewrite <- (enumerate_from_map_snd _ tests 0) at 2. rewrite map_map.
  apply map_ext. intros [i test]. apply process_result_test_id.
Qed.

Lemma run_tests_returns : forall world tests cookies headers concurrency rate,
  ~ (rate == 0)%Q ->
  (1 <= concurrency)%Z ->
  TestRunner.run_tests world tests cookies headers concurrency rate
  = TestRunner.Returns (TestRunner.processed_results world tests cookies headers).
Proof.
  intros world tests cookies headers concurrency rate Hrate Hc.
  unfold TestRunner.run_tests.
  destruct (Qeq_bool rate 0) eqn:Hzero; [now apply Qeq_bool_eq in Hzero |].
  destruct (Z.ltb_spec concurrency 0); [lia |].
  destruct (Z.eqb_spec concurrency 0); [lia |]. reflexivity.
Qed.




(** *** Cross-pool IDOR *)

Lemma choice_in : forall A (rng : TestGenerator.Rng) k (seq : list A),
  seq <> [] -> exists a, TestGenerator.choice rng k seq = Some a /\ In a seq.
Proof.
  intros A rng k seq Hne. unfold TestGenerator.choice.
  assert (Hlt : rng k mod List.length seq < List.length seq).
  { apply Nat.mod_upper_bound. destruct seq; [contradiction | discriminate]. }
  destruct (nth_error seq (rng k mod List.length seq)) as [a|] eqn:E.
  - exists a. split; [reflexivity |]. eapply nth_error_In; eassumption.
  - apply nth_error_None in E. lia.
Qed.

Lemma choice_singleton : forall A (rng : TestGenerator.Rng) k (a : A),
  TestGenerator.choice rng k [a] = Some a.
Proof.
  intros A rng k a.
  destruct (choice_in A rng k [a]) as [b [Hb [Hin|[]]]]; [discriminate |].
  now subst b.
Qed.

Section CrossPool.

Variables users_name projects_name : string.
Variables users_method projects_method : string.
Variables users_bodies projects_bodies : list (list (string * json)).
Hypothesis names_differ : users_name <> projects_name.

Let users := Scenario.users users_method users_bodies users_name.
Let projects := Scenario.projects projects_method projects_bodies projects_name.

Let union_users_first := Scenario.union_users_first users_name projects_name.
Let union_projects_first := Scenario.union_projects_first users_name projects_name.

Lemma eqb_projects_users : String.eqb projects_name users_name = false.
Proof. apply String.eqb_neq. congruence. Qed.

Lemma eqb_users_projects : String.eqb users_name projects_name = false.
Proof. now apply String.eqb_neq. Qed.

Lemma collect_users_first :
  TestGenerator.collect_all_id_pools [users; projects] = union_users_first.
Proof.
  unfold TestGenerator.collect_all_id_pools, users, projects, union_users_first,
    Scenario.union_users_first.
  cbn. now rewrite eqb_projects_users.
Qed.

Lemma collect_projects_first :
  TestGenerator.collect_all_id_pools [projects; users] = union_projects_first.
Proof.
  unfold TestGenerator.collect_all_id_pools, users, projects, union_projects_first,
    Scenario.union_projects_first.
  cbn. now rewrite eqb_users_projects.
Qed.

(** Whatever id of the users pool is the original one, the target is
    the id 100 of the projects pool. *)
Lemma find_target_projects : forall rng k original_id all_id_pools,
  In original_id [Endpoint.IdInt 1; Endpoint.IdInt 2] ->
  all_id_pools = union_users_first \/ all_id_pools = union_projects_first ->
  TestGenerator.find_target rng k users_name original_id all_id_pools
  = Some (projects_name, Endpoint.IdInt 100).
Proof.
  intros rng k original_id all_id_pools Hin Hall.
  assert (Hcand : filter (fun id_val => negb (Endpoint.id_eqb id_val original_id))
                         [Endpoint.IdInt 100] = [Endpoint.IdInt 100]).
  { destruct Hin as [<-|[<-|[]]]; reflexivity. }
  destruct Hall as [-> | ->]; unfold union_users_first, union_projects_first,
    Scenario.union_users_first, Scenario.union_projects_first;
    cbn [TestGenerator.find_target].
  - rewrite String.eqb_refl. cbn [negb andb].
    rewrite eqb_projects_users, Hcand. cbn [negb andb Json.nonempty].
    now rewrite choice_singleton.
  - rewrite eqb_projects_users, Hcand. cbn [negb andb Json.nonempty].
    now rewrite choice_singleton.
Qed.

Lemma idor_iteration_users : forall rng k i all_id_pools,
  all_id_pools = union_users_first \/ all_id_pools = union_projects_first ->
  exists t,
    TestGenerator.idor_iteration users all_id_pools rng k i = (Some t, k + 3)
    /\ TestGenerator.url t = "/users/100".
Proof.
  intros rng k i all_id_pools Hall.
  unfold TestGenerator.idor_iteration, users, Scenario.users.
  cbn [Endpoint.id_pools Endpoint.templated_path Endpoint.method PyDict.keys map fst].
  rewrite choice_singleton.
  cbn [PyDict.get]. rewrite String.eqb_refl.
  cbn [Endpoint.pool_ids Endpoint.integer_ids Endpoint.uuid_ids Endpoint.string_ids
       map app].
  destruct (choice_in _ rng (k + 1) [Endpoint.IdInt 1; Endpoint.IdInt 2])
    as [original_id [Hchoice Hin]]; [discriminate |].
  rewrite Hchoice.
  rewrite (find_target_projects rng (k + 2) original_id all_id_pools Hin Hall).
  cbn [Endpoint.id_truthy Z.eqb negb].
  eexists. split; reflexivity.
Qed.

Lemma idor_loop_users : forall rng all_id_pools indices k,
  all_id_pools = union_users_first \/ all_id_pools = union_projects_first ->
  let tests := fst (TestGenerator.idor_loop users all_id_pools rng k indices) in
  List.length tests = List.length indices
  /\ Forall (fun t => TestGenerator.url t = "/users/100") tests.
Proof.
  intros rng all_id_pools indices.
  induction indices as [|i rest IH]; intros k Hall; cbn [TestGenerator.idor_loop].
  - split; [reflexivity | constructor].
  - destruct (idor_iteration_users rng k i all_id_pools Hall) as [t [Hit Hurl]].
    rewrite Hit.
    specialize (IH (k + 3) Hall). cbn zeta in IH.
    destruct (TestGenerator.idor_loop users all_id_pools rng (k + 3) rest)
      as [tests k''].
    cbn [fst] in *. destruct IH as [Hlen Hall'].
    split; [cbn; now rewrite Hlen | now constructor].
Qed.

End CrossPool.

(** C2, as the code has it.  When the pools of the two endpoints go
    under different names, whatever the random draws and in either order
    of the endpoints, the IDOR tests of the users endpoint are
    [min count 5] in number, at least one for a positive [count], and
    every one of them has the URL [/users/100]. *)
Theorem idor_cross_pool_names_differ :
  forall users_name projects_name users_method projects_method
         users_bodies projects_bodies all_endpoints count rng k,
    users_name <> projects_name ->
    0 < count ->
    all_endpoints
    = [Scenario.users users_method users_bodies users_name;
       Scenario.projects projects_method projects_bodies projects_name]
    \/ all_endpoints
       = [Scenario.projects projects_method projects_bodies projects_name;
          Scenario.users users_method users_bodies users_name] ->
    let tests :=
      fst (TestGenerator.generate_idor_tests
             (Scenario.users users_method users_bodies users_name)
             all_endpoints count rng k) in
    List.length tests = Nat.min count 5
    /\ tests <> []
    /\ Forall (fun t => TestGenerator.url t = "/users/100") tests.
Proof.
  intros users_name projects_name users_method projects_method
         users_bodies projects_bodies all_endpoints count rng k Hnames Hcount Hall.
  assert (Hunion :
            TestGenerator.collect_all_id_pools all_endpoints
            = Scenario.union_users_first users_name projects_name
            \/ TestGenerator.collect_all_id_pools all_endpoints
               = Scenario.union_projects_first users_name projects_name).
  { destruct Hall as [-> | ->].
    - left. now apply collect_users_first.
    - right. now apply collect_projects_first. }
  unfold TestGenerator.generate_idor_tests.
  cbn [Scenario.users Endpoint.id_pools List.length Nat.mul Nat.add].
  pose proof (idor_loop_users users_name projects_name users_method users_bodies
                Hnames rng (TestGenerator.collect_all_id_pools all_endpoints)
                (seq 0 (Nat.min count 5)) k Hunion) as Hloop.
  cbn zeta in Hloop. unfold Scenario.users in Hloop.
  destruct (TestGenerator.idor_loop _ _ rng k (seq 0 (Nat.min count 5)))
    as [tests k'].
  cbn [fst] in *. destruct Hloop as [Hlen Hurls].
  rewrite length_seq in Hlen.
  assert (Hfirst : firstn count tests = tests).
  { apply firstn_all2. lia. }
  rewrite Hfirst. split; [exact Hlen | split; [| exact Hurls]].
  intro Hnil. rewrite Hnil in Hlen. cbn in Hlen. lia.
Qed.

(** The theorem at the names [user_id] and [project_id], with the
    default count and every draw equal to 0. *)
Lemma idor_cross_pool_witness :
  let tests :=
    fst (TestGenerator.generate_idor_tests
           (Scenario.users "GET" [] "user_id")
           [Scenario.users "GET" [] "user_id"; Scenario.projects "GET" [] "project_id"]
           Settings.IDOR_TEST_COUNT (fun _ => 0) 0) in
  List.length tests = Nat.min Settings.IDOR_TEST_COUNT 5
  /\ tests <> []
  /\ Forall (fun t => TestGenerator.url t = "/users/100") tests.
Proof.
  apply (idor_cross_pool_names_differ "user_id" "project_id" "GET" "GET" [] []).
  - discriminate.
  - unfold Settings.IDOR_TEST_COUNT. lia.
  - left. reflexivity.
Defined.

(** C2, as stated, fails: when both pools go under the name [param_2],
    which the endpoint modeler gives to the third path segment of either
    endpoint, no draw makes the generator emit a test for the users
    endpoint, with URL [/users/100] or any other. *)
Lemma idor_shared_pool_name_emits_nothing :
  ~ exists rng k t,
      In t (fst (TestGenerator.generate_idor_tests
                   (Scenario.users "GET" [] "param_2")
                   [Scenario.users "GET" [] "param_2";
                    Scenario.projects "GET" [] "param_2"]
                   Settings.IDOR_TEST_COUNT rng k)).
Proof.
  intros [rng [k [t Hin]]].
  assert (Hiter : forall k i,
            fst (TestGenerator.idor_iteration (Scenario.users "GET" [] "param_2")
                   [("param_2", [Endpoint.IdInt 1; Endpoint.IdInt 2; Endpoint.IdInt 100])]
                   rng k i) = None).
  { intros k0 i. unfold TestGenerator.idor_iteration.
    cbn [Scenario.users Endpoint.id_pools PyDict.keys map fst].
    rewrite choice_singleton. cbn [PyDict.get]. rewrite String.eqb_refl.
    destruct (TestGenerator.choice rng (k0 + 1) _) as [original_id|]; [| reflexivity].
    cbn [TestGenerator.find_target]. rewrite String.eqb_refl. reflexivity. }
  assert (Hloop : forall indices k,
            fst (TestGenerator.idor_loop (Scenario.users "GET" [] "param_2")
                   [("param_2", [Endpoint.IdInt 1; Endpoint.IdInt 2; Endpoint.IdInt 100])]
                   rng k indices) = []).
  { induction indices as [|i rest IH]; intro k0; cbn [TestGenerator.idor_loop];
      [reflexivity |].
    specialize (Hiter k0 i).
    destruct (TestGenerator.idor_iteration _ _ rng k0 i) as [test k1].
    cbn [fst] in Hiter. subst test.
    specialize (IH k1).
    destruct (TestGenerator.idor_loop _ _ rng k1 rest) as [tests k2].
    cbn [fst] in *. exact IH. }
  unfold TestGenerator.generate_idor_tests in Hin.
  cbn [Scenario.users Endpoint.id_pools] in Hin.
  change (TestGenerator.collect_all_id_pools _)
    with [("param_2", [Endpoint.IdInt 1; Endpoint.IdInt 2; Endpoint.IdInt 100])] in Hin.
  match type of Hin with
  | context [TestGenerator.idor_loop ?e ?p ?r ?k0 ?l] =>
      specialize (Hloop l k0);
      destruct (TestGenerator.idor_loop e p r k0 l) as [tests k']
  end.
  cbn [fst] in *. subst tests. rewrite firstn_nil in Hin. exact Hin.
Qed.

(** *** Body parameters and sample bodies *)

Lemma collect_bodies_app : forall json_loads l1 l2 st,
  HarParser.collect_bodies json_loads st (l1 ++ l2)
  = match HarParser.collect_bodies json_loads st l1 with
    | Some st' => HarParser.collect_bodies json_loads st' l2
    | None => None
    end.
Proof.
  intros json_loads l1 l2. induction l1 as [|r l1 IH]; intro st; simpl;
    [reflexivity |].
  destruct (HarParser.body_step json_loads st r); [apply IH | reflexivity].
Qed.

Lemma body_text_post_data : forall r s,
  Capture.post_data r = Some s -> s <> "" -> HarParser.body_text r = s.
Proof.
  intros r s Hpd Hne. unfold HarParser.body_text. rewrite Hpd.
  cbn [Capture.get_or]. apply String.eqb_neq in Hne. now rewrite Hne.
Qed.

Lemma body_step_unparsable : forall json_loads st r,
  HarParser.extract_json_body json_loads (HarParser.body_text r) = None ->
  HarParser.body_step json_loads st r = Some st.
Proof.
  intros json_loads [sample_bodies body_params] r H.
  unfold HarParser.body_step. now rewrite H.
Qed.

Lemma collect_bodies_skip : forall json_loads before r after st,
  HarParser.extract_json_body json_loads (HarParser.body_text r) = None ->
  HarParser.collect_bodies json_loads st (before ++ r :: after)
  = HarParser.collect_bodies json_loads st (before ++ after).
Proof.
  intros json_loads before r after st H.
  rewrite !collect_bodies_app.
  destruct (HarParser.collect_bodies json_loads st before) as [st'|]; [| reflexivity].
  cbn [HarParser.collect_bodies]. now rewrite (body_step_unparsable _ _ _ H).
Qed.

(** Path and query analysis read the URL of a request and nothing else. *)
Lemma url_analysis_reads_url : forall parse_qs base_path before r r' after,
  Capture.url r' = Capture.url r ->
  HarParser.collect_query_params parse_qs (before ++ r' :: after)
  = HarParser.collect_query_params parse_qs (before ++ r :: after)
  /\ HarParser.collect_path_params base_path (before ++ r' :: after)
     = HarParser.collect_path_params base_path (before ++ r :: after)
  /\ map (fun req => fst (HarParser.normalize_url (HarParser.req_url req)))
         (before ++ r' :: after)
     = map (fun req => fst (HarParser.normalize_url (HarParser.req_url req)))
           (before ++ r :: after).
Proof.
  intros parse_qs base_path before r r' after Hurl.
  assert (Hreq : HarParser.req_url r' = HarParser.req_url r)
    by (unfold HarParser.req_url; now rewrite Hurl).
  unfold HarParser.collect_query_params, HarParser.collect_path_params.
  rewrite !fold_left_app, !map_app. cbn [fold_left map].
  now rewrite Hreq.
Qed.

(** C6, as the code has it.  A request whose body is not empty and
    fails JSON parsing adds nothing to the sample bodies and to the body
    parameters of its endpoint, while it counts in the path and query
    analysis like any request with its URL.  (A request whose body is
    empty is read through the body of its response instead.) *)
Theorem unparsable_request_body_adds_nothing :
  forall parse_qs json_loads method base_path before r after s,
    Capture.post_data r = Some s ->
    s <> "" ->
    HarParser.extract_json_body json_loads s = None ->
    option_map (fun ep => (HarParser.sample_bodies ep,
                           HarParser.body (HarParser.parameters ep)))
      (HarParser.build_endpoint parse_qs json_loads method base_path
         (before ++ r :: after))
    = option_map (fun ep => (HarParser.sample_bodies ep,
                             HarParser.body (HarParser.parameters ep)))
        (HarParser.build_endpoint parse_qs json_loads method base_path
           (before ++ after))
    /\ forall r',
         Capture.url r' = Capture.url r ->
         HarParser.collect_query_params parse_qs (before ++ r' :: after)
         = HarParser.collect_query_params parse_qs (before ++ r :: after)
         /\ HarParser.collect_path_params base_path (before ++ r' :: after)
            = HarParser.collect_path_params base_path (before ++ r :: after)
         /\ HarParser.detect_template_path base_path
              (map (fun req => fst (HarParser.normalize_url (HarParser.req_url req)))
                   (before ++ r' :: after))
            = HarParser.detect_template_path base_path
                (map (fun req => fst (HarParser.normalize_url (HarParser.req_url req)))
                     (before ++ r :: after)).
Proof.
  intros parse_qs json_loads method base_path before r after s Hpd Hne Hjson.
  split.
  - unfold HarParser.build_endpoint.
    rewrite (collect_bodies_skip json_loads before r after).
    + destruct (HarParser.collect_bodies json_loads ([], []) (before ++ after))
        as [[sample_bodies body_params]|]; reflexivity.
    + now rewrite (body_text_post_data r s Hpd Hne).
  - intros r' Hurl.
    destruct (url_analysis_reads_url parse_qs base_path before r r' after Hurl)
      as [Hq [Hp Hpaths]].
    split; [exact Hq | split; [exact Hp | now rewrite Hpaths]].
Qed.

(** The theorem at a request sent with the body [name=x], alone in its
    group, for a decoder that refuses every text. *)
Lemma unparsable_request_body_witness :
  option_map (fun ep => (HarParser.sample_bodies ep,
                         HarParser.body (HarParser.parameters ep)))
    (HarParser.build_endpoint (fun _ => []) (fun _ => None) "POST" "/api/items"
       ([] ++ Scenario.sent_with_text :: []))
  = option_map (fun ep => (HarParser.sample_bodies ep,
                           HarParser.body (HarParser.parameters ep)))
      (HarParser.build_endpoint (fun _ => []) (fun _ => None) "POST" "/api/items"
         ([] ++ []))
  /\ forall r',
       Capture.url r' = Capture.url Scenario.sent_with_text ->
       HarParser.collect_query_params (fun _ => []) ([] ++ r' :: [])
       = HarParser.collect_query_params (fun _ => []) ([] ++ Scenario.sent_with_text :: [])
       /\ HarParser.collect_path_params "/api/items" ([] ++ r' :: [])
          = HarParser.collect_path_params "/api/items" ([] ++ Scenario.sent_with_text :: [])
       /\ HarParser.detect_template_path "/api/items"
            (map (fun req => fst (HarParser.normalize_url (HarParser.req_url req)))
                 ([] ++ r' :: []))
          = HarParser.detect_template_path "/api/items"
              (map (fun req => fst (HarParser.normalize_url (HarParser.req_url req)))
                   ([] ++ Scenario.sent_with_text :: [])).
Proof.
  apply (unparsable_request_body_adds_nothing
           (fun _ => []) (fun _ => None) "POST" "/api/items"
           [] Scenario.sent_with_text [] "name=x").
  - reflexivity.
  - discriminate.
  - reflexivity.
Defined.

(** C6, as stated, fails: a request sent with an empty body and answered
    with a JSON object gets the object as a sample body of its endpoint
    and the key of the object as a body parameter. *)
Lemma empty_request_body_reads_response :
  Capture.post_data Scenario.answered_with_json = Some ""
  /\ exists ep,
       HarParser.parse_requests (fun _ => []) Scenario.loads_json_text
         [Scenario.answered_with_json] = Some [ep]
       /\ HarParser.sample_bodies ep = [[("a", JInt 1)]]
       /\ HarParser.body (HarParser.parameters ep) = [("a", ["1"])].
Proof.
  split; [reflexivity |].
  eexists. split; [vm_compute; reflexivity |].
  split; reflexivity.
Qed.

(** ** Further properties of the code *)

(** *** The vocabularies *)

(** X1.  The vocabulary of id names comes down to its shortest entry:
    a name matches an id pattern exactly when it contains [id], in any
    case of the letters. *)
Theorem matches_id_pattern_is_id_substring : forall name,
  IdInference.matches_id_pattern name = PyStr.contains "id" (PyStr.lower name).
Proof.
  intro name. unfold IdInference.matches_id_pattern, Settings.ID_PATTERNS.
  cbn [existsb].
  change (PyStr.lower "id") with "id".
  destruct (PyStr.contains "id" (PyStr.lower name)) eqn:E; [reflexivity |].
  cbn [orb].
  repeat match goal with
         | |- context [PyStr.contains (PyStr.lower ?p) (PyStr.lower name)] =>
             rewrite (contains_false_trans (PyStr.lower p) "id" (PyStr.lower name)
                        eq_refl E)
         end.
  reflexivity.
Qed.

(** X2.  A diff path is sensitive exactly when, lowered, it contains
    one of [owner_id], [user_id], [email], [role], [is_admin],
    [permissions] and [access_level]: the entries [ownerId], [userId],
    [isAdmin] and [accessLevel] are compared with their capitals against
    the lowered path and never match, and [roles] adds nothing to
    [role]. *)
Theorem is_sensitive_lowercase_tokens : forall field_path,
  DiffAnalyzer.is_sensitive field_path
  = existsb (fun token => PyStr.contains token (PyStr.lower field_path))
            ["owner_id"; "user_id"; "email"; "role"; "is_admin"; "permissions";
             "access_level"].
Proof.
  intro p. unfold DiffAnalyzer.is_sensitive, Settings.SENSITIVE_FIELDS.
  cbn [existsb].
  rewrite (capital_never_in_lower "ownerId" p eq_refl).
  rewrite (capital_never_in_lower "userId" p eq_refl).
  rewrite (capital_never_in_lower "isAdmin" p eq_refl).
  rewrite (capital_never_in_lower "accessLevel" p eq_refl).
  cbn [orb].
  destruct (PyStr.contains "role" (PyStr.lower p)) eqn:E.
  - now rewrite !orb_true_r.
  - now rewrite (contains_false_trans "roles" "role" (PyStr.lower p) eq_refl E).
Qed.

(** X3.  Mass assignment injects the string [full] only for a name that
    contains [access] and neither [admin], [is] nor [role]; a name that
    contains [permission] never gets it. *)
Theorem full_only_through_access : forall field,
  TestGenerator.injected_value field = JStr "full" ->
  PyStr.contains "access" (PyStr.lower field) = true
  /\ PyStr.contains "permission" (PyStr.lower field) = false
  /\ PyStr.contains "is" (PyStr.lower field) = false
  /\ PyStr.contains "admin" (PyStr.lower field) = false
  /\ PyStr.contains "role" (PyStr.lower field) = false.
Proof.
  intros field. unfold TestGenerator.injected_value.
  destruct (PyStr.contains "admin" (PyStr.lower field)) eqn:Eadmin; [discriminate |].
  destruct (PyStr.contains "is" (PyStr.lower field)) eqn:Eis; [discriminate |].
  destruct (PyStr.contains "role" (PyStr.lower field)) eqn:Erole; [discriminate |].
  rewrite (contains_false_trans "permission" "is" (PyStr.lower field) eq_refl Eis).
  cbn [orb].
  destruct (PyStr.contains "access" (PyStr.lower field)) eqn:Eaccess; [| discriminate].
  intros _. repeat split; reflexivity.
Qed.

(** The theorem at the field [accessLevel]. *)
Lemma full_only_through_access_witness :
  PyStr.contains "access" (PyStr.lower "accessLevel") = true
  /\ PyStr.contains "permission" (PyStr.lower "accessLevel") = false
  /\ PyStr.contains "is" (PyStr.lower "accessLevel") = false
  /\ PyStr.contains "admin" (PyStr.lower "accessLevel") = false
  /\ PyStr.contains "role" (PyStr.lower "accessLevel") = false.
Proof.
  apply (full_only_through_access "accessLevel"). reflexivity.
Defined.



(** *** Dictionaries *)

Lemma get_set_same : forall V (k : string) (v : V) d,
  PyDict.get String.eqb k (PyDict.set String.eqb k v d) = Some v.
Proof.
  intros V k v d. induction d as [|[k' v'] d IH]; cbn [PyDict.set PyDict.get].
  - now rewrite String.eqb_refl.
  - destruct (String.eqb k k') eqn:E; cbn [PyDict.get]; rewrite E; [reflexivity | exact IH].
Qed.

Lemma get_set_other : forall V (k k' : string) (v : V) d,
  k' <> k ->
  PyDict.get String.eqb k' (PyDict.set String.eqb k v d) = PyDict.get String.eqb k' d.
Proof.
  intros V k k' v d Hne. induction d as [|[k0 v0] d IH]; cbn [PyDict.set PyDict.get].
  - apply String.eqb_neq in Hne. now rewrite Hne.
  - destruct (String.eqb k k0) eqn:E; cbn [PyDict.get].
    + apply String.eqb_eq in E. subst k0.
      apply String.eqb_neq in Hne. now rewrite Hne.
    + now rewrite IH.
Qed.

(** *** The generator *)

Lemma find_target_sound : forall rng k source_pool_name original_id all_id_pools name target_id,
  TestGenerator.find_target rng k source_pool_name original_id all_id_pools
  = Some (name, target_id) ->
  name <> source_pool_name
  /\ Endpoint.id_eqb target_id original_id = false
  /\ exists ids, In (name, ids) all_id_pools /\ In target_id ids.
Proof.
  intros rng k src orig pools name target.
  induction pools as [|[pool_name pool_ids] rest IH]; cbn [TestGenerator.find_target];
    [discriminate |].
  destruct (negb (String.eqb pool_name src)
            && Json.nonempty
                 (filter (fun id_val => negb (Endpoint.id_eqb id_val orig)) pool_ids))
    eqn:Hcond.
  - destruct (TestGenerator.choice rng k _) as [t|] eqn:Hchoice; [| discriminate].
    intro H. injection H as <- <-.
    apply andb_true_iff in Hcond. destruct Hcond as [Hname _].
    apply negb_true_iff, String.eqb_neq in Hname.
    unfold TestGenerator.choice in Hchoice. apply nth_error_In in Hchoice.
    apply filter_In in Hchoice. destruct Hchoice as [Hin Hne].
    apply negb_true_iff in Hne.
    split; [exact Hname | split; [exact Hne |]].
    exists pool_ids. split; [now left | exact Hin].
  - intro H. destruct (IH H) as [Hname [Hne [ids [Hin Hid]]]].
    split; [exact Hname | split; [exact Hne |]].
    exists ids. split; [now right | exact Hid].
Qed.

Lemma get_in : forall V (k : string) (v : V) d,
  PyDict.get String.eqb k d = Some v -> exists k', k' = k /\ In (k', v) d.
Proof.
  intros V k v d. induction d as [|[k0 v0] d IH]; cbn [PyDict.get]; [discriminate |].
  destruct (String.eqb k k0) eqn:E.
  - intro H. injection H as ->. apply String.eqb_eq in E. subst k0.
    exists k. split; [reflexivity | now left].
  - intro H. destruct (IH H) as [k' [-> Hin]]. exists k. split; [reflexivity | now right].
Qed.

Lemma idor_iteration_sound : forall ep all_id_pools rng k i t k',
  TestGenerator.idor_iteration ep all_id_pools rng k i = (Some t, k') ->
  idor_test_of ep all_id_pools t.
Proof.
  intros ep pools rng k i t k'. unfold TestGenerator.idor_iteration.
  destruct (TestGenerator.choice rng k (PyDict.keys (Endpoint.id_pools ep)))
    as [src|] eqn:Hsrc; [| discriminate].
  destruct (PyDict.get String.eqb src (Endpoint.id_pools ep)) as [source_pool|] eqn:Hget.
  - destruct (TestGenerator.choice rng (k + 1) (Endpoint.pool_ids source_pool))
      as [orig|] eqn:Horig; [| discriminate].
    destruct (TestGenerator.find_target rng (k + 2) src orig pools)
      as [[tname target]|] eqn:Hfind; [| discriminate].
    destruct (Endpoint.id_truthy target) eqn:Htruthy; [| discriminate].
    intro H. injection H as <- _.
    destruct (find_target_sound _ _ _ _ _ _ _ Hfind) as [Hname [Hne [ids [Hin Hid]]]].
    destruct (get_in _ _ _ _ Hget) as [k0 [-> Hsrcin]].
    unfold TestGenerator.choice in Horig. apply nth_error_In in Horig.
    exists src, source_pool, orig, tname, ids, target.
    repeat split; assumption || reflexivity.
  - destruct (TestGenerator.choice rng (k + 1) []) eqn:Horig; [| discriminate].
    unfold TestGenerator.choice in Horig. now destruct (rng (k + 1) mod _) in Horig.
Qed.

Lemma idor_loop_sound : forall ep all_id_pools rng indices k,
  Forall (idor_test_of ep all_id_pools)
         (fst (TestGenerator.idor_loop ep all_id_pools rng k indices))
  /\ List.length (fst (TestGenerator.idor_loop ep all_id_pools rng k indices))
     <= List.length indices.
Proof.
  intros ep pools rng indices.
  induction indices as [|i rest IH]; intro k; cbn [TestGenerator.idor_loop].
  - split; [constructor | apply Nat.le_refl].
  - destruct (TestGenerator.idor_iteration ep pools rng k i) as [test k1] eqn:Hit.
    specialize (IH k1).
    destruct (TestGenerator.idor_loop ep pools rng k1 rest) as [tests k2].
    cbn [fst] in *. destruct IH as [Hall Hlen].
    destruct test as [t|]; cbn [List.length].
    + split; [| lia]. constructor; [| exact Hall].
      eapply idor_iteration_sound; eassumption.
    + split; [exact Hall | lia].
Qed.

Lemma forall_firstn : forall A (P : A -> Prop) n l, Forall P l -> Forall P (firstn n l).
Proof.
  intros A P n l H. apply Forall_forall. intros x Hx.
  apply in_firstn in Hx. revert x Hx. now apply Forall_forall.
Qed.

Lemma generate_idor_tests_sound : forall ep all_endpoints count rng k,
  Forall (idor_test_of ep (TestGenerator.collect_all_id_pools all_endpoints))
         (fst (TestGenerator.generate_idor_tests ep all_endpoints count rng k))
  /\ List.length (fst (TestGenerator.generate_idor_tests ep all_endpoints count rng k))
     <= Nat.min count (List.length (Endpoint.id_pools ep) * 5).
Proof.
  intros ep eps count rng k. unfold TestGenerator.generate_idor_tests.
  destruct (Endpoint.id_pools ep) as [|p ps] eqn:Hpools.
  - split; [constructor | cbn; lia].
  - rewrite <- Hpools.
    pose proof (idor_loop_sound ep (TestGenerator.collect_all_id_pools eps) rng
                  (seq 0 (Nat.min count (List.length (Endpoint.id_pools ep) * 5))) k)
      as [Hall Hlen].
    destruct (TestGenerator.idor_loop ep _ rng k _) as [tests k1].
    cbn [fst] in *. rewrite length_seq in Hlen.
    split; [now apply forall_firstn |].
    rewrite length_firstn. lia.
Qed.

(** X5.  Every IDOR test of an endpoint is built from a pool of the
    endpoint and an id of it (the source), and from an id (the target)
    taken from a pool of the cross-endpoint union that goes under
    another name; the target differs from the source id and is neither
    0 nor the empty string.  The test carries the target only: its URL
    is the templated path with the placeholders [{id:int}], [{id:uuid}]
    and [{param}] set to the target (the path itself when it has none),
    and its body is the first sample body with the target under every
    key that is the name of the source pool or holds [id] (no body
    when there is no sample).  The test keeps the method of the
    endpoint and the session.  There are at most [count] such tests and
    at most five per pool of the endpoint. *)
Theorem idor_tests_cross_pool : forall ep all_endpoints count rng k,
  let tests := fst (TestGenerator.generate_idor_tests ep all_endpoints count rng k) in
  List.length tests <= Nat.min count (List.length (Endpoint.id_pools ep) * 5)
  /\ forall t,
       In t tests ->
       exists source_pool_name source_pool original_id target_pool_name target_ids target_id,
         In (source_pool_name, source_pool) (Endpoint.id_pools ep)
         /\ In original_id (Endpoint.pool_ids source_pool)
         /\ In (target_pool_name, target_ids)
               (TestGenerator.collect_all_id_pools all_endpoints)
         /\ In target_id target_ids
         /\ target_pool_name <> source_pool_name
         /\ Endpoint.id_eqb target_id original_id = false
         /\ Endpoint.id_truthy target_id = true
         /\ TestGenerator.url t
            = PyStr.replace "{param}" (Endpoint.id_str target_id)
                (PyStr.replace "{id:uuid}" (Endpoint.id_str target_id)
                   (PyStr.replace "{id:int}" (Endpoint.id_str target_id)
                      (Endpoint.templated_path ep)))
         /\ TestGenerator.body t
            = match Endpoint.sample_bodies ep with
              | [] => None
              | first :: _ =>
                  Some (map (fun '(key, value) =>
                               if String.eqb key source_pool_name
                                  || PyStr.contains "id" (PyStr.lower key)
                               then (key, Endpoint.id_json target_id)
                               else (key, value)) first)
              end
         /\ TestGenerator.test_type t = "IDOR"
         /\ TestGenerator.endpoint t = Endpoint.templated_path ep
         /\ TestGenerator.method t = Endpoint.method ep
         /\ TestGenerator.cookies t = true.
Proof.
  intros ep eps count rng k tests. subst tests.
  destruct (generate_idor_tests_sound ep eps count rng k) as [Hall Hlen].
  split; [exact Hlen |].
  intros t Hin.
  destruct (proj1 (Forall_forall _ _) Hall t Hin)
    as [src [sp [orig [tn [tids [tid H]]]]]].
  exists src, sp, orig, tn, tids, tid.
  unfold TestGenerator.concretize, TestGenerator.idor_body in H. intuition.
Qed.

(** X6.  When every id of the cross-endpoint union is 0 or the empty
    string, no IDOR test is generated, whatever the pools of the
    endpoint: such an id is never used as a target. *)
Theorem idor_falsy_ids_never_targets : forall ep all_endpoints count rng k,
  Forall (fun pool => Forall (fun id_val => Endpoint.id_truthy id_val = false) (snd pool))
         (TestGenerator.collect_all_id_pools all_endpoints) ->
  fst (TestGenerator.generate_idor_tests ep all_endpoints count rng k) = [].
Proof.
  intros ep eps count rng k Hfalsy.
  destruct (generate_idor_tests_sound ep eps count rng k) as [Hall _].
  destruct (fst (TestGenerator.generate_idor_tests ep eps count rng k)) as [|t rest];
    [reflexivity |].
  apply Forall_inv in Hall.
  destruct Hall as [src [sp [orig [tn [tids [tid H]]]]]].
  destruct H as [_ [_ [Hpool [Hid [_ [_ [Htruthy _]]]]]]].
  pose proof (proj1 (Forall_forall _ _) Hfalsy _ Hpool) as Hids. cbn [snd] in Hids.
  pose proof (proj1 (Forall_forall _ _) Hids _ Hid) as Hf.
  now rewrite Hf in Htruthy.
Qed.

(** The theorem at the users and projects endpoints with pools named
    [user_id] and [project_id], the users endpoint with a sample body,
    every draw equal to 0. *)
Lemma idor_tests_cross_pool_witness :
  let ep := Scenario.users "POST" [[("user_id", JInt 1); ("name", JStr "a")]] "user_id" in
  let all_endpoints := [ep; Scenario.projects "GET" [] "project_id"] in
  exists t,
    In t (fst (TestGenerator.generate_idor_tests ep all_endpoints 10 (fun _ => 0) 0))
    /\ exists source_pool_name source_pool original_id target_pool_name target_ids target_id,
         In (source_pool_name, source_pool) (Endpoint.id_pools ep)
         /\ In original_id (Endpoint.pool_ids source_pool)
         /\ In (target_pool_name, target_ids)
               (TestGenerator.collect_all_id_pools all_endpoints)
         /\ In target_id target_ids
         /\ target_pool_name <> source_pool_name
         /\ Endpoint.id_eqb target_id original_id = false
         /\ Endpoint.id_truthy target_id = true
         /\ TestGenerator.url t
            = PyStr.replace "{param}" (Endpoint.id_str target_id)
                (PyStr.replace "{id:uuid}" (Endpoint.id_str target_id)
                   (PyStr.replace "{id:int}" (Endpoint.id_str target_id)
                      (Endpoint.templated_path ep)))
         /\ TestGenerator.body t
            = match Endpoint.sample_bodies ep with
              | [] => None
              | first :: _ =>
                  Some (map (fun '(key, value) =>
                               if String.eqb key source_pool_name
                                  || PyStr.contains "id" (PyStr.lower key)
                               then (key, Endpoint.id_json target_id)
                               else (key, value)) first)
              end
         /\ TestGenerator.test_type t = "IDOR"
         /\ TestGenerator.endpoint t = Endpoint.templated_path ep
         /\ TestGenerator.method t = Endpoint.method ep
         /\ TestGenerator.cookies t = true.
Proof.
  intros ep all_endpoints.
  eexists. split.
  - left. reflexivity.
  - apply (proj2 (idor_tests_cross_pool ep all_endpoints 10 (fun _ => 0) 0)).
    left. reflexivity.
Defined.

(** The theorem at a users endpoint beside an endpoint whose only id is 0. *)
Lemma idor_falsy_ids_witness :
  fst (TestGenerator.generate_idor_tests
         (Endpoint.mk "GET" "/users/{id:int}" []
            [("user_id", Endpoint.mkIDPool [0%Z] [] [])])
         [Endpoint.mk "GET" "/users/{id:int}" []
            [("user_id", Endpoint.mkIDPool [0%Z] [] [])];
          Endpoint.mk "GET" "/teams/{id:int}" []
            [("team_id", Endpoint.mkIDPool [0%Z] [] [""])]]
         10 (fun _ => 0) 0) = [].
Proof.
  apply idor_falsy_ids_never_targets.
  repeat constructor.
Defined.

Lemma mem_in : forall x l, TestGenerator.mem x l = true <-> In x l.
Proof.
  intros x l. unfold TestGenerator.mem. rewrite existsb_exists. split.
  - intros [y [Hin Heq]]. apply String.eqb_eq in Heq. now subst y.
  - intro Hin. exists x. split; [exact Hin | apply String.eqb_refl].
Qed.

Lemma alternative_methods_spec : forall original allow count m,
  In m (TestGenerator.alternative_methods original allow count) ->
  m <> original /\ In m Settings.HTTP_METHODS /\ (allow = false -> m <> "DELETE").
Proof.
  intros original allow count m Hin.
  unfold TestGenerator.alternative_methods in Hin. apply in_firstn in Hin.
  assert (Hbase : forall m0,
             In m0 (filter (fun m => negb (String.eqb m original)) Settings.HTTP_METHODS) ->
             m0 <> original /\ In m0 Settings.HTTP_METHODS).
  { intros m0 H. apply filter_In in H. destruct H as [H1 H2].
    apply negb_true_iff, String.eqb_neq in H2. now split. }
  destruct allow; cbn [negb] in Hin.
  - destruct (Hbase m Hin) as [H1 H2]. repeat split; [exact H1 | exact H2 | discriminate].
  - apply filter_In in Hin. destruct Hin as [Hin Hnd].
    destruct (Hbase m Hin) as [H1 H2]. repeat split; [exact H1 | exact H2 |].
    intros _ ->. discriminate Hnd.
Qed.

Lemma endpoint_tests_origin : forall ep endpoints max_tests allow rng k t,
  In t (fst (TestGenerator.endpoint_tests ep endpoints max_tests allow rng k)) ->
  test_of_endpoint ep t /\ (allow = false -> TestGenerator.test_type t = "METHOD_CONFUSION" ->
                            TestGenerator.method t <> "DELETE").
Proof.
  intros ep eps max_tests allow rng k t Hin.
  unfold TestGenerator.endpoint_tests in Hin.
  pose proof (generate_idor_tests_sound ep eps Settings.IDOR_TEST_COUNT rng k) as [Hidor _].
  destruct (TestGenerator.generate_idor_tests ep eps Settings.IDOR_TEST_COUNT rng k)
    as [idor_tests k1].
  cbn [fst] in *.
  assert (Hin' : In t (idor_tests
                       ++ TestGenerator.generate_auth_bypass_tests ep
                            Settings.AUTH_BYPASS_TEST_COUNT
                       ++ TestGenerator.generate_method_confusion_tests ep allow
                            Settings.METHOD_CONFUSION_TEST_COUNT
                       ++ TestGenerator.generate_mass_assignment_tests ep
                            Settings.MASS_ASSIGNMENT_TEST_COUNT)).
  { destruct (Nat.ltb max_tests _) in Hin; [now apply in_firstn in Hin | exact Hin]. }
  clear Hin. unfold test_of_endpoint.
  apply in_app_or in Hin'. destruct Hin' as [H|H].
  { destruct (proj1 (Forall_forall _ _) Hidor t H)
      as [src [sp [orig [tn [tids [tid Hs]]]]]].
    destruct Hs as [_ [_ [_ [_ [_ [_ [_ [_ [_ [Hty [Hm [He Hc]]]]]]]]]]]].
    split; [split; [exact He | left; now repeat split] |].
    intros _ Hty'. rewrite Hty in Hty'. discriminate Hty'. }
  apply in_app_or in H. destruct H as [H|H].
  { unfold TestGenerator.generate_auth_bypass_tests in H.
    apply in_map_iff in H. destruct H as [i [<- _]].
    split; [split; [reflexivity | right; left; now repeat split] |].
    intros _ Hty'. discriminate Hty'. }
  apply in_app_or in H. destruct H as [H|H].
  { unfold TestGenerator.generate_method_confusion_tests in H.
    apply in_map_iff in H. destruct H as [m [<- Hm]].
    destruct (alternative_methods_spec _ _ _ _ Hm) as [H1 [H2 H3]].
    split; [split; [reflexivity | right; right; left; now repeat split] |].
    intros Hallow _. now apply H3. }
  { unfold TestGenerator.generate_mass_assignment_tests in H.
    destruct (TestGenerator.mem (Endpoint.method ep) ["POST"; "PUT"; "PATCH"]) eqn:Hmem;
      cbn [negb] in H; [| contradiction].
    apply in_map_iff in H. destruct H as [[i field] [<- _]].
    apply mem_in in Hmem.
    split; [split; [reflexivity | right; right; right; now repeat split] |].
    intros _ Hty'. discriminate Hty'. }
Qed.

Lemma generate_from_origin : forall todo endpoints max_tests allow rng k t,
  In t (TestGenerator.generate_from todo endpoints max_tests allow rng k) ->
  exists ep, In ep todo
             /\ test_of_endpoint ep t
             /\ (allow = false -> TestGenerator.test_type t = "METHOD_CONFUSION" ->
                 TestGenerator.method t <> "DELETE").
Proof.
  intros todo eps max_tests allow rng.
  induction todo as [|ep rest IH]; intros k t Hin; cbn [TestGenerator.generate_from] in Hin;
    [contradiction |].
  pose proof (endpoint_tests_origin ep eps max_tests allow rng k t) as Hhere.
  destruct (TestGenerator.endpoint_tests ep eps max_tests allow rng k) as [tests k1].
  cbn [fst] in Hhere.
  apply in_app_or in Hin. destruct Hin as [Hin|Hin].
  - exists ep. destruct (Hhere Hin) as [H1 H2]. split; [now left | now split].
  - destruct (IH k1 t Hin) as [ep' [Hep H]]. exists ep'. split; [now right | exact H].
Qed.

(** X7.  In the output of [generate_tests], a test goes without the
    session exactly when it is an AUTH_BYPASS test; every test is of one
    of the four classes and names the templated path of an endpoint of
    the input; a MASS_ASSIGNMENT test is sent under POST, PUT or PATCH. *)
Theorem generated_tests_session_flag : forall endpoints max_tests allow_destructive rng t,
  In t (TestGenerator.generate_tests endpoints max_tests allow_destructive rng) ->
  (TestGenerator.cookies t = false <-> TestGenerator.test_type t = "AUTH_BYPASS")
  /\ In (TestGenerator.test_type t)
        ["IDOR"; "AUTH_BYPASS"; "METHOD_CONFUSION"; "MASS_ASSIGNMENT"]
  /\ (exists ep, In ep endpoints
                 /\ TestGenerator.endpoint t = Endpoint.templated_path ep)
  /\ (TestGenerator.test_type t = "MASS_ASSIGNMENT" ->
      In (TestGenerator.method t) ["POST"; "PUT"; "PATCH"]).
Proof.
  intros eps max_tests allow rng t Hin.
  destruct (generate_from_origin eps eps max_tests allow rng 0 t Hin)
    as [ep [Hep [[Hendpoint Hclass] _]]].
  destruct Hclass as [[Hty [_ Hc]] | [[Hty [_ Hc]] | [[Hty [_ [_ Hc]]] | [Hty [_ [Hm Hc]]]]]];
    rewrite Hty, Hc.
  - split; [split; discriminate |]. split; [now left |].
    split; [now exists ep | discriminate].
  - split; [split; reflexivity |]. split; [right; now left |].
    split; [now exists ep | discriminate].
  - split; [split; discriminate |]. split; [right; right; now left |].
    split; [now exists ep | discriminate].
  - split; [split; discriminate |]. split; [right; right; right; now left |].
    split; [now exists ep | intros _; exact Hm].
Qed.

(** The theorem at the first test generated for an endpoint observed
    under POST. *)
Lemma generated_tests_session_flag_witness :
  exists t,
    (TestGenerator.cookies t = false <-> TestGenerator.test_type t = "AUTH_BYPASS")
    /\ In (TestGenerator.test_type t)
          ["IDOR"; "AUTH_BYPASS"; "METHOD_CONFUSION"; "MASS_ASSIGNMENT"]
    /\ (exists ep, In ep [Scenario.post_endpoint]
                   /\ TestGenerator.endpoint t = Endpoint.templated_path ep)
    /\ (TestGenerator.test_type t = "MASS_ASSIGNMENT" ->
        In (TestGenerator.method t) ["POST"; "PUT"; "PATCH"]).
Proof.
  eexists.
  apply (generated_tests_session_flag [Scenario.post_endpoint] 30 false (fun _ => 0)).
  left. reflexivity.
Defined.

(** X8.  The destructive gate as the code keeps it: without
    [allow_destructive], a generated test has the method DELETE only when
    it is an IDOR or AUTH_BYPASS test of an endpoint that was itself
    observed under DELETE; from endpoints observed under other methods no
    DELETE test comes. *)
Theorem delete_only_from_delete_endpoints : forall endpoints max_tests rng t,
  In t (TestGenerator.generate_tests endpoints max_tests false rng) ->
  TestGenerator.method t = "DELETE" ->
  (TestGenerator.test_type t = "IDOR" \/ TestGenerator.test_type t = "AUTH_BYPASS")
  /\ exists ep, In ep endpoints
                /\ Endpoint.method ep = "DELETE"
                /\ TestGenerator.endpoint t = Endpoint.templated_path ep.
Proof.
  intros eps max_tests rng t Hin Hdelete.
  destruct (generate_from_origin eps eps max_tests false rng 0 t Hin)
    as [ep [Hep [[Hendpoint Hclass] Hgate]]].
  destruct Hclass as [[Hty [Hm _]] | [[Hty [Hm _]] | [[Hty _] | [Hty [Hm [Hpost _]]]]]].
  - split; [now left |]. exists ep. rewrite <- Hm. now repeat split.
  - split; [now right |]. exists ep. rewrite <- Hm. now repeat split.
  - now elim (Hgate eq_refl Hty).
  - rewrite Hdelete in Hpost. cbn in Hpost.
    destruct Hpost as [H|[H|[H|[]]]]; discriminate H.
Qed.

(** The theorem at the first test generated for an endpoint observed
    under DELETE. *)
Lemma delete_only_from_delete_endpoints_witness :
  exists t,
    (TestGenerator.test_type t = "IDOR" \/ TestGenerator.test_type t = "AUTH_BYPASS")
    /\ exists ep, In ep [Scenario.delete_endpoint]
                  /\ Endpoint.method ep = "DELETE"
                  /\ TestGenerator.endpoint t = Endpoint.templated_path ep.
Proof.
  eexists.
  apply (delete_only_from_delete_endpoints [Scenario.delete_endpoint] 30 (fun _ => 0)).
  - left. reflexivity.
  - reflexivity.
Defined.

Lemma enumerate_from_length : forall A (l : list A) i,
  List.length (HarParser.enumerate_from i l) = List.length l.
Proof.
  intros A l i. rewrite <- (length_map snd). now rewrite enumerate_from_map_snd.
Qed.

Lemma alternative_methods_length : forall original allow count,
  List.length (TestGenerator.alternative_methods original allow count) <= 7
  /\ (In original ["POST"; "PUT"; "PATCH"] ->
      List.length (TestGenerator.alternative_methods original allow count) <= 6).
Proof.
  intros original allow count. unfold TestGenerator.alternative_methods.
  split.
  - rewrite length_firstn.
    destruct allow; cbn [negb].
    + pose proof (filter_length_le (fun m => negb (String.eqb m original))
                    Settings.HTTP_METHODS) as H.
      change (List.length Settings.HTTP_METHODS) with 7 in H. lia.
    + pose proof (filter_length_le (fun m => negb (TestGenerator.mem m Settings.DESTRUCTIVE_METHODS))
                    (filter (fun m => negb (String.eqb m original)) Settings.HTTP_METHODS))
        as H1.
      pose proof (filter_length_le (fun m => negb (String.eqb m original))
                    Settings.HTTP_METHODS) as H2.
      change (List.length Settings.HTTP_METHODS) with 7 in H2. lia.
  - intros [<-|[<-|[<-|[]]]]; rewrite length_firstn; destruct allow; cbn; lia.
Qed.

Lemma mass_assignment_length : forall ep count,
  List.length (TestGenerator.generate_mass_assignment_tests ep count)
  = if TestGenerator.mem (Endpoint.method ep) ["POST"; "PUT"; "PATCH"]
    then Nat.min count 18 else 0.
Proof.
  intros ep count. unfold TestGenerator.generate_mass_assignment_tests.
  destruct (TestGenerator.mem (Endpoint.method ep) ["POST"; "PUT"; "PATCH"]);
    cbn [negb]; [| reflexivity].
  rewrite length_map. unfold HarParser.enumerate.
  rewrite enumerate_from_length, length_firstn. reflexivity.
Qed.

Lemma class_lengths : forall ep endpoints allow rng k,
  List.length
    (fst (TestGenerator.generate_idor_tests ep endpoints Settings.IDOR_TEST_COUNT rng k)
     ++ TestGenerator.generate_auth_bypass_tests ep Settings.AUTH_BYPASS_TEST_COUNT
     ++ TestGenerator.generate_method_confusion_tests ep allow
          Settings.METHOD_CONFUSION_TEST_COUNT
     ++ TestGenerator.generate_mass_assignment_tests ep
          Settings.MASS_ASSIGNMENT_TEST_COUNT) <= 26.
Proof.
  intros ep eps allow rng k. rewrite !length_app.
  destruct (generate_idor_tests_sound ep eps Settings.IDOR_TEST_COUNT rng k) as [_ Hidor].
  assert (Hidor10 : List.length
                      (fst (TestGenerator.generate_idor_tests ep eps
                              Settings.IDOR_TEST_COUNT rng k)) <= 10)
    by (etransitivity; [exact Hidor | apply Nat.le_min_l]).
  clear Hidor.
  assert (Hauth : List.length (TestGenerator.generate_auth_bypass_tests ep
                                 Settings.AUTH_BYPASS_TEST_COUNT) = 5).
  { unfold TestGenerator.generate_auth_bypass_tests. now rewrite length_map, length_seq. }
  rewrite Hauth, mass_assignment_length.
  unfold TestGenerator.generate_method_confusion_tests. rewrite length_map.
  destruct (alternative_methods_length (Endpoint.method ep) allow
              Settings.METHOD_CONFUSION_TEST_COUNT) as [H7 H6].
  destruct (TestGenerator.mem (Endpoint.method ep) ["POST"; "PUT"; "PATCH"]) eqn:Hmem.
  - apply mem_in in Hmem. specialize (H6 Hmem).
    change (Nat.min Settings.MASS_ASSIGNMENT_TEST_COUNT 18) with 5. lia.
  - lia.
Qed.

Lemma endpoint_tests_length : forall ep endpoints max_tests allow rng k,
  List.length (fst (TestGenerator.endpoint_tests ep endpoints max_tests allow rng k))
  <= Nat.min max_tests 26.
Proof.
  intros ep eps max_tests allow rng k.
  pose proof (class_lengths ep eps allow rng k) as Hlen.
  unfold TestGenerator.endpoint_tests.
  destruct (TestGenerator.generate_idor_tests ep eps Settings.IDOR_TEST_COUNT rng k)
    as [idor_tests k1].
  cbn [fst] in *.
  destruct (Nat.ltb max_tests _) eqn:Hcut.
  - rewrite length_firstn. lia.
  - apply Nat.ltb_ge in Hcut. lia.
Qed.

Lemma endpoint_tests_uncut : forall ep endpoints max_tests allow rng k,
  26 <= max_tests ->
  TestGenerator.endpoint_tests ep endpoints max_tests allow rng k
  = TestGenerator.endpoint_tests ep endpoints 26 allow rng k.
Proof.
  intros ep eps max_tests allow rng k Hmax.
  pose proof (class_lengths ep eps allow rng k) as Hlen.
  unfold TestGenerator.endpoint_tests.
  destruct (TestGenerator.generate_idor_tests ep eps Settings.IDOR_TEST_COUNT rng k)
    as [idor_tests k1].
  cbn [fst] in Hlen.
  assert (H1 : Nat.ltb max_tests (List.length (idor_tests
                 ++ TestGenerator.generate_auth_bypass_tests ep Settings.AUTH_BYPASS_TEST_COUNT
                 ++ TestGenerator.generate_method_confusion_tests ep allow
                      Settings.METHOD_CONFUSION_TEST_COUNT
                 ++ TestGenerator.generate_mass_assignment_tests ep
                      Settings.MASS_ASSIGNMENT_TEST_COUNT)) = false)
    by (apply Nat.ltb_ge; lia).
  assert (H2 : Nat.ltb 26 (List.length (idor_tests
                 ++ TestGenerator.generate_auth_bypass_tests ep Settings.AUTH_BYPASS_TEST_COUNT
                 ++ TestGenerator.generate_method_confusion_tests ep allow
                      Settings.METHOD_CONFUSION_TEST_COUNT
                 ++ TestGenerator.generate_mass_assignment_tests ep
                      Settings.MASS_ASSIGNMENT_TEST_COUNT)) = false)
    by (apply Nat.ltb_ge; lia).
  now rewrite H1, H2.
Qed.

Lemma generate_from_size : forall todo endpoints max_tests allow rng k,
  List.length (TestGenerator.generate_from todo endpoints max_tests allow rng k)
  <= Nat.min max_tests 26 * List.length todo
  /\ (26 <= max_tests ->
      TestGenerator.generate_from todo endpoints max_tests allow rng k
      = TestGenerator.generate_from todo endpoints 26 allow rng k).
Proof.
  intros todo eps max_tests allow rng.
  induction todo as [|ep rest IH]; intro k; cbn [TestGenerator.generate_from List.length].
  - split; [lia | reflexivity].
  - pose proof (endpoint_tests_length ep eps max_tests allow rng k) as Hlen.
    pose proof (endpoint_tests_uncut ep eps max_tests allow rng k) as Huncut.
    destruct (TestGenerator.endpoint_tests ep eps max_tests allow rng k) as [tests k1].
    cbn [fst] in Hlen. destruct (IH k1) as [IHlen IHeq].
    split.
    + rewrite length_app, Nat.mul_succ_r. lia.
    + intro Hmax. rewrite <- (Huncut Hmax). now rewrite (IHeq Hmax).
Qed.



(** X10.  Mass assignment adds one field and changes nothing else: for
    an endpoint observed under POST, PUT or PATCH there are
    [min count 18] tests, and the body of each is the first sample body
    (or the empty object) with one suspicious field of the first [count]
    set to its injected value, every other key reading as before; for an
    endpoint observed under another method there is no test. *)
Theorem mass_assignment_adds_one_field : forall ep count,
  List.length (TestGenerator.generate_mass_assignment_tests ep count)
  = (if TestGenerator.mem (Endpoint.method ep) ["POST"; "PUT"; "PATCH"]
     then Nat.min count 18 else 0)
  /\ forall t,
       In t (TestGenerator.generate_mass_assignment_tests ep count) ->
       exists field test_body,
         In field (firstn count Settings.SUSPICIOUS_FIELDS)
         /\ TestGenerator.body t = Some test_body
         /\ PyDict.get String.eqb field test_body
            = Some (TestGenerator.injected_value field)
         /\ forall key,
              key <> field ->
              PyDict.get String.eqb key test_body
              = PyDict.get String.eqb key
                  (match Endpoint.sample_bodies ep with
                   | [] => []
                   | first :: _ => first
                   end).
Proof.
  intros ep count. split; [apply mass_assignment_length |].
  intros t Hin. unfold TestGenerator.generate_mass_assignment_tests in Hin.
  destruct (TestGenerator.mem (Endpoint.method ep) ["POST"; "PUT"; "PATCH"]);
    cbn [negb] in Hin; [| contradiction].
  apply in_map_iff in Hin. destruct Hin as [[i field] [<- Hin]].
  exists field. eexists. split; [| split; [reflexivity | split]].
  - apply (in_map snd) in Hin. unfold HarParser.enumerate in Hin.
    now rewrite enumerate_from_map_snd in Hin.
  - apply get_set_same.
  - intros key Hne. now apply get_set_other.
Qed.

(** The theorem at the first test for an endpoint observed under POST. *)
Lemma mass_assignment_witness :
  exists t field test_body,
    In t (TestGenerator.generate_mass_assignment_tests Scenario.post_endpoint 5)
    /\ In field (firstn 5 Settings.SUSPICIOUS_FIELDS)
    /\ TestGenerator.body t = Some test_body
    /\ PyDict.get String.eqb field test_body = Some (TestGenerator.injected_value field).
Proof.
  destruct (mass_assignment_adds_one_field Scenario.post_endpoint 5) as [_ H].
  assert (Hin : In (hd Scenario.auth_test
                       (TestGenerator.generate_mass_assignment_tests Scenario.post_endpoint 5))
                   (TestGenerator.generate_mass_assignment_tests Scenario.post_endpoint 5))
    by (left; reflexivity).
  destruct (H _ Hin) as [field [test_body [H1 [H2 [H3 _]]]]].
  eexists. exists field, test_body.
  split; [exact Hin | split; [exact H1 | split; [exact H2 | exact H3]]].
Defined.

(** *** Lists updated in place *)

Lemma nth_error_set_nth : forall A (l : list A) i a j,
  nth_error (RateLimiter.set_nth i a l) j
  = if Nat.eqb j i
    then match nth_error l i with Some _ => Some a | None => None end
    else nth_error l j.
Proof.
  intros A l. induction l as [|b l IH]; intros i a j.
  - cbn. destruct (Nat.eqb j i); destruct i, j; reflexivity.
  - destruct i as [|i], j as [|j]; cbn [RateLimiter.set_nth nth_error Nat.eqb];
      try reflexivity.
    apply IH.
Qed.

Lemma nth_set_same : forall A (l : list A) i a b,
  nth_error l i = Some b -> nth_error (RateLimiter.set_nth i a l) i = Some a.
Proof. intros. rewrite nth_error_set_nth, Nat.eqb_refl. now rewrite H. Qed.

Lemma nth_set_other : forall A (l : list A) i a j,
  j <> i -> nth_error (RateLimiter.set_nth i a l) j = nth_error l j.
Proof.
  intros. rewrite nth_error_set_nth. apply Nat.eqb_neq in H. now rewrite H.
Qed.

(** The task found at [j] after the task at [i] was replaced. *)
Lemma nth_set_cases : forall A (l : list A) i a b j t,
  nth_error l i = Some b ->
  nth_error (RateLimiter.set_nth i a l) j = Some t ->
  (j = i /\ t = a) \/ (j <> i /\ nth_error l j = Some t).
Proof.
  intros A l i a b j t Hi Hj. destruct (Nat.eq_dec j i) as [->|Hne].
  - left. rewrite (nth_set_same _ _ _ _ _ Hi) in Hj. now injection Hj as <-.
  - right. now rewrite nth_set_other in Hj.
Qed.

Lemma start_sequential : forall start mi n,
  Sequential mi (RateLimiter.start_loop start 1 mi n).
Proof.
  intros start mi n.
  assert (Hpending : forall i t,
             nth_error (repeat RateLimiter.Pending n) i = Some t -> t = RateLimiter.Pending).
  { intros i t H. apply nth_error_In in H. now apply repeat_spec in H. }
  constructor; cbn [RateLimiter.start_loop RateLimiter.tasks RateLimiter.permits
                    RateLimiter.limiter RateLimiter.init RateLimiter.min_interval].
  - reflexivity.
  - lia.
  - intros i t H Ha. rewrite (Hpending _ _ H) in Ha. discriminate Ha.
  - intros i j ti tj H _ Ha. rewrite (Hpending _ _ H) in Ha. discriminate Ha.
  - intros i u H. apply Hpending in H. discriminate H.
  - intros i t g H Hg. rewrite (Hpending _ _ H) in Hg. discriminate Hg.
  - intros i j ti tj gi gj _ H _ Hg. rewrite (Hpending _ _ H) in Hg. discriminate Hg.
Qed.

Ltac loop_fields :=
  constructor;
  cbn [RateLimiter.tasks RateLimiter.permits RateLimiter.limiter RateLimiter.now
       RateLimiter.min_interval RateLimiter.last_request_time
       RateLimiter.acquire_resume].

Lemma step_sequential : forall mi e l l',
  Sequential mi l -> RateLimiter.step e l = Some l' -> Sequential mi l'.
Proof.
  intros mi e l l' [Hint Hperm Hbusy Halone Hsleep Hpast Hspaced] Hstep.
  destruct e as [d|i|i|i]; cbn [RateLimiter.step] in Hstep.
  - destruct (0 <=? d)%Z eqn:Hd; [| discriminate]. apply Z.leb_le in Hd.
    injection Hstep as <-. loop_fields.
    + exact Hint.
    + exact Hperm.
    + exact Hbusy.
    + exact Halone.
    + exact Hsleep.
    + intros i t g H Hg. destruct (Hpast i t g H Hg). split; lia.
    + exact Hspaced.
  - destruct (nth_error (RateLimiter.tasks l) i) as [[| | |]|] eqn:Hi; try discriminate.
    assert (Hidle : RateLimiter.permits l <> 0 ->
                    forall j t, nth_error (RateLimiter.tasks l) j = Some t -> active t = false).
    { intros Hp j t H. destruct (active t) eqn:Ha; [| reflexivity].
      elim Hp. exact (Hbusy j t H Ha). }
    destruct (RateLimiter.permits l) as [|p]; [discriminate |].
    assert (Hp0 : p = 0) by lia. subst p.
    specialize (Hidle ltac:(discriminate)).
    unfold RateLimiter.acquire_begin in Hstep.
    destruct (RateLimiter.now l - RateLimiter.last_request_time (RateLimiter.limiter l)
              <? RateLimiter.min_interval (RateLimiter.limiter l))%Z eqn:Hlt;
      injection Hstep as <-; loop_fields.
    + exact Hint.
    + lia.
    + reflexivity.
    + intros j k tj tk Hj Hk Haj Hak.
      destruct (nth_set_cases _ _ _ _ _ _ _ Hi Hj) as [[-> _]|[_ Hj']];
        [| rewrite (Hidle _ _ Hj') in Haj; discriminate].
      destruct (nth_set_cases _ _ _ _ _ _ _ Hi Hk) as [[-> _]|[_ Hk']];
        [reflexivity | rewrite (Hidle _ _ Hk') in Hak; discriminate].
    + intros j u Hj.
      destruct (nth_set_cases _ _ _ _ _ _ _ Hi Hj) as [[-> Hu]|[_ Hj']].
      * injection Hu as ->. lia.
      * now apply (Hsleep j).
    + intros j t g Hj Hg.
      destruct (nth_set_cases _ _ _ _ _ _ _ Hi Hj) as [[-> ->]|[_ Hj']];
        [discriminate Hg | now apply (Hpast j t)].
    + intros j k tj tk gj gk Hjk Hj Hk Hgj Hgk.
      destruct (nth_set_cases _ _ _ _ _ _ _ Hi Hj) as [[-> ->]|[_ Hj']];
        [discriminate Hgj |].
      destruct (nth_set_cases _ _ _ _ _ _ _ Hi Hk) as [[-> ->]|[_ Hk']];
        [discriminate Hgk |].
      now apply (Hspaced j k tj tk).
    + exact Hint.
    + lia.
    + reflexivity.
    + intros j k tj tk Hj Hk Haj Hak.
      destruct (nth_set_cases _ _ _ _ _ _ _ Hi Hj) as [[-> _]|[_ Hj']];
        [| rewrite (Hidle _ _ Hj') in Haj; discriminate].
      destruct (nth_set_cases _ _ _ _ _ _ _ Hi Hk) as [[-> _]|[_ Hk']];
        [reflexivity | rewrite (Hidle _ _ Hk') in Hak; discriminate].
    + intros j u Hj.
      destruct (nth_set_cases _ _ _ _ _ _ _ Hi Hj) as [[-> Hu]|[_ Hj']];
        [discriminate Hu |].
      pose proof (Hidle _ _ Hj') as Ha. discriminate Ha.
    + intros j t g Hj Hg.
      destruct (nth_set_cases _ _ _ _ _ _ _ Hi Hj) as [[-> ->]|[_ Hj']].
      * injection Hg as <-. lia.
      * destruct (Hpast j t g Hj' Hg). lia.
    + apply Z.ltb_ge in Hlt.
      intros j k tj tk gj gk Hjk Hj Hk Hgj Hgk.
      destruct (nth_set_cases _ _ _ _ _ _ _ Hi Hj) as [[-> ->]|[Hji Hj']];
        destruct (nth_set_cases _ _ _ _ _ _ _ Hi Hk) as [[-> ->]|[Hki Hk']].
      * now elim Hjk.
      * injection Hgj as <-. destruct (Hpast k tk gk Hk' Hgk). lia.
      * injection Hgk as <-. destruct (Hpast j tj gj Hj' Hgj). lia.
      * now apply (Hspaced j k tj tk).
  - destruct (nth_error (RateLimiter.tasks l) i) as [[|u| |]|] eqn:Hi; try discriminate.
    destruct (u <=? RateLimiter.now l)%Z eqn:Hu; [| discriminate]. apply Z.leb_le in Hu.
    injection Hstep as <-.
    assert (Honly : forall j t, nth_error (RateLimiter.tasks l) j = Some t ->
                                j <> i -> active t = false).
    { intros j t H Hne. destruct (active t) eqn:Ha; [| reflexivity].
      elim Hne. now apply (Halone j i t (RateLimiter.Sleeping u)). }
    pose proof (Hsleep i u Hi) as Hui.
    loop_fields.
    + exact Hint.
    + exact Hperm.
    + intros j t Hj Ha. now apply (Hbusy i (RateLimiter.Sleeping u)).
    + intros j k tj tk Hj Hk Haj Hak.
      destruct (nth_set_cases _ _ _ _ _ _ _ Hi Hj) as [[-> _]|[Hji Hj']];
        [| rewrite (Honly _ _ Hj' Hji) in Haj; discriminate].
      destruct (nth_set_cases _ _ _ _ _ _ _ Hi Hk) as [[-> _]|[Hki Hk']];
        [reflexivity | rewrite (Honly _ _ Hk' Hki) in Hak; discriminate].
    + intros j v Hj.
      destruct (nth_set_cases _ _ _ _ _ _ _ Hi Hj) as [[-> Hv]|[Hji Hj']];
        [discriminate Hv |].
      pose proof (Honly _ _ Hj' Hji) as Ha. discriminate Ha.
    + intros j t g Hj Hg.
      destruct (nth_set_cases _ _ _ _ _ _ _ Hi Hj) as [[-> ->]|[_ Hj']].
      * injection Hg as <-. lia.
      * destruct (Hpast j t g Hj' Hg). lia.
    + intros j k tj tk gj gk Hjk Hj Hk Hgj Hgk.
      destruct (nth_set_cases _ _ _ _ _ _ _ Hi Hj) as [[-> ->]|[Hji Hj']];
        destruct (nth_set_cases _ _ _ _ _ _ _ Hi Hk) as [[-> ->]|[Hki Hk']].
      * now elim Hjk.
      * injection Hgj as <-. destruct (Hpast k tk gk Hk' Hgk). lia.
      * injection Hgk as <-. destruct (Hpast j tj gj Hj' Hgj). lia.
      * now apply (Hspaced j k tj tk).
  - destruct (nth_error (RateLimiter.tasks l) i) as [[| |g|]|] eqn:Hi; try discriminate.
    injection Hstep as <-.
    assert (Honly : forall j t, nth_error (RateLimiter.tasks l) j = Some t ->
                                j <> i -> active t = false).
    { intros j t H Hne. destruct (active t) eqn:Ha; [| reflexivity].
      elim Hne. now apply (Halone j i t (RateLimiter.Granted g)). }
    pose proof (Hbusy i _ Hi eq_refl) as Hp0.
    assert (Hgrant : forall j t, nth_error (RateLimiter.set_nth i (RateLimiter.Finished g)
                                               (RateLimiter.tasks l)) j = Some t ->
                     exists t', nth_error (RateLimiter.tasks l) j = Some t'
                                /\ RateLimiter.grant_time t' = RateLimiter.grant_time t
                                /\ (active t = true -> j <> i /\ t' = t)).
    { intros j t Hj.
      destruct (nth_set_cases _ _ _ _ _ _ _ Hi Hj) as [[-> ->]|[Hji Hj']].
      - exists (RateLimiter.Granted g). repeat split; try assumption; discriminate.
      - exists t. repeat split; assumption. }
    loop_fields.
    + exact Hint.
    + lia.
    + intros j t Hj Ha. destruct (Hgrant j t Hj) as [t' [Hj' [_ Hact]]].
      destruct (Hact Ha) as [Hji ->]. rewrite (Honly _ _ Hj' Hji) in Ha. discriminate Ha.
    + intros j k tj tk Hj Hk Haj Hak. destruct (Hgrant j tj Hj) as [t' [Hj' [_ Hact]]].
      destruct (Hact Haj) as [Hji ->]. rewrite (Honly _ _ Hj' Hji) in Haj. discriminate Haj.
    + intros j u Hj. destruct (Hgrant j _ Hj) as [t' [Hj' [_ Hact]]].
      destruct (Hact eq_refl) as [Hji ->]. now apply (Hsleep j).
    + intros j t g0 Hj Hg. destruct (Hgrant j t Hj) as [t' [Hj' [Hgt _]]].
      apply (Hpast j t' g0 Hj'). now rewrite Hgt.
    + intros j k tj tk gj gk Hjk Hj Hk Hgj Hgk.
      destruct (Hgrant j tj Hj) as [tj' [Hj' [Hgtj _]]].
      destruct (Hgrant k tk Hk) as [tk' [Hk' [Hgtk _]]].
      apply (Hspaced j k tj' tk'); try assumption; congruence.
Qed.

Lemma run_sequential : forall mi es l l',
  Sequential mi l -> RateLimiter.run es l = Some l' -> Sequential mi l'.
Proof.
  intros mi es. induction es as [|e es IH]; intros l l' Hseq Hrun;
    cbn [RateLimiter.run] in Hrun.
  - now injection Hrun as <-.
  - destruct (RateLimiter.step e l) as [l1|] eqn:Hstep; [| discriminate].
    apply (IH l1 l'); [| exact Hrun]. eapply step_sequential; eassumption.
Qed.

(** X11.  Under a semaphore of one permit the limiter does space its
    tokens: in every run of the loop, whatever the order of the events
    and the passing of time, the tokens of two different tasks are at
    least [min_interval] apart. *)
Theorem one_permit_spaces_tokens :
  forall events start min_interval n l i j ti tj gi gj,
    RateLimiter.run events (RateLimiter.start_loop start 1 min_interval n) = Some l ->
    i <> j ->
    nth_error (RateLimiter.tasks l) i = Some ti ->
    nth_error (RateLimiter.tasks l) j = Some tj ->
    RateLimiter.grant_time ti = Some gi ->
    RateLimiter.grant_time tj = Some gj ->
    (min_interval <= Z.abs (gj - gi))%Z.
Proof.
  intros events start mi n l i j ti tj gi gj Hrun Hij Hi Hj Hgi Hgj.
  pose proof (run_sequential mi events _ l (start_sequential start mi n) Hrun) as Hseq.
  apply (seq_spaced _ _ Hseq j i tj ti gj gi); auto.
Qed.

(** The theorem at two tasks run one after the other at a rate of 2 per
    second: their tokens, at 1000 and 1500, are 500 ticks apart. *)
Lemma one_permit_witness : (500 <= Z.abs (1500 - 1000))%Z.
Proof.
  apply (one_permit_spaces_tokens one_by_one 1000 500 2
           {| RateLimiter.now := 1500; RateLimiter.permits := 0;
              RateLimiter.limiter := {| RateLimiter.min_interval := 500;
                                        RateLimiter.last_request_time := 1500 |};
              RateLimiter.tasks := [RateLimiter.Finished 1000; RateLimiter.Granted 1500] |}
           0 1 (RateLimiter.Finished 1000) (RateLimiter.Granted 1500) 1000%Z 1500%Z);
    try reflexivity.
  discriminate.
Defined.

(** *** Requests as they are sent *)

Lemma get_app : forall V (k : string) (a b : list (string * V)),
  PyDict.get String.eqb k (a ++ b)
  = match PyDict.get String.eqb k a with
    | Some v => Some v
    | None => PyDict.get String.eqb k b
    end.
Proof.
  intros V k a b. induction a as [|[k0 v0] a IH]; cbn [app PyDict.get]; [reflexivity |].
  now destruct (String.eqb k k0).
Qed.

Lemma get_set : forall V (k k0 : string) (v0 : V) d,
  PyDict.get String.eqb k (PyDict.set String.eqb k0 v0 d)
  = if String.eqb k k0 then Some v0 else PyDict.get String.eqb k d.
Proof.
  intros V k k0 v0 d. destruct (String.eqb k k0) eqn:E.
  - apply String.eqb_eq in E. subst k0. apply get_set_same.
  - apply String.eqb_neq in E. now apply get_set_other.
Qed.

(** After [d.update(e)], a key reads as its last binding in [e], or as
    in [d] when [e] does not bind it. *)
Lemma get_dict_update : forall V (k : string) (e d : list (string * V)),
  PyDict.get String.eqb k (TestRunner.dict_update e d)
  = match PyDict.get String.eqb k (rev e) with
    | Some v => Some v
    | None => PyDict.get String.eqb k d
    end.
Proof.
  intros V k e. unfold TestRunner.dict_update.
  induction e as [|[k0 v0] e IH]; intro d; cbn [fold_left rev]; [reflexivity |].
  rewrite IH, get_app, get_set. cbn [PyDict.get].
  destruct (PyDict.get String.eqb k (rev e)); [reflexivity |].
  now destruct (String.eqb k k0).
Qed.

(** X12.  The layers of the request headers: a header reads as the test
    gives it, or else as the researcher header gives it, or else as the
    caller's headers give it (the last binding of a name counting in
    each layer); so every request carries a [User-Agent]. *)
Theorem merge_headers_layers : forall headers test_headers name,
  PyDict.get String.eqb name (TestRunner.merge_headers headers test_headers)
  = match PyDict.get String.eqb name (rev test_headers) with
    | Some v => Some v
    | None =>
        match PyDict.get String.eqb name Settings.DEFAULT_RESEARCHER_HEADER with
        | Some v => Some v
        | None =>
            match headers with
            | Some h => PyDict.get String.eqb name (rev h)
            | None => None
            end
        end
    end
  /\ exists agent,
       PyDict.get String.eqb "User-Agent" (TestRunner.merge_headers headers test_headers)
       = Some agent.
Proof.
  intros headers test_headers name.
  assert (Hlayers : forall name,
    PyDict.get String.eqb name (TestRunner.merge_headers headers test_headers)
    = match PyDict.get String.eqb name (rev test_headers) with
      | Some v => Some v
      | None =>
          match PyDict.get String.eqb name Settings.DEFAULT_RESEARCHER_HEADER with
          | Some v => Some v
          | None =>
              match headers with
              | Some h => PyDict.get String.eqb name (rev h)
              | None => None
              end
          end
      end).
  { intro k. unfold TestRunner.merge_headers. rewrite !get_dict_update.
    change (rev Settings.DEFAULT_RESEARCHER_HEADER) with Settings.DEFAULT_RESEARCHER_HEADER.
    destruct (PyDict.get String.eqb k (rev test_headers)); [reflexivity |].
    destruct (PyDict.get String.eqb k Settings.DEFAULT_RESEARCHER_HEADER); [reflexivity |].
    destruct headers as [[|kv h]|]; cbn [Json.nonempty]; try reflexivity.
    rewrite get_dict_update. now destruct (PyDict.get String.eqb k (rev (kv :: h))). }
  split; [apply Hlayers |].
  rewrite Hlayers.
  destruct (PyDict.get String.eqb "User-Agent" (rev test_headers)) as [v|].
  - now exists v.
  - now exists "surfacerecon/1.0".
Qed.

(** X13.  How an AUTH_BYPASS test is sent: with the method and the
    templated path of its endpoint, without cookies and without a body,
    whatever cookies the session has; the headers of the session are
    sent all the same, under the researcher header. *)
Theorem auth_bypass_request : forall ep count cookies headers t,
  In t (TestGenerator.generate_auth_bypass_tests ep count) ->
  let request := TestRunner.build_request t cookies headers in
  TestRunner.rq_cookies request = None
  /\ TestRunner.rq_json request = None
  /\ TestRunner.rq_method request = Endpoint.method ep
  /\ TestRunner.rq_url request = Endpoint.templated_path ep
  /\ TestRunner.rq_headers request = TestRunner.merge_headers headers [].
Proof.
  intros ep count cookies headers t Hin.
  unfold TestGenerator.generate_auth_bypass_tests in Hin.
  apply in_map_iff in Hin. destruct Hin as [i [<- _]].
  unfold TestRunner.build_request, TestRunner.cookie_dict.
  cbn [TestGenerator.cookies TestGenerator.body TestGenerator.method TestGenerator.url
       TestGenerator.headers TestRunner.rq_cookies TestRunner.rq_json
       TestRunner.rq_method TestRunner.rq_url TestRunner.rq_headers].
  destruct cookies; repeat split.
Qed.

(** The theorem at the first AUTH_BYPASS test of an endpoint, for a
    session with one cookie and one header. *)
Lemma auth_bypass_request_witness :
  let request :=
    TestRunner.build_request
      (hd Scenario.auth_test (TestGenerator.generate_auth_bypass_tests Scenario.post_endpoint 5))
      (Some [("session", "s3cr3t")]) (Some [("Authorization", "Bearer x")]) in
  TestRunner.rq_cookies request = None
  /\ TestRunner.rq_json request = None
  /\ TestRunner.rq_method request = Endpoint.method Scenario.post_endpoint
  /\ TestRunner.rq_url request = Endpoint.templated_path Scenario.post_endpoint
  /\ TestRunner.rq_headers request
     = TestRunner.merge_headers (Some [("Authorization", "Bearer x")]) [].
Proof.
  apply (auth_bypass_request Scenario.post_endpoint 5).
  left. reflexivity.
Defined.

(** *** The recorded body *)

Lemma take_length : forall n s, String.length (PyStr.take n s) = Nat.min n (String.length s).
Proof.
  induction n as [|n IH]; intros [|c s]; cbn [PyStr.take String.length Nat.min];
    try reflexivity.
  now rewrite IH.
Qed.

Lemma string_app_length : forall a b : string,
  String.length (a ++ b) = String.length a + String.length b.
Proof.
  intros a b. induction a as [|c a IH]; cbn [append String.length];
    [reflexivity | now rewrite IH].
Qed.

Lemma take_of_cut : forall n s marker,
  n <= String.length s -> PyStr.take n (PyStr.take n s ++ marker) = PyStr.take n s.
Proof.
  induction n as [|n IH]; intros [|c s] marker Hlen; cbn [PyStr.take append String.length] in *;
    try reflexivity; try lia.
  rewrite IH; [reflexivity | lia].
Qed.

(** X14.  The body recorded for a response: a text of at most 20000
    characters is kept as it is; a longer one is cut to its first 20000
    characters and 16 characters of marker, so the recorded body begins
    like the text and has at most 20016 characters. *)
Theorem capture_body_bounds : forall text,
  String.length (TestRunner.capture_body (Some text))
  = (if Nat.ltb 20000 (String.length text) then 20000 + 16 else String.length text)
  /\ PyStr.take 20000 (TestRunner.capture_body (Some text)) = PyStr.take 20000 text.
Proof.
  intro text. unfold TestRunner.capture_body.
  destruct (Nat.ltb 20000 (String.length text)) eqn:Hlong.
  - apply Nat.ltb_lt in Hlong. repeat split.
    + rewrite string_app_length, take_length.
      rewrite Nat.min_l by (apply Nat.lt_le_incl; exact Hlong).
      reflexivity.
    + apply take_of_cut. apply Nat.lt_le_incl. exact Hlong.
  - repeat split.
Qed.

(** *** The analyzer *)

Lemma find_baseline_sound : forall baseline_requests test_url test_method baseline,
  DiffAnalyzer.find_baseline baseline_requests test_url test_method = Some baseline ->
  In baseline baseline_requests
  /\ Capture.get_or (Capture.method baseline) "GET" = test_method.
Proof.
  intros reqs test_url test_method baseline. unfold DiffAnalyzer.find_baseline.
  destruct (find _ (rev reqs)) as [b|] eqn:Hexact.
  - intro H. injection H as ->. apply find_some in Hexact. destruct Hexact as [Hin Hp].
    apply andb_true_iff in Hp. destruct Hp as [_ Hm]. apply String.eqb_eq in Hm.
    split; [now apply in_rev | exact Hm].
  - intro H. apply find_some in H. destruct H as [Hin Hp].
    destruct (Capture.method baseline) as [m|] eqn:Hm; [| discriminate].
    apply String.eqb_eq in Hp. now split.
Qed.

Lemma analyze_result_found : forall json_loads deep_diff report_str
                                    baseline_requests tests n test_result f,
  DiffAnalyzer.analyze_result json_loads deep_diff report_str
    baseline_requests tests n test_result = DiffAnalyzer.Found f ->
  DiffAnalyzer.finding_id f = finding_name (n + 1)
  /\ finding_of baseline_requests [test_result] tests f.
Proof.
  intros jl dd rs reqs tests n r f. unfold DiffAnalyzer.analyze_result.
  destruct (TestRunner.success r) eqn:Hsuccess; cbn [negb]; [| discriminate].
  destruct (DiffAnalyzer.test_by_id tests (TestRunner.test_id r)) as [test|] eqn:Htest;
    [| discriminate].
  destruct (DiffAnalyzer.find_baseline reqs _ _) as [baseline|] eqn:Hbase; [| discriminate].
  destruct (Capture.response baseline) as [bresp|] eqn:Hresp; [| discriminate].
  destruct (TestRunner.response r) as [tresp|]; [| discriminate].
  intro H. injection H as <-.
  split; [reflexivity |].
  unfold DiffAnalyzer.test_by_id in Htest. apply find_some in Htest.
  destruct Htest as [Hin Hid]. apply String.eqb_eq in Hid. apply in_rev in Hin.
  destruct (find_baseline_sound _ _ _ _ Hbase) as [Hbin Hmethod].
  exists r, test, baseline.
  cbn [DiffAnalyzer.test_id DiffAnalyzer.test_type DiffAnalyzer.endpoint].
  repeat split; try assumption; try reflexivity.
  - now left.
  - rewrite Hresp. discriminate.
Qed.

Lemma finding_of_more : forall baseline_requests results results' tests f,
  incl results results' ->
  finding_of baseline_requests results tests f ->
  finding_of baseline_requests results' tests f.
Proof.
  intros reqs results results' tests f Hincl [r [test [baseline H]]].
  exists r, test, baseline. destruct H as [Hin H]. split; [now apply Hincl | exact H].
Qed.

Lemma analyze_loop_spec : forall json_loads deep_diff report_str baseline_requests tests
                                 test_results findings all_findings,
  DiffAnalyzer.analyze_loop json_loads deep_diff report_str baseline_requests tests
    findings test_results = Some all_findings ->
  exists new_findings,
    all_findings = findings ++ new_findings
    /\ List.length new_findings
       <= List.length (filter TestRunner.success test_results)
    /\ map DiffAnalyzer.finding_id new_findings
       = map finding_name (seq (List.length findings + 1) (List.length new_findings))
    /\ Forall (finding_of baseline_requests test_results tests) new_findings.
Proof.
  intros jl dd rs reqs tests results.
  induction results as [|r rest IH]; intros acc fs Hloop;
    cbn [DiffAnalyzer.analyze_loop] in Hloop.
  - injection Hloop as <-. exists []. rewrite app_nil_r.
    repeat split; [cbn; lia | constructor].
  - destruct (DiffAnalyzer.analyze_result jl dd rs reqs tests (List.length acc) r)
      as [| |f] eqn:Hturn; [| discriminate |].
    + destruct (IH acc fs Hloop) as [new [Hfs [Hlen [Hids Hall]]]].
      exists new. split; [exact Hfs |]. split; [| split; [exact Hids |]].
      * cbn [filter]. destruct (TestRunner.success r); cbn [List.length]; lia.
      * eapply Forall_impl; [| exact Hall]. intros f Hf.
        apply (finding_of_more reqs rest); [| exact Hf]. intros x Hx. now right.
    + destruct (analyze_result_found _ _ _ _ _ _ _ _ Hturn) as [Hid Hof].
      destruct (IH (acc ++ [f]) fs Hloop) as [new [Hfs [Hlen [Hids Hall]]]].
      exists (f :: new). split; [now rewrite Hfs, <- app_assoc |].
      assert (Hsuccess : TestRunner.success r = true).
      { destruct Hof as [r0 [t0 [b0 [[<-|[]] [Hs _]]]]]. exact Hs. }
      split; [| split].
      * cbn [filter List.length]. rewrite Hsuccess. cbn [List.length]. lia.
      * cbn [map List.length seq]. rewrite Hid. f_equal.
        rewrite Hids, length_app. cbn [List.length].
        now replace (List.length acc + 1 + 1) with (S (List.length acc + 1)) by lia.
      * constructor.
        -- apply (finding_of_more reqs [r]); [| exact Hof].
           intros x [<-|[]]. now left.
        -- eapply Forall_impl; [| exact Hall]. intros f0 Hf.
           apply (finding_of_more reqs rest); [| exact Hf]. intros x Hx. now right.
Qed.

(** X15.  The findings of [analyze_results] are numbered [finding_1],
    [finding_2], ... in their order; there are no more of them than
    successful results; and each comes from a successful result, the
    test of its identifier, and a captured request that has a response
    and the method of that test. *)
Theorem analyze_results_findings : forall json_loads deep_diff report_str
                                          baseline_requests test_results tests findings,
  DiffAnalyzer.analyze_results json_loads deep_diff report_str
    baseline_requests test_results tests = Some findings ->
  map DiffAnalyzer.finding_id findings
  = map finding_name (seq 1 (List.length findings))
  /\ List.length findings <= List.length (filter TestRunner.success test_results)
  /\ Forall (finding_of baseline_requests test_results tests) findings.
Proof.
  intros jl dd rs reqs results tests fs H. unfold DiffAnalyzer.analyze_results in H.
  destruct (analyze_loop_spec _ _ _ _ _ _ _ _ H) as [new [Hfs [Hlen [Hids Hall]]]].
  cbn [app] in Hfs. subst new.
  split; [exact Hids | split; [exact Hlen | exact Hall]].
Qed.

(** The theorem at the baseline and the result answered 500. *)
Lemma analyze_results_findings_witness :
  exists findings,
    map DiffAnalyzer.finding_id findings = map finding_name (seq 1 (List.length findings))
    /\ List.length findings
       <= List.length (filter TestRunner.success [Scenario.result_500])
    /\ Forall (finding_of [Scenario.baseline_500] [Scenario.result_500] [Scenario.auth_test])
              findings.
Proof.
  eexists.
  apply (analyze_results_findings (fun _ => None) (fun _ _ => []) (fun _ => "")
           [Scenario.baseline_500] [Scenario.result_500] [Scenario.auth_test]).
  reflexivity.
Defined.

Lemma process_result_response : forall w test cookies headers,
  TestRunner.success
    (TestRunner.process_result test (TestRunner.run_with_semaphore w test cookies headers))
  = true ->
  TestRunner.response
    (TestRunner.process_result test (TestRunner.run_with_semaphore w test cookies headers))
  <> None.
Proof.
  intros w test cookies headers.
  unfold TestRunner.run_with_semaphore, TestRunner.run_single_test.
  destruct (TestRunner.escapes w); [discriminate |].
  cbn [TestRunner.process_result].
  destruct (TestRunner.client w _); cbn [TestRunner.success TestRunner.response];
    discriminate.
Qed.



(** X17.  [compare_responses] gives a diff only for a successful result
    that has a response, and a diff it gives is never empty: in
    [calculate_severity], a diff that is there is a diff that counts. *)
Theorem compare_responses_never_empty :
  forall json_loads deep_diff baseline test_result diff,
    DiffAnalyzer.compare_responses json_loads deep_diff baseline test_result = Some diff ->
    diff <> []
    /\ DiffAnalyzer.diff_truthy (Some diff) = true
    /\ TestRunner.success test_result = true
    /\ TestRunner.response test_result <> None.
Proof.
  intros jl dd baseline r diff. unfold DiffAnalyzer.compare_responses.
  destruct (TestRunner.response r) as [tresp|]; [| discriminate].
  destruct (TestRunner.success r); cbn [negb]; [| discriminate].
  intro H.
  assert (Hne : Json.nonempty diff = true).
  { destruct (DiffAnalyzer.try_json jl _) as [bj|];
      [destruct (DiffAnalyzer.try_json jl _) as [tj|] |].
    - destruct (Json.nonempty (dd bj tj)) eqn:E.
      + injection H as <-. exact E.
      + destruct (negb _); [injection H as <-; reflexivity | discriminate].
    - destruct (negb _); [injection H as <-; reflexivity | discriminate].
    - destruct (negb _); [injection H as <-; reflexivity | discriminate]. }
  repeat split; try discriminate; try exact Hne.
  intros ->. discriminate Hne.
Qed.

(** The theorem at the baseline and the result answered 500. *)
Lemma compare_responses_witness :
  DiffAnalyzer.body_diff <> []
  /\ DiffAnalyzer.diff_truthy (Some DiffAnalyzer.body_diff) = true
  /\ TestRunner.success Scenario.result_500 = true
  /\ TestRunner.response Scenario.result_500 <> None.
Proof.
  apply (compare_responses_never_empty (fun _ => None) (fun _ _ => [])
           Scenario.baseline_500 Scenario.result_500).
  reflexivity.
Defined.

(** *** The endpoint models *)

Lemma key_eqb_eq : forall a b, HarParser.key_eqb a b = true -> a = b.
Proof.
  intros [a1 a2] [b1 b2] H. unfold HarParser.key_eqb in H. cbn in H.
  apply andb_true_iff in H. destruct H as [H1 H2].
  apply String.eqb_eq in H1, H2. now subst.
Qed.

Lemma key_eqb_refl : forall a, HarParser.key_eqb a a = true.
Proof.
  intros [a1 a2]. unfold HarParser.key_eqb. cbn. now rewrite !String.eqb_refl.
Qed.

Lemma modify_cons : forall K V (keqb : K -> K -> bool) k dflt (f : V -> V) k' v d,
  PyDict.modify keqb k dflt f ((k', v) :: d)
  = if keqb k k' then (k', f v) :: d else (k', v) :: PyDict.modify keqb k dflt f d.
Proof.
  intros. unfold PyDict.modify. cbn [PyDict.get PyDict.set].
  destruct (keqb k k'); reflexivity.
Qed.

Lemma modify_group_of : forall requests_data req groups,
  In req requests_data ->
  Capture.response req <> None ->
  Forall (group_of requests_data) groups ->
  Forall (group_of requests_data)
         (PyDict.modify HarParser.key_eqb
            (Capture.get_or (Capture.method req) "GET",
             fst (HarParser.normalize_url (HarParser.req_url req)))
            [] (fun l => l ++ [req]) groups).
Proof.
  intros data req groups Hin Hresp.
  induction groups as [|[k' reqs] groups IH]; intro Hall.
  - constructor; [| constructor]. split; cbn; [discriminate |].
    constructor; [| constructor]. repeat split; assumption.
  - rewrite modify_cons. apply Forall_cons_iff in Hall. destruct Hall as [Hg Hrest].
    destruct (HarParser.key_eqb _ k') eqn:Hk.
    + apply key_eqb_eq in Hk. constructor; [| exact Hrest].
      destruct Hg as [_ Hreqs]. split; cbn [snd fst] in *.
      * destruct reqs; discriminate.
      * apply Forall_app. split; [exact Hreqs |].
        constructor; [| constructor]. subst k'. cbn [fst snd]. repeat split; assumption.
    + constructor; [exact Hg | now apply IH].
Qed.

Lemma group_requests_from : forall requests_data todo groups,
  incl todo requests_data ->
  Forall (group_of requests_data) groups ->
  Forall (group_of requests_data)
    (fold_left
       (fun endpoint_groups req =>
          match Capture.response req with
          | None => endpoint_groups
          | Some _ =>
              let method := Capture.get_or (Capture.method req) "GET" in
              let '(path, _) := HarParser.normalize_url (HarParser.req_url req) in
              PyDict.modify HarParser.key_eqb (method, path) [] (fun l => l ++ [req])
                            endpoint_groups
          end)
       todo groups).
Proof.
  intros data todo. induction todo as [|req todo IH]; intros groups Hincl Hall; cbn [fold_left].
  - exact Hall.
  - apply IH; [intros x Hx; apply Hincl; now right |].
    destruct (Capture.response req) eqn:Hresp; [| exact Hall].
    pose proof (modify_group_of data req groups) as Hm.
    destruct (HarParser.normalize_url (HarParser.req_url req)) as [path query].
    apply Hm; [apply Hincl; now left | rewrite Hresp; discriminate | exact Hall].
Qed.

Lemma group_requests_groups : forall requests_data,
  Forall (group_of requests_data) (HarParser.group_requests requests_data).
Proof.
  intro data. unfold HarParser.group_requests.
  apply group_requests_from; [apply incl_refl | constructor].
Qed.

Lemma build_endpoints_in : forall parse_qs json_loads groups endpoints endpoint,
  HarParser.build_endpoints parse_qs json_loads groups = Some endpoints ->
  In endpoint endpoints ->
  exists method base_path requests,
    In ((method, base_path), requests) groups
    /\ HarParser.build_endpoint parse_qs json_loads method base_path requests
       = Some endpoint.
Proof.
  intros pq jl groups. induction groups as [|[[m p] reqs] groups IH]; intros eps ep Hb Hin.
  - injection Hb as <-. destruct Hin.
  - cbn [HarParser.build_endpoints] in Hb.
    destruct (HarParser.build_endpoint pq jl m p reqs) as [e|] eqn:He; [| discriminate].
    destruct (HarParser.build_endpoints pq jl groups) as [es|]; [| discriminate].
    injection Hb as <-. destruct Hin as [<- | Hin].
    + exists m, p, reqs. split; [now left | exact He].
    + destruct (IH es ep eq_refl Hin) as [m' [p' [reqs' [Hg Hbe]]]].
      exists m', p', reqs'. split; [now right | exact Hbe].
Qed.

Lemma same_segments_no_parameter : forall (segs : list string) i
                                          (path_params : list (string * list string)) n,
  fold_left
    (fun pp '(i, (seg, base_seg)) =>
       if String.eqb seg base_seg then pp
       else
         let param_name :=
           if Nat.ltb i n then ("param_" ++ HarParser.str_of_nat i)%string else "id" in
         PyDict.modify String.eqb param_name [] (PySet.add seg) pp)
    (HarParser.enumerate_from i (combine segs segs)) path_params
  = path_params.
Proof.
  induction segs as [|seg segs IH]; intros i pp n; [reflexivity |].
  cbn [combine HarParser.enumerate_from fold_left]. rewrite String.eqb_refl. apply IH.
Qed.

Lemma collect_path_params_same : forall base_path requests,
  Forall (fun req => fst (HarParser.normalize_url (HarParser.req_url req)) = base_path)
         requests ->
  HarParser.collect_path_params base_path requests = [].
Proof.
  intros p reqs. unfold HarParser.collect_path_params. generalize (@nil (string * list string)).
  induction reqs as [|req reqs IH]; intros acc Hall; [reflexivity |].
  apply Forall_cons_iff in Hall. destruct Hall as [Hreq Hrest].
  cbn [fold_left]. rewrite Hreq. unfold HarParser.enumerate.
  rewrite same_segments_no_parameter. now apply IH.
Qed.

Lemma segments_at_same : forall path i segment seen_paths,
  nth_error (PyStr.split "/" path) i = Some segment ->
  Forall (eq path) seen_paths ->
  Forall (eq segment) (HarParser.segments_at i seen_paths)
  /\ (seen_paths <> [] -> HarParser.segments_at i seen_paths <> []).
Proof.
  intros p i seg seen Hnth Hall. unfold HarParser.segments_at.
  induction seen as [|q seen IH]; [split; [constructor | congruence] |].
  apply Forall_cons_iff in Hall. destruct Hall as [<- Hrest].
  cbn [flat_map]. rewrite Hnth. cbn [app]. split; [| discriminate].
  constructor; [reflexivity | now apply IH].
Qed.

Lemma existsb_same : forall A (f : A -> bool) x l,
  Forall (eq x) l -> l <> [] -> existsb f l = f x.
Proof.
  intros A f x l Hall Hne. induction l as [|a l IH]; [congruence |].
  apply Forall_cons_iff in Hall. destruct Hall as [<- Hrest]. cbn [existsb].
  destruct l as [|b l]; [cbn; apply orb_false_r |].
  rewrite IH; [apply orb_diag | exact Hrest | discriminate].
Qed.

Lemma template_segment_same : forall path segments seen_paths i segment,
  nth_error (PyStr.split "/" path) i = Some segment ->
  Forall (eq path) seen_paths ->
  seen_paths <> [] ->
  HarParser.template_segment segments seen_paths i segment = own_segment segment.
Proof.
  intros p segments seen i seg Hnth Hall Hne.
  destruct (segments_at_same p i seg seen Hnth Hall) as [Hsame Hne'].
  specialize (Hne' Hne). unfold HarParser.template_segment, own_segment.
  rewrite !(existsb_same _ _ seg _ Hsame Hne').
  rewrite String.eqb_refl. cbn [negb]. rewrite andb_false_r.
  destruct (PyStr.isdigit seg); reflexivity.
Qed.

Lemma template_segments_same : forall path seen_paths segments before rest,
  PyStr.split "/" path = before ++ rest ->
  Forall (eq path) seen_paths ->
  seen_paths <> [] ->
  map (fun '(i, segment) => HarParser.template_segment segments seen_paths i segment)
      (HarParser.enumerate_from (List.length before) rest)
  = map own_segment rest.
Proof.
  intros p seen segments before rest. revert before.
  induction rest as [|seg rest IH]; intros before Hsplit Hall Hne; [reflexivity |].
  cbn [HarParser.enumerate_from map]. f_equal.
  - apply (template_segment_same p); [| exact Hall | exact Hne].
    rewrite Hsplit, nth_error_app2, Nat.sub_diag; [reflexivity | lia].
  - specialize (IH (before ++ [seg])). rewrite length_app in IH. cbn [List.length] in IH.
    rewrite Nat.add_1_r in IH. apply IH; [| exact Hall | exact Hne].
    now rewrite <- app_assoc.
Qed.

Lemma detect_template_path_same : forall path seen_paths,
  Forall (eq path) seen_paths ->
  seen_paths <> [] ->
  HarParser.detect_template_path path seen_paths = own_template path.
Proof.
  intros p seen Hall Hne. unfold HarParser.detect_template_path, own_template.
  destruct seen as [|q seen]; [congruence |]. f_equal. unfold HarParser.enumerate.
  apply (template_segments_same p (q :: seen) _ []); [reflexivity | exact Hall | exact Hne].
Qed.

(** X18.  Each endpoint that [parse_requests] returns stands for one
    concrete path of an answered request of the log, under the method
    of that request: its path parameters are empty, and its template is
    that path with each segment of digits replaced by [{id:int}] and
    each UUID segment by [{id:uuid}], the other segments untouched
    (never [{param}]). *)
Theorem parse_requests_endpoint_of_path :
  forall parse_qs json_loads requests_data endpoints endpoint,
    HarParser.parse_requests parse_qs json_loads requests_data = Some endpoints ->
    In endpoint endpoints ->
    HarParser.path (HarParser.parameters endpoint) = []
    /\ exists req,
         In req requests_data
         /\ Capture.response req <> None
         /\ HarParser.method endpoint = Capture.get_or (Capture.method req) "GET"
         /\ HarParser.templated_path endpoint
            = own_template (fst (HarParser.normalize_url (HarParser.req_url req))).
Proof.
  intros pq jl data eps ep Hparse Hin. unfold HarParser.parse_requests in Hparse.
  destruct (build_endpoints_in _ _ _ _ _ Hparse Hin) as [m [p [reqs [Hg Hbuild]]]].
  pose proof (group_requests_groups data) as Hgroups.
  rewrite Forall_forall in Hgroups. specialize (Hgroups _ Hg).
  destruct Hgroups as [Hne Hreqs]. cbn [fst snd] in Hne, Hreqs.
  assert (Hpaths : Forall (fun req => fst (HarParser.normalize_url (HarParser.req_url req)) = p)
                          reqs).
  { eapply Forall_impl; [| exact Hreqs]. intros r Hr. apply Hr. }
  unfold HarParser.build_endpoint in Hbuild.
  destruct (HarParser.collect_bodies jl ([], []) reqs) as [[sample_bodies body_params]|];
    [| discriminate].
  injection Hbuild as <-. cbn [HarParser.parameters HarParser.path HarParser.method
                               HarParser.templated_path].
  split; [now apply collect_path_params_same |].
  destruct reqs as [|req reqs]; [congruence |].
  apply Forall_cons_iff in Hreqs. destruct Hreqs as [[Hdata [Hresp [Hm Hp]]] _].
  exists req. repeat split; try assumption; [now symmetry |].
  rewrite Hp. apply detect_template_path_same; [| discriminate].
  apply Forall_forall. intros q Hq. apply in_map_iff in Hq. destruct Hq as [r [<- Hr]].
  rewrite Forall_forall in Hpaths. symmetry. now apply Hpaths.
Qed.

(** The theorem at the log of two user requests. *)
Lemma parse_requests_endpoint_of_path_witness :
  exists endpoint,
    HarParser.path (HarParser.parameters endpoint) = []
    /\ exists req,
         In req Scenario.users_log
         /\ Capture.response req <> None
         /\ HarParser.method endpoint = Capture.get_or (Capture.method req) "GET"
         /\ HarParser.templated_path endpoint
            = own_template (fst (HarParser.normalize_url (HarParser.req_url req))).
Proof.
  destruct (HarParser.parse_requests (fun _ => []) (fun _ => None) Scenario.users_log)
    as [endpoints|] eqn:Hparse; [| discriminate Hparse].
  destruct endpoints as [|endpoint endpoints]; [discriminate Hparse |].
  exists endpoint.
  apply (parse_requests_endpoint_of_path (fun _ => []) (fun _ => None) Scenario.users_log
           (endpoint :: endpoints) endpoint Hparse).
  now left.
Defined.

(** X19.  A request of the log that has no response changes nothing:
    [parse_requests] gives the same result with and without it, wherever
    it stands. *)
Theorem parse_requests_skips_unanswered :
  forall parse_qs json_loads before req after,
    Capture.response req = None ->
    HarParser.parse_requests parse_qs json_loads (before ++ req :: after)
    = HarParser.parse_requests parse_qs json_loads (before ++ after).
Proof.
  intros pq jl before req after Hresp.
  unfold HarParser.parse_requests, HarParser.group_requests.
  rewrite !fold_left_app. cbn [fold_left]. now rewrite Hresp.
Qed.

(** The theorem at a request that was never answered, put before the
    log of two user requests. *)
Lemma parse_requests_skips_unanswered_witness :
  HarParser.parse_requests (fun _ => []) (fun _ => None)
    ([] ++ Capture.mkRequest (Some "GET") (Some "/api/orders/7") None None
        :: Scenario.users_log)
  = HarParser.parse_requests (fun _ => []) (fun _ => None) ([] ++ Scenario.users_log).
Proof.
  apply (parse_requests_skips_unanswered (fun _ => []) (fun _ => None) []
           (Capture.mkRequest (Some "GET") (Some "/api/orders/7") None None)
           Scenario.users_log).
  reflexivity.
Defined.

Lemma body_step_none_iff : forall json_loads st req,
  HarParser.body_step json_loads st req = None <-> body_not_object json_loads req = true.
Proof.
  intros jl [sample_bodies body_params] req.
  unfold HarParser.body_step, body_not_object.
  destruct (HarParser.extract_json_body jl (HarParser.body_text req)) as [j|];
    [| split; discriminate].
  destruct j; cbn [Json.truthy];
    try (match goal with |- context [if ?b then _ else _] => destruct b end);
    split; intro H; try discriminate H; try reflexivity.
Qed.

Lemma collect_bodies_none_iff : forall json_loads requests st,
  HarParser.collect_bodies json_loads st requests = None
  <-> existsb (body_not_object json_loads) requests = true.
Proof.
  intros jl reqs. induction reqs as [|req reqs IH]; intro st;
    cbn [HarParser.collect_bodies existsb]; [split; discriminate |].
  pose proof (body_step_none_iff jl st req) as Hstep.
  destruct (HarParser.body_step jl st req) as [st'|].
  - destruct (body_not_object jl req);
      [destruct Hstep as [_ Hstep]; discriminate (Hstep eq_refl) |].
    cbn [orb]. apply IH.
  - destruct Hstep as [Hstep _]. rewrite (Hstep eq_refl). split; reflexivity.
Qed.

Lemma build_endpoints_none_iff : forall parse_qs json_loads groups,
  HarParser.build_endpoints parse_qs json_loads groups = None
  <-> Exists (fun g => existsb (body_not_object json_loads) (snd g) = true) groups.
Proof.
  intros pq jl groups. induction groups as [|[[m p] reqs] groups IH];
    cbn [HarParser.build_endpoints].
  - split; [discriminate | intro H; inversion H].
  - pose proof (collect_bodies_none_iff jl reqs ([], [])) as Hc.
    unfold HarParser.build_endpoint.
    destruct (HarParser.collect_bodies jl ([], []) reqs) as [[sb bp]|].
    + destruct (HarParser.build_endpoints pq jl groups) as [eps|].
      * split; [discriminate |]. intro H. apply Exists_cons in H. destruct H as [H | H].
        -- cbn [snd] in H. destruct Hc as [_ Hc]. discriminate (Hc H).
        -- destruct IH as [_ IH]. discriminate (IH H).
      * split; [| reflexivity]. intros _. apply Exists_cons_tl. now apply IH.
    + split; [| reflexivity]. intros _. apply Exists_cons_hd. cbn [snd]. now apply Hc.
Qed.

Lemma modify_keeps_members : forall k (req x : Capture.Request) groups,
  (exists g, In g groups /\ In x (snd g)) ->
  exists g, In g (PyDict.modify HarParser.key_eqb k [] (fun l => l ++ [req]) groups)
            /\ In x (snd g).
Proof.
  intros k req x groups. induction groups as [|[k' reqs] groups IH]; intros [g [Hg Hx]].
  - destruct Hg.
  - rewrite modify_cons. destruct Hg as [<- | Hg].
    + destruct (HarParser.key_eqb k k').
      * exists (k', reqs ++ [req]). split; [now left |]. cbn [snd] in *.
        apply in_or_app. now left.
      * exists (k', reqs). split; [now left | exact Hx].
    + destruct (HarParser.key_eqb k k').
      * exists g. split; [now right | exact Hx].
      * destruct IH as [g' [Hg' Hx']]; [now exists g |].
        exists g'. split; [now right | exact Hx'].
Qed.

Lemma modify_adds_member : forall k (req : Capture.Request) groups,
  exists g, In g (PyDict.modify HarParser.key_eqb k [] (fun l => l ++ [req]) groups)
            /\ In req (snd g).
Proof.
  intros k req groups. induction groups as [|[k' reqs] groups IH].
  - exists (k, [req]). split; now left.
  - rewrite modify_cons. destruct (HarParser.key_eqb k k').
    + exists (k', reqs ++ [req]). split; [now left |]. cbn [snd].
      apply in_or_app. right. now left.
    + destruct IH as [g [Hg Hx]]. exists g. split; [now right | exact Hx].
Qed.

Lemma group_requests_complete_from : forall x todo groups,
  (exists g, In g groups /\ In x (snd g)) \/ (In x todo /\ Capture.response x <> None) ->
  exists g,
    In g (fold_left
            (fun endpoint_groups req =>
               match Capture.response req with
               | None => endpoint_groups
               | Some _ =>
                   let method := Capture.get_or (Capture.method req) "GET" in
                   let '(path, _) := HarParser.normalize_url (HarParser.req_url req) in
                   PyDict.modify HarParser.key_eqb (method, path) [] (fun l => l ++ [req])
                                 endpoint_groups
               end)
            todo groups)
    /\ In x (snd g).
Proof.
  intros x todo. induction todo as [|req todo IH]; intros groups H; cbn [fold_left].
  - destruct H as [H | [[] _]]. exact H.
  - apply IH. destruct H as [H | [[<- | Hin] Hresp]].
    + left. destruct (Capture.response req); [| exact H].
      destruct (HarParser.normalize_url (HarParser.req_url req)) as [path query].
      now apply modify_keeps_members.
    + left. destruct (Capture.response req); [| congruence].
      destruct (HarParser.normalize_url (HarParser.req_url req)) as [path query].
      apply modify_adds_member.
    + right. now split.
Qed.

(** X20.  [parse_requests] returns endpoints only when no answered
    request of the log has a body text (its request body or, when that
    is empty, the body of its response) that parses to a JSON value
    which is truthy and not an object, as a non-empty array or a
    number: the body loop calls [.items()] on such a value and
    raises. *)
Theorem parse_requests_returns_only_objects :
  forall parse_qs json_loads requests_data endpoints req,
    HarParser.parse_requests parse_qs json_loads requests_data = Some endpoints ->
    In req requests_data ->
    Capture.response req <> None ->
    body_not_object json_loads req = false.
Proof.
  intros pq jl data eps req Hparse Hin Hresp.
  destruct (body_not_object jl req) eqn:Hbad; [| reflexivity].
  assert (Hnone : HarParser.parse_requests pq jl data = None).
  { unfold HarParser.parse_requests. apply build_endpoints_none_iff, Exists_exists.
    destruct (group_requests_complete_from req data []) as [g [Hg Hreq]];
      [right; now split |].
    exists g. split; [exact Hg |]. apply existsb_exists. now exists req. }
  congruence.
Qed.

(** The theorem at a log of one request, sent without a body and
    answered with an object. *)
Lemma parse_requests_returns_only_objects_witness :
  body_not_object Scenario.loads_json_text Scenario.answered_with_json = false.
Proof.
  destruct (HarParser.parse_requests (fun _ => []) Scenario.loads_json_text
              [Scenario.answered_with_json])
    as [endpoints|] eqn:Hparse; [| discriminate Hparse].
  apply (parse_requests_returns_only_objects (fun _ => []) Scenario.loads_json_text
           [Scenario.answered_with_json] endpoints Scenario.answered_with_json Hparse).
  - now left.
  - discriminate.
Defined.

Lemma modify_Forall : forall K V (keqb : K -> K -> bool) (P : K * V -> Prop)
                             k dflt (f : V -> V) d,
  (forall k' v, keqb k k' = true -> P (k', v) -> P (k', f v)) ->
  P (k, f dflt) ->
  Forall P d ->
  Forall P (PyDict.modify keqb k dflt f d).
Proof.
  intros K V keqb P k dflt f d Hupd Hnew. induction d as [|[k' v] d IH]; intro Hall.
  - constructor; [exact Hnew | constructor].
  - rewrite modify_cons. apply Forall_cons_iff in Hall. destruct Hall as [Hv Hrest].
    destruct (keqb k k') eqn:Hk.
    + constructor; [now apply Hupd | exact Hrest].
    + constructor; [exact Hv | now apply IH].
Qed.

Lemma existsb_eqb_false : forall x s, existsb (String.eqb x) s = false -> ~ In x s.
Proof.
  intros x s H Hin. assert (Ht : existsb (String.eqb x) s = true).
  { apply existsb_exists. exists x. split; [exact Hin | apply String.eqb_refl]. }
  congruence.
Qed.

Lemma set_add_spec : forall (P : string -> Prop) x s,
  NoDup s -> Forall P s -> P x ->
  PySet.add x s <> [] /\ NoDup (PySet.add x s) /\ Forall P (PySet.add x s).
Proof.
  intros P x s Hnd Hall Hx. unfold PySet.add.
  destruct (existsb (String.eqb x) s) eqn:Hmem.
  - repeat split; try assumption. destruct s; [discriminate Hmem | discriminate].
  - apply existsb_eqb_false in Hmem. repeat split.
    + destruct s; discriminate.
    + apply NoDup_app; [exact Hnd | constructor; [intros [] | constructor] |].
      intros a Ha [<- | []]. contradiction.
    + apply Forall_app. split; [exact Hall | constructor; [exact Hx | constructor]].
Qed.

Lemma body_items_values : forall (P : string -> string -> Prop) items body_params,
  (forall key value, In (key, value) items -> Json.is_scalar value = true ->
                     P key (Json.str value)) ->
  Forall (fun kv => snd kv <> [] /\ NoDup (snd kv) /\ Forall (P (fst kv)) (snd kv))
         body_params ->
  Forall (fun kv => snd kv <> [] /\ NoDup (snd kv) /\ Forall (P (fst kv)) (snd kv))
    (fold_left
       (fun bp '(key, value) =>
          if Json.is_scalar value
          then PyDict.modify String.eqb key [] (PySet.add (Json.str value)) bp
          else bp)
       items body_params).
Proof.
  intros P items. induction items as [|[key value] items IH]; intros bp Hitems Hall;
    cbn [fold_left]; [exact Hall |].
  apply IH; [intros k v Hin; apply Hitems; now right |].
  destruct (Json.is_scalar value) eqn:Hscalar; [| exact Hall].
  assert (Hx : P key (Json.str value)) by (apply Hitems; [now left | exact Hscalar]).
  apply modify_Forall; [| | exact Hall].
  - intros k' vs Hk [_ [Hnd Hvs]]. apply String.eqb_eq in Hk. subst k'.
    cbn [fst snd] in *. now apply set_add_spec.
  - cbn [fst snd]. apply set_add_spec; [constructor | constructor | exact Hx].
Qed.

Lemma collect_bodies_origin : forall json_loads requests_data requests st st',
  Forall (fun req => In req requests_data /\ Capture.response req <> None) requests ->
  HarParser.collect_bodies json_loads st requests = Some st' ->
  Forall (fun items => items <> [] /\ body_object json_loads requests_data items) (fst st) ->
  Forall (fun kv => snd kv <> [] /\ NoDup (snd kv)
                    /\ Forall (body_value json_loads requests_data (fst kv)) (snd kv))
         (snd st) ->
  Forall (fun items => items <> [] /\ body_object json_loads requests_data items) (fst st')
  /\ Forall (fun kv => snd kv <> [] /\ NoDup (snd kv)
                       /\ Forall (body_value json_loads requests_data (fst kv)) (snd kv))
            (snd st').
Proof.
  intros jl data reqs. induction reqs as [|req reqs IH]; intros st st' Hreqs Hcollect Hsb Hbp;
    cbn [HarParser.collect_bodies] in Hcollect.
  - injection Hcollect as <-. now split.
  - apply Forall_cons_iff in Hreqs. destruct Hreqs as [[Hin Hresp] Hrest].
    destruct (HarParser.body_step jl st req) as [st1|] eqn:Hstep; [| discriminate].
    apply (IH st1 st' Hrest Hcollect); clear IH Hcollect;
      unfold HarParser.body_step in Hstep; destruct st as [sb bp]; cbn [fst snd] in *;
      destruct (HarParser.extract_json_body jl (HarParser.body_text req)) as [j|] eqn:Hj;
      try (injection Hstep as <-; assumption);
      destruct (Json.truthy j) eqn:Htruthy;
      try (injection Hstep as <-; assumption);
      destruct j as [| | | | | |items]; try discriminate Hstep;
      injection Hstep as <-; cbn [fst snd].
    + apply Forall_app. split; [exact Hsb |]. constructor; [| constructor].
      split; [destruct items; [discriminate Htruthy | discriminate] |].
      exists req. now repeat split.
    + apply body_items_values; [| exact Hbp]. intros key value Hkv Hscalar.
      exists items, value. repeat split; try assumption. exists req. now repeat split.
Qed.

Lemma firstn_NoDup : forall A n (l : list A), NoDup l -> NoDup (firstn n l).
Proof.
  intros A n l H. rewrite <- (firstn_skipn n l) in H. now apply NoDup_app_remove_r in H.
Qed.

(** X21.  What an endpoint of [parse_requests] records of the bodies:
    at most five sample bodies, each a non-empty object read for an
    answered request of the log; and for each body parameter between
    one and ten values, no value twice, each the text of a scalar found
    under that key at the top of such an object. *)
Theorem parse_requests_bodies :
  forall parse_qs json_loads requests_data endpoints endpoint,
    HarParser.parse_requests parse_qs json_loads requests_data = Some endpoints ->
    In endpoint endpoints ->
    List.length (HarParser.sample_bodies endpoint) <= 5
    /\ Forall (fun items => items <> [] /\ body_object json_loads requests_data items)
              (HarParser.sample_bodies endpoint)
    /\ Forall (fun kv => 1 <= List.length (snd kv) <= 10
                         /\ NoDup (snd kv)
                         /\ Forall (body_value json_loads requests_data (fst kv)) (snd kv))
              (HarParser.body (HarParser.parameters endpoint)).
Proof.
  intros pq jl data eps ep Hparse Hin. unfold HarParser.parse_requests in Hparse.
  destruct (build_endpoints_in _ _ _ _ _ Hparse Hin) as [m [p [reqs [Hg Hbuild]]]].
  pose proof (group_requests_groups data) as Hgroups.
  rewrite Forall_forall in Hgroups. destruct (Hgroups _ Hg) as [_ Hreqs].
  cbn [fst snd] in Hreqs.
  assert (Hanswered : Forall (fun req => In req data /\ Capture.response req <> None) reqs).
  { eapply Forall_impl; [| exact Hreqs]. intros r [H1 [H2 _]]. now split. }
  unfold HarParser.build_endpoint in Hbuild.
  destruct (HarParser.collect_bodies jl ([], []) reqs) as [[sample_bodies body_params]|]
    eqn:Hcollect; [| discriminate].
  injection Hbuild as <-.
  cbn [HarParser.parameters HarParser.body HarParser.sample_bodies].
  destruct (collect_bodies_origin jl data reqs _ _ Hanswered Hcollect) as [Hsb Hbp];
    [constructor | constructor |]. cbn [fst snd] in Hsb, Hbp.
  split; [exact (firstn_le_length 5 sample_bodies) |].
  split; [exact (forall_firstn _ _ 5 _ Hsb) |].
  unfold PyDict.map_values. apply Forall_map. eapply Forall_impl; [| exact Hbp].
  intros [k vs] [Hne [Hnd Hvs]].
  change (1 <= List.length (firstn 10 vs) <= 10
          /\ NoDup (firstn 10 vs)
          /\ Forall (body_value jl data k) (firstn 10 vs)).
  cbn [fst snd] in Hne, Hnd, Hvs. repeat split.
  - rewrite length_firstn. destruct vs; [congruence | cbn [List.length]; lia].
  - apply firstn_le_length.
  - now apply firstn_NoDup.
  - now apply forall_firstn.
Qed.

(** The theorem at a log of one request, sent without a body and
    answered with an object. *)
Lemma parse_requests_bodies_witness :
  exists endpoint,
    List.length (HarParser.sample_bodies endpoint) <= 5
    /\ Forall (fun items =>
                 items <> []
                 /\ body_object Scenario.loads_json_text [Scenario.answered_with_json] items)
              (HarParser.sample_bodies endpoint)
    /\ Forall (fun kv =>
                 1 <= List.length (snd kv) <= 10
                 /\ NoDup (snd kv)
                 /\ Forall (body_value Scenario.loads_json_text
                                       [Scenario.answered_with_json] (fst kv)) (snd kv))
              (HarParser.body (HarParser.parameters endpoint)).
Proof.
  destruct (HarParser.parse_requests (fun _ => []) Scenario.loads_json_text
              [Scenario.answered_with_json])
    as [endpoints|] eqn:Hparse; [| discriminate Hparse].
  destruct endpoints as [|endpoint endpoints]; [discriminate Hparse |].
  exists endpoint.
  apply (parse_requests_bodies (fun _ => []) Scenario.loads_json_text
           [Scenario.answered_with_json] (endpoint :: endpoints) endpoint Hparse).
  now left.
Defined.

Lemma set_Forall : forall V (P : string * V -> Prop) k v d,
  P (k, v) -> Forall P d -> Forall P (PyDict.set String.eqb k v d).
Proof.
  intros V P k v d Hv. induction d as [|[k' v'] d IH]; intro Hall; cbn [PyDict.set].
  - constructor; [exact Hv | constructor].
  - apply Forall_cons_iff in Hall. destruct Hall as [Hv' Hrest].
    destruct (String.eqb k k') eqn:Hk.
    + apply String.eqb_eq in Hk. subst k'. now constructor.
    + constructor; [exact Hv' | now apply IH].
Qed.

Lemma observed_from : forall (P : string * list string -> Prop) params observed,
  (forall param_name values, In (param_name, values) params ->
                             HarParser.id_like param_name = true ->
                             P (param_name, firstn 20 values)) ->
  Forall P observed ->
  Forall P
    (fold_left (fun o '(param_name, values) =>
                  if HarParser.id_like param_name
                  then PyDict.set String.eqb param_name (firstn 20 values) o else o)
               params observed).
Proof.
  intros P params. induction params as [|[n vs] params IH]; intros o Hparams Hall;
    cbn [fold_left]; [exact Hall |].
  apply IH; [intros n' vs' Hin; apply Hparams; now right |].
  destruct (HarParser.id_like n) eqn:Hid; [| exact Hall].
  apply set_Forall; [| exact Hall]. apply Hparams; [now left | exact Hid].
Qed.

Lemma collect_observed_ids_entries : forall parameters,
  HarParser.path parameters = [] ->
  Forall (observed_entry parameters) (HarParser.collect_observed_ids parameters).
Proof.
  intros ps Hpath. unfold HarParser.collect_observed_ids. rewrite Hpath. cbn [fold_left].
  apply observed_from.
  - intros n vs Hin Hid. split; [exact Hid |]. exists vs. split; [now right | reflexivity].
  - apply observed_from; [| constructor].
    intros n vs Hin Hid. split; [exact Hid |]. exists vs. split; [now left | reflexivity].
Qed.

(** X22.  The [observed_ids] of an endpoint of [parse_requests] hold
    nothing from the path: each entry is a query or body parameter of
    the endpoint whose name holds [id] in any case, with the first
    twenty of its values. *)
Theorem parse_requests_observed_ids :
  forall parse_qs json_loads requests_data endpoints endpoint,
    HarParser.parse_requests parse_qs json_loads requests_data = Some endpoints ->
    In endpoint endpoints ->
    Forall (observed_entry (HarParser.parameters endpoint))
           (HarParser.observed_ids endpoint).
Proof.
  intros pq jl data eps ep Hparse Hin. unfold HarParser.parse_requests in Hparse.
  destruct (build_endpoints_in _ _ _ _ _ Hparse Hin) as [m [p [reqs [Hg Hbuild]]]].
  pose proof (group_requests_groups data) as Hgroups.
  rewrite Forall_forall in Hgroups. destruct (Hgroups _ Hg) as [_ Hreqs].
  cbn [fst snd] in Hreqs.
  assert (Hpaths : Forall (fun req => fst (HarParser.normalize_url (HarParser.req_url req)) = p)
                          reqs).
  { eapply Forall_impl; [| exact Hreqs]. intros r Hr. apply Hr. }
  unfold HarParser.build_endpoint in Hbuild.
  destruct (HarParser.collect_bodies jl ([], []) reqs) as [[sample_bodies body_params]|];
    [| discriminate].
  injection Hbuild as <-. cbn [HarParser.parameters HarParser.observed_ids].
  apply collect_observed_ids_entries. cbn [HarParser.path].
  now apply collect_path_params_same.
Qed.

(** The theorem at a log of one request with the query [user_id=7]:
    the one entry of [observed_ids] is that parameter. *)
Lemma parse_requests_observed_ids_witness :
  exists endpoint,
    HarParser.observed_ids endpoint = [("user_id", ["7"])]
    /\ Forall (observed_entry (HarParser.parameters endpoint))
              (HarParser.observed_ids endpoint).
Proof.
  destruct (HarParser.parse_requests parse_qs_user_id (fun _ => None) [items_of_user])
    as [endpoints|] eqn:Hparse; [| discriminate Hparse].
  destruct endpoints as [|endpoint endpoints]; [discriminate Hparse |].
  exists endpoint. split.
  - injection Hparse as <- _. reflexivity.
  - apply (parse_requests_observed_ids parse_qs_user_id (fun _ => None) [items_of_user]
             (endpoint :: endpoints) endpoint Hparse).
    now left.
Defined.

(** *** The pools of identifiers *)

Lemma fold_left_invariant : forall A B (f : A -> B -> A) (I : A -> Prop) l a,
  I a ->
  (forall a b, In b l -> I a -> I (f a b)) ->
  I (fold_left f l a).
Proof.
  intros A B f I l. induction l as [|b l IH]; intros a Ha Hstep; cbn [fold_left]; [exact Ha |].
  apply IH; [apply Hstep; [now left | exact Ha] |].
  intros a' b' Hb'. apply Hstep. now right.
Qed.

Lemma add_int_distinct : forall n s,
  NoDup (map IdInference.int_value s) ->
  NoDup (map IdInference.int_value (IdInference.add_int n s))
  /\ IdInference.add_int n s <> [].
Proof.
  intros n s Hnd. unfold IdInference.add_int.
  destruct (existsb _ s) eqn:Hmem.
  - split; [exact Hnd |]. destruct s; [discriminate Hmem | discriminate].
  - split; [| destruct s; discriminate].
    rewrite map_app. apply NoDup_app; [exact Hnd | constructor; [intros [] | constructor] |].
    intros z Hz [<- | []]. apply in_map_iff in Hz. destruct Hz as [m [Hm Hin]].
    assert (Ht : existsb (fun m => Z.eqb (IdInference.int_value m) (IdInference.int_value n)) s
                 = true).
    { apply existsb_exists. exists m. split; [exact Hin | now apply Z.eqb_eq]. }
    congruence.
Qed.

Lemma add_wellformed : forall value pool,
  pool_wellformed pool ->
  pool_wellformed (IdInference.add value pool)
  /\ IdInference.name (IdInference.add value pool) = IdInference.name pool
  /\ IdInference.location (IdInference.add value pool) = IdInference.location pool.
Proof.
  intros value pool [Hi Hu Hs Huu Hss Ht]. unfold IdInference.add.
  destruct (IdInference.is_integer_id (IdInference.json_of_input value)) eqn:Hint.
  - match goal with |- context [IdInference.add_int ?n _] =>
      destruct (add_int_distinct n _ Hi) as [Hnd Hne] end.
    split; [| split; reflexivity].
    constructor; cbn [IdInference.integer_ids IdInference.uuid_ids IdInference.string_ids
                      IdInference.inferred_type]; try assumption.
    unfold IdInference.infer_type.
    match goal with |- context [IdInference.add_int ?n ?s] =>
      destruct (IdInference.add_int n s); [congruence | reflexivity] end.
  - destruct value as [z | b | s]; try discriminate Hint.
    cbn [IdInference.json_of_input IdInference.is_integer_id] in Hint.
    cbn [IdInference.json_of_input IdInference.is_uuid Json.str].
    destruct (PyStr.uuid_match s) eqn:Huuid.
    + destruct (set_add_spec (fun s => PyStr.uuid_match s = true /\ PyStr.isdigit s = false)
                  s _ Hu Huu (conj Huuid Hint)) as [Hne [Hnd Hall]].
      split; [| split; reflexivity].
      constructor; cbn [IdInference.integer_ids IdInference.uuid_ids IdInference.string_ids
                        IdInference.inferred_type]; try assumption.
      unfold IdInference.infer_type. destruct (IdInference.integer_ids pool); [| reflexivity].
      cbn [Json.nonempty]. destruct (PySet.add s (IdInference.uuid_ids pool));
        [congruence | reflexivity].
    + destruct (set_add_spec (fun s => PyStr.uuid_match s = false /\ PyStr.isdigit s = false)
                  s _ Hs Hss (conj Huuid Hint)) as [Hne [Hnd Hall]].
      split; [| split; reflexivity].
      constructor; cbn [IdInference.integer_ids IdInference.uuid_ids IdInference.string_ids
                        IdInference.inferred_type]; try assumption.
      unfold IdInference.infer_type. destruct (IdInference.integer_ids pool); [| reflexivity].
      cbn [Json.nonempty]. destruct (IdInference.uuid_ids pool); [| reflexivity].
      cbn [Json.nonempty]. destruct (PySet.add s (IdInference.string_ids pool));
        [congruence | reflexivity].
Qed.

Lemma new_entry : forall name location,
  In location ["path"; "query"; "body"] ->
  pool_entry (name, IdInference.new name location).
Proof.
  intros name location Hloc. split; [reflexivity |]. split; [exact Hloc |].
  constructor; cbn; constructor.
Qed.

Lemma add_entry : forall value name pool,
  pool_entry (name, pool) -> pool_entry (name, IdInference.add value pool).
Proof.
  intros value name pool [Hname [Hloc Hwf]]. cbn [fst snd] in *.
  destruct (add_wellformed value pool Hwf) as [Hwf' [Hname' Hloc']].
  split; [cbn [fst snd]; congruence |]. split; [cbn [fst snd]; now rewrite Hloc' | exact Hwf'].
Qed.

Lemma pools_of_params_entries : forall location params id_pools,
  In location ["path"; "query"; "body"] ->
  Forall pool_entry id_pools ->
  Forall pool_entry (IdInference.pools_of_params location params id_pools).
Proof.
  intros location params id_pools Hloc Hall. unfold IdInference.pools_of_params.
  apply fold_left_invariant; [exact Hall |].
  intros pools [param_name values] _ Hpools.
  destruct (IdInference.looks_like_id param_name values); [| exact Hpools].
  apply set_Forall; [| exact Hpools].
  apply (fold_left_invariant _ _ _ (fun pool => pool_entry (param_name, pool)));
    [now apply new_entry |].
  intros pool value _ Hpool. now apply add_entry.
Qed.

Lemma pools_of_body_entries : forall body id_pools,
  Forall pool_entry id_pools ->
  Forall pool_entry (IdInference.pools_of_body body id_pools).
Proof.
  intros body id_pools Hall. unfold IdInference.pools_of_body.
  apply fold_left_invariant; [exact Hall |].
  intros pools [key value] _ Hpools.
  destruct (IdInference.matches_id_pattern key
            && (IdInference.is_integer_id value || IdInference.is_uuid value)); [| exact Hpools].
  cbv zeta.
  match goal with
  | |- Forall _ (match PyDict.get _ _ ?d with _ => _ end) =>
      assert (Hensured : Forall pool_entry d)
  end.
  { destruct (PyDict.get String.eqb ("body." ++ key)%string pools); [exact Hpools |].
    apply set_Forall; [| exact Hpools]. apply new_entry. cbn. tauto. }
  match goal with
  | |- Forall _ (match PyDict.get _ ?k ?d with _ => _ end) =>
      destruct (PyDict.get String.eqb k d) as [pool|] eqn:Hget; [| exact Hensured]
  end.
  destruct (IdInference.input_of_json value) as [v|]; [| exact Hensured].
  apply set_Forall; [| exact Hensured]. apply add_entry.
  apply get_in in Hget. destruct Hget as [k' [-> Hin]].
  rewrite Forall_forall in Hensured. now apply Hensured.
Qed.


Lemma keys_set : forall V k k0 (v : V) d,
  In k (PyDict.keys (PyDict.set String.eqb k0 v d)) <-> k = k0 \/ In k (PyDict.keys d).
Proof.
  intros V k k0 v d. unfold PyDict.keys.
  induction d as [|[k' v'] d IH]; cbn [PyDict.set map fst In].
  - split; [intros [<- | []]; now left | intros [-> | []]; now left].
  - destruct (String.eqb k0 k') eqn:Hk; cbn [map fst In].
    + apply String.eqb_eq in Hk. subst k'. split; [tauto |]. intros [-> | H]; tauto.
    + rewrite IH. tauto.
Qed.

Lemma fold_left_keys : forall A V (f : list (string * V) -> A -> list (string * V))
                              (opens : A -> string -> Prop) l d k,
  (forall d a k, In k (PyDict.keys (f d a)) <-> In k (PyDict.keys d) \/ opens a k) ->
  In k (PyDict.keys (fold_left f l d))
  <-> In k (PyDict.keys d) \/ exists a, In a l /\ opens a k.
Proof.
  intros A V f opens l. induction l as [|a l IH]; intros d k Hstep; cbn [fold_left].
  - split; [now left | intros [H | [a [[] _]]]; exact H].
  - rewrite (IH _ _ Hstep), Hstep. split.
    + intros [[H | H] | [b [Hb H]]]; [now left | right; exists a; split; [now left | exact H] |].
      right. exists b. split; [now right | exact H].
    + intros [H | [b [[<- | Hb] H]]]; [left; now left | left; now right |].
      right. now exists b.
Qed.

Lemma pools_of_params_keys : forall location params id_pools k,
  In k (PyDict.keys (IdInference.pools_of_params location params id_pools))
  <-> In k (PyDict.keys id_pools)
      \/ exists entry, In entry params
                       /\ (fst entry = k
                           /\ IdInference.looks_like_id (fst entry) (snd entry) = true).
Proof.
  intros location params id_pools k. unfold IdInference.pools_of_params.
  apply (fold_left_keys _ _ _
           (fun entry k => fst entry = k
                           /\ IdInference.looks_like_id (fst entry) (snd entry) = true)).
  intros d [param_name values] k'. cbn [fst snd].
  destruct (IdInference.looks_like_id param_name values).
  - rewrite keys_set. split; [intros [-> | H]; tauto | intros [H | [<- _]]; tauto].
  - split; [tauto | intros [H | [_ H]]; [exact H | discriminate]].
Qed.

Lemma pools_of_body_keys : forall body id_pools k,
  In k (PyDict.keys (IdInference.pools_of_body body id_pools))
  <-> In k (PyDict.keys id_pools)
      \/ exists item, In item body
                      /\ (k = ("body." ++ fst item)%string
                          /\ IdInference.matches_id_pattern (fst item)
                             && (IdInference.is_integer_id (snd item)
                                 || IdInference.is_uuid (snd item)) = true).
Proof.
  intros body id_pools k. unfold IdInference.pools_of_body.
  apply (fold_left_keys _ _ _
           (fun item k => k = ("body." ++ fst item)%string
                          /\ IdInference.matches_id_pattern (fst item)
                             && (IdInference.is_integer_id (snd item)
                                 || IdInference.is_uuid (snd item)) = true)).
  intros d [key value] k'. cbn [fst snd].
  destruct (IdInference.matches_id_pattern key
            && (IdInference.is_integer_id value || IdInference.is_uuid value));
    [| split; [tauto | intros [H | [_ H]]; [exact H | discriminate]]].
  cbv zeta.
  match goal with
  | |- In _ (PyDict.keys (match PyDict.get _ _ ?d' with _ => _ end)) <-> _ =>
      assert (Hensured : forall x, In x (PyDict.keys d')
                                   <-> x = ("body." ++ key)%string \/ In x (PyDict.keys d))
  end.
  { intro x. destruct (PyDict.get String.eqb ("body." ++ key)%string d) as [pool|] eqn:Hget.
    - split; [tauto |]. intros [-> | H]; [| exact H].
      apply get_in in Hget. destruct Hget as [k0 [-> Hin]].
      unfold PyDict.keys. apply in_map_iff. now exists (("body." ++ key)%string, pool).
    - apply keys_set. }
  match goal with
  | |- In _ (PyDict.keys (match PyDict.get _ ?n ?d' with _ => _ end)) <-> _ =>
      destruct (PyDict.get String.eqb n d') as [pool|];
        [destruct (IdInference.input_of_json value) |]
  end; try rewrite keys_set; rewrite ?Hensured; intuition.
Qed.

(** X24.  Which pools there are: [infer_ids_from_endpoint] returns a
    pool under a name exactly when the name is a path, query or body
    parameter of the endpoint that is named like an identifier or has an
    integer or a UUID among its values, or is [body.<key>] for a key of
    a sample body that is named like an identifier and holds an integer
    or a UUID. *)
Theorem id_pool_names : forall endpoint pool_name,
  (exists pool, In (pool_name, pool) (IdInference.infer_ids_from_endpoint endpoint))
  <-> pool_name_of endpoint pool_name.
Proof.
  intros endpoint n.
  assert (Hkeys : (exists pool, In (n, pool) (IdInference.infer_ids_from_endpoint endpoint))
                  <-> In n (PyDict.keys (IdInference.infer_ids_from_endpoint endpoint))).
  { unfold PyDict.keys. rewrite in_map_iff. split.
    - intros [pool Hin]. now exists (n, pool).
    - intros [[k pool] [<- Hin]]. now exists pool. }
  rewrite Hkeys. clear Hkeys. unfold IdInference.infer_ids_from_endpoint. cbv zeta.
  rewrite (fold_left_keys _ _ _
             (fun body k =>
                exists item, In item body
                             /\ (k = ("body." ++ fst item)%string
                                 /\ IdInference.matches_id_pattern (fst item)
                                    && (IdInference.is_integer_id (snd item)
                                        || IdInference.is_uuid (snd item)) = true)));
    [| intros; apply pools_of_body_keys].
  rewrite !pools_of_params_keys. unfold pool_name_of, IdInference.looks_like_id.
  cbn [PyDict.keys map In]. split.
  - intros [[[[[] | H] | H] | H] | H].
    + destruct H as [[k vs] [Hin [<- Hid]]]. left. exists vs. cbn [fst snd] in *. tauto.
    + destruct H as [[k vs] [Hin [<- Hid]]]. left. exists vs. cbn [fst snd] in *. tauto.
    + destruct H as [[k vs] [Hin [<- Hid]]]. left. exists vs. cbn [fst snd] in *. tauto.
    + destruct H as [body [Hbody [[key value] [Hitem [-> Hcond]]]]]. right.
      cbn [fst snd] in *. apply andb_true_iff in Hcond. destruct Hcond as [Hname Hvalue].
      exists body, key, value. tauto.
  - intros [[vs [[H | [H | H]] Hid]] | [body [key [value [Hbody [Hitem [-> [Hname Hvalue]]]]]]]].
    + left. left. left. right. exists (n, vs). cbn [fst snd]. tauto.
    + left. left. right. exists (n, vs). cbn [fst snd]. tauto.
    + left. right. exists (n, vs). cbn [fst snd]. tauto.
    + right. exists body. split; [exact Hbody |]. exists (key, value). cbn [fst snd].
      rewrite Hname, Hvalue. tauto.
Qed.

(** *** The report *)

Lemma group_group_append : forall k k' finding groups,
  ReportGenerator.group k (ReportGenerator.group_append k' finding groups)
  = if String.eqb k' k
    then ReportGenerator.group k groups ++ [finding]
    else ReportGenerator.group k groups.
Proof.
  intros k k' f groups. unfold ReportGenerator.group, ReportGenerator.group_append, PyDict.modify.
  destruct (String.eqb k' k) eqn:Hk.
  - apply String.eqb_eq in Hk. subst k'. rewrite get_set_same. cbn [Capture.get_or].
    destruct (PyDict.get String.eqb k groups); reflexivity.
  - apply String.eqb_neq in Hk. rewrite get_set_other; [reflexivity | congruence].
Qed.

Lemma by_severity_from : forall k findings groups,
  ReportGenerator.group k
    (fold_left (fun groups finding =>
                  ReportGenerator.group_append
                    (Capture.get_or (ReportGenerator.severity finding) "LOW") finding groups)
               findings groups)
  = ReportGenerator.group k groups ++ filter (filed_under k) findings.
Proof.
  intros k findings. induction findings as [|f findings IH]; intro groups;
    cbn [fold_left filter]; [now rewrite app_nil_r |].
  rewrite IH, group_group_append. unfold filed_under at 2.
  destruct (String.eqb _ k); [now rewrite <- app_assoc | reflexivity].
Qed.

Lemma filed_once : forall findings,
  List.length (filter (filed_under "HIGH") findings)
  + List.length (filter (filed_under "MEDIUM") findings)
  + List.length (filter (filed_under "LOW") findings)
  <= List.length findings.
Proof.
  induction findings as [|f findings IH]; [cbn; lia |]. cbn [filter List.length].
  assert (Hf : forall k, filed_under k f
                         = String.eqb (Capture.get_or (ReportGenerator.severity f) "LOW") k)
    by reflexivity.
  rewrite !Hf. clear Hf.
  destruct (String.eqb_spec (Capture.get_or (ReportGenerator.severity f) "LOW") "HIGH")
    as [-> | _]; [cbn; lia |].
  destruct (String.eqb_spec (Capture.get_or (ReportGenerator.severity f) "LOW") "MEDIUM")
    as [-> | _]; [cbn; lia |].
  destruct (String.eqb (Capture.get_or (ReportGenerator.severity f) "LOW") "LOW");
    cbn [List.length]; lia.
Qed.

Lemma filed_analyzer_findings : forall findings,
  List.length (filter (filed_under "HIGH") (map ReportGenerator.of_finding findings))
  + List.length (filter (filed_under "MEDIUM") (map ReportGenerator.of_finding findings))
  + List.length (filter (filed_under "LOW") (map ReportGenerator.of_finding findings))
  = List.length findings.
Proof.
  induction findings as [|f findings IH]; [reflexivity |]. cbn [map filter List.length].
  assert (Hf : forall k, filed_under k (ReportGenerator.of_finding f)
                         = String.eqb (ReportGenerator.severity_name (DiffAnalyzer.severity f)) k)
    by reflexivity.
  rewrite !Hf. clear Hf.
  destruct (DiffAnalyzer.severity f); cbn [ReportGenerator.severity_name];
    repeat match goal with
           | |- context [String.eqb ?a ?b] =>
               let v := eval vm_compute in (String.eqb a b) in
               change (String.eqb a b) with v
           end;
    cbn [List.length]; lia.
Qed.

(** X25.  The summary of the JSON report counts under [high] and
    [medium] the findings of that severity, and under [low] those of
    severity [LOW] together with those that have no severity; a finding
    of any other severity is counted in [total_findings] only, so the
    three counts add up to at most the total, and to the total for
    findings as the analyzer writes them. *)
Theorem summary_counts : forall findings,
  ReportGenerator.high (ReportGenerator.summary findings)
  = List.length (filter (filed_under "HIGH") findings)
  /\ ReportGenerator.medium (ReportGenerator.summary findings)
     = List.length (filter (filed_under "MEDIUM") findings)
  /\ ReportGenerator.low (ReportGenerator.summary findings)
     = List.length (filter (filed_under "LOW") findings)
  /\ ReportGenerator.high (ReportGenerator.summary findings)
     + ReportGenerator.medium (ReportGenerator.summary findings)
     + ReportGenerator.low (ReportGenerator.summary findings)
     <= ReportGenerator.total_findings (ReportGenerator.summary findings)
  /\ forall analyzed,
       let s := ReportGenerator.summary (map ReportGenerator.of_finding analyzed) in
       ReportGenerator.high s + ReportGenerator.medium s + ReportGenerator.low s
       = ReportGenerator.total_findings s
       /\ ReportGenerator.total_findings s = List.length analyzed.
Proof.
  assert (Hgroup : forall k fs,
             List.length (ReportGenerator.group k (ReportGenerator.by_severity fs))
             = List.length (filter (filed_under k) fs)).
  { intros k fs. unfold ReportGenerator.by_severity. now rewrite by_severity_from. }
  intro findings. unfold ReportGenerator.summary.
  cbn [ReportGenerator.high ReportGenerator.medium ReportGenerator.low
       ReportGenerator.total_findings].
  rewrite !Hgroup. repeat split; [apply filed_once | |].
  - rewrite !Hgroup, length_map. apply filed_analyzer_findings.
  - apply length_map.
Qed.

(** *** The captured body *)

(** X26.  [truncate_body] keeps the first [max_size] characters of the
    body as they are, and a body that was cut shows it: the result is
    within [max_size] exactly when the body was, so a cut body is
    stored longer than the limit. *)
Theorem truncate_body_marks_cut : forall body max_size,
  PyStr.take max_size (PlaywrightCapture.truncate_body body max_size)
  = PyStr.take max_size body
  /\ (String.length (PlaywrightCapture.truncate_body body max_size) <= max_size
      <-> String.length body <= max_size).
Proof.
  intros body max_size. unfold PlaywrightCapture.truncate_body.
  destruct (Nat.ltb max_size (String.length body)) eqn:Hcut.
  - apply Nat.ltb_lt in Hcut. split; [apply take_of_cut; lia |].
    rewrite string_app_length, take_length.
    unfold PlaywrightCapture.truncation_marker. cbn [append String.length]. lia.
  - apply Nat.ltb_ge in Hcut. split; [reflexivity | tauto].
Qed.

(** *** Enhancement *)

Lemma set_present_keys : forall V k (v v0 : V) d,
  PyDict.get String.eqb k d = Some v0 ->
  PyDict.keys (PyDict.set String.eqb k v d) = PyDict.keys d.
Proof.
  intros V k v v0 d. unfold PyDict.keys.
  induction d as [|[k' v'] d IH]; cbn [PyDict.get PyDict.set map fst]; [discriminate |].
  destruct (String.eqb k k'); cbn [map fst]; [reflexivity |].
  intro H. now rewrite IH.
Qed.

Lemma get_map_values : forall V W (f : V -> W) k d,
  PyDict.get String.eqb k (PyDict.map_values f d) = option_map f (PyDict.get String.eqb k d).
Proof.
  intros V W f k d. unfold PyDict.map_values.
  induction d as [|[k' v'] d IH]; cbn [PyDict.get map fst snd]; [reflexivity |].
  destruct (String.eqb k k'); [reflexivity | exact IH].
Qed.

Lemma in_get : forall V k (v : V) d,
  In (k, v) d -> PyDict.get String.eqb k d <> None.
Proof.
  intros V k v d. induction d as [|[k' v'] d IH]; intros Hin; [destruct Hin |].
  cbn [PyDict.get]. destruct (String.eqb k k') eqn:Hk; [discriminate |].
  destruct Hin as [Heq | Hin]; [| now apply IH].
  injection Heq as -> _. now rewrite String.eqb_refl in Hk.
Qed.

(** X27.  [enhance_endpoints_with_ids] keeps one entry per endpoint, in
    order, and neither adds a name to [observed_ids] nor removes one:
    the names are those the parser left, in their order, and an entry
    whose name has no pool keeps its values. *)
Theorem enhance_keeps_observed_names : forall endpoints,
  map IdInference.endpoint (IdInference.enhance_endpoints_with_ids endpoints) = endpoints
  /\ Forall (fun enhanced =>
               PyDict.keys (IdInference.observed_ids enhanced)
               = PyDict.keys (HarParser.observed_ids (IdInference.endpoint enhanced))
               /\ forall name,
                    PyDict.get String.eqb name
                      (IdInference.infer_ids_from_endpoint (IdInference.endpoint enhanced))
                    = None ->
                    PyDict.get String.eqb name (IdInference.observed_ids enhanced)
                    = option_map (map IdInference.OfStr)
                        (PyDict.get String.eqb name
                           (HarParser.observed_ids (IdInference.endpoint enhanced))))
            (IdInference.enhance_endpoints_with_ids endpoints).
Proof.
  intro endpoints. unfold IdInference.enhance_endpoints_with_ids. split.
  - rewrite map_map. cbn [IdInference.enhance_endpoint IdInference.endpoint]. apply map_id.
  - apply Forall_map. apply Forall_forall. intros endpoint _.
    cbn [IdInference.enhance_endpoint IdInference.endpoint IdInference.observed_ids]. split.
    + apply (fold_left_invariant _ _ _
               (fun observed =>
                  PyDict.keys observed = PyDict.keys (HarParser.observed_ids endpoint))).
      * unfold PyDict.keys, PyDict.map_values. rewrite map_map. reflexivity.
      * intros observed [pool_name pool] _ Hkeys.
        destruct (PyDict.get String.eqb pool_name observed) as [ids|] eqn:Hget;
          [| exact Hkeys].
        now rewrite (set_present_keys _ _ _ _ _ Hget).
    + intros name Hnone. rewrite <- get_map_values.
      apply (fold_left_invariant _ _ _
               (fun observed =>
                  PyDict.get String.eqb name observed
                  = PyDict.get String.eqb name
                      (PyDict.map_values (map IdInference.OfStr)
                                         (HarParser.observed_ids endpoint))));
        [reflexivity |].
      intros observed [pool_name pool] Hin Hget.
      destruct (PyDict.get String.eqb pool_name observed); [| exact Hget].
      rewrite get_set_other; [exact Hget |].
      intros ->. now apply in_get in Hin.
Qed.
